(** * Blue Ridge Hot Tubs: product-mix LP and sensitivity sweeps

    A shallow embedding of [lp_model.py], [sensitivity.py] and
    [run_analysis.py].

    Numbers.  Python [int]s are [Z].  Python [float]s (variable values,
    profits, deltas) are idealised as exact rationals [Q]: every finite float
    is a rational, and [+], [-], [*], [abs], [round] and the comparisons are
    taken without rounding error.  The literal [1e-6] is [1 # 1000000].
    Equality of floats ([==]) is [Qeq].  Where the rounding of binary64
    decides a statement (the slack identity of [solve_hot_tubs], the
    accuracy of [delta_profit]), the arithmetic is modelled with its
    rounding: [solve_hot_tubs_binary64] and [delta_profit_binary64] round
    every operation to the nearest double, ties to even.

    Failure.  A Python call either returns or raises; functions that can
    raise return a [result].  The external solver (pulp / CBC) is an oracle
    [LpProblem -> SolverOutcome] that either raises or returns a status with
    optional variable and objective values, as [x.value()] and
    [pulp.value(model.objective)] give [None] when no value was assigned.

    Printing.  The [q*] functions of [sensitivity.py] print and return
    [None]; their model returns what they print as a report value. *)

From Stdlib Require Import String ZArith QArith Qabs Qround Qpower List Bool.
From Stdlib Require Import Lia Lqa.
Import ListNotations.

Open Scope Q_scope.

(* ------------------------------------------------------------------ *)
(** ** Exceptions and results *)

Inductive exn : Type :=
| SolverError   (* raised inside [model.solve] *)
| IndexError    (* list index out of range *)
| ValueError    (* [max] of an empty sequence, [list.index] of an absent value *)
| KeyError      (* missing dict key *)
| TypeError.    (* formatting [None] with a float format *)

Inductive result (A : Type) : Type :=
| Ok (a : A)
| Raise (e : exn).

Arguments Ok {A} a.
Arguments Raise {A} e.

Definition bind {A B : Type} (m : result A) (k : A -> result B) : result B :=
  match m with
  | Ok a => k a
  | Raise e => Raise e
  end.

Notation "x <- m ;; k" := (bind m (fun x => k))
  (at level 61, m at next level, right associativity).

(* ------------------------------------------------------------------ *)
(** ** Python primitives used by the scripts *)

(** [x < y] on floats. *)
Definition Qlt_bool (x y : Q) : bool := negb (Qle_bool y x).

(** The tolerance literal [1e-6]. *)
Definition tol : Q := 1 # 1000000.

(** [v > 1e-6]. *)
Definition exceeds_tol (v : Q) : bool := Qlt_bool tol v.

(** Rounding to the nearest integer, ties to even (the rule of [round]). *)
Definition round_half_even (q : Q) : Z :=
  let f := Qfloor q in
  match Qcompare (q - inject_Z f) (1 # 2) with
  | Lt => f
  | Gt => (f + 1)%Z
  | Eq => if Z.even f then f else (f + 1)%Z
  end.

(** [round(x, 2)]. *)
Definition py_round2 (x : Q) : Q := inject_Z (round_half_even (x * 100)) / 100.

(** [range(a, b)]. *)
Definition py_range (a b : Z) : list Z :=
  map (fun k => (a + Z.of_nat k)%Z) (seq 0 (Z.to_nat (b - a))).

(** [l[i]] with Python's negative indices; out of range raises. *)
Definition py_index {A : Type} (l : list A) (i : Z) : result A :=
  let n := Z.of_nat (length l) in
  let j := if (i <? 0)%Z then (i + n)%Z else i in
  if ((j <? 0) || (n <=? j))%Z then Raise IndexError
  else match nth_error l (Z.to_nat j) with
       | Some a => Ok a
       | None => Raise IndexError
       end.

(** [max(l)]: the first largest item; empty raises. *)
Definition py_max (l : list Q) : result Q :=
  match l with
  | [] => Raise ValueError
  | a :: t => Ok (fold_left (fun m x => if Qlt_bool m x then x else m) t a)
  end.

(** [l.index(v)]: position of the first item equal to [v]; absent raises. *)
Fixpoint py_list_index (l : list Q) (v : Q) (i : Z) : result Z :=
  match l with
  | [] => Raise ValueError
  | a :: t => if Qeq_bool a v then Ok i else py_list_index t v (i + 1)%Z
  end.

(** A dict with string keys, in insertion order. *)
Definition dict : Type := list (string * Q).

(** [d[k]]. *)
Fixpoint dict_get (d : dict) (k : string) : result Q :=
  match d with
  | [] => Raise KeyError
  | (k', v) :: t => if String.eqb k' k then Ok v else dict_get t k
  end.

(** [v or 0.0] for a value that may be [None]: [None] and zero are falsy. *)
Definition or_zero (v : option Q) : Q :=
  match v with
  | None => 0
  | Some q => if Qeq_bool q 0 then 0 else q
  end.

(* ------------------------------------------------------------------ *)
(** ** lp_model.py *)

Record Resources : Type := mkResources {
  pumps : Z;
  labor_hours : Z;
  tubing_feet : Z
}.

(** [Resources()] : the dataclass defaults. *)
Definition default_resources : Resources := mkResources 200 1566 2880.

Record Solution : Type := mkSolution {
  x_aqua : Q;
  x_hydro : Q;
  profit : Q;
  used : dict;
  slack : dict
}.

(** A linear constraint [a1 * x1 + a2 * x2 <= rhs]. *)
Record LpConstraint : Type := mkConstraint {
  coef1 : Q;
  coef2 : Q;
  rhs : Q
}.

(** The model handed to the solver: maximise [obj1 * x1 + obj2 * x2] over
    [x1 >= low1], [x2 >= low2] subject to the constraints. *)
Record LpProblem : Type := mkProblem {
  obj1 : Q;
  obj2 : Q;
  low1 : Q;
  low2 : Q;
  constraints : list LpConstraint
}.

(** The problem [solve_hot_tubs] builds before calling the solver. *)
Definition build_model (res : Resources) : LpProblem :=
  mkProblem 350 300 0 0
    [ mkConstraint 1 1 (inject_Z (pumps res));
      mkConstraint 9 6 (inject_Z (labor_hours res));
      mkConstraint 12 16 (inject_Z (tubing_feet res)) ].

(** Status codes of the solver. *)
Inductive LpStatus : Type :=
| LpStatusOptimal
| LpStatusNotSolved
| LpStatusInfeasible
| LpStatusUnbounded
| LpStatusUndefined.

(** What a call to the solver does: it raises, or it returns a status and
    leaves [x1.value()], [x2.value()] and [value(model.objective)] readable,
    each possibly [None]. *)
Inductive SolverOutcome : Type :=
| SolverRaises
| SolverReturns (status : LpStatus) (v1 v2 vobj : option Q).

Definition Solver : Type := LpProblem -> SolverOutcome.

Definition satisfies (x1 x2 : Q) (c : LpConstraint) : Prop :=
  coef1 c * x1 + coef2 c * x2 <= rhs c.

Definition feasible (lp : LpProblem) (x1 x2 : Q) : Prop :=
  low1 lp <= x1 /\ low2 lp <= x2 /\ Forall (satisfies x1 x2) (constraints lp).

Definition objective (lp : LpProblem) (x1 x2 : Q) : Q :=
  obj1 lp * x1 + obj2 lp * x2.

(** [(x1, x2)] with value [v] is an exact optimum of [lp]. *)
Definition exact_optimum (lp : LpProblem) (x1 x2 v : Q) : Prop :=
  feasible lp x1 x2 /\
  v == objective lp x1 x2 /\
  forall y1 y2, feasible lp y1 y2 -> objective lp y1 y2 <= v.

(** The solver answers [lp] with an exact optimum. *)
Definition solves_exactly (solver : Solver) (lp : LpProblem) : Prop :=
  exists st x1 x2 v,
    solver lp = SolverReturns st (Some x1) (Some x2) (Some v) /\
    exact_optimum lp x1 x2 v.

(** The solver reports no solution: it returns, with no variable value and
    no objective value. *)
Definition no_solution (o : SolverOutcome) : Prop :=
  exists st, st <> LpStatusOptimal /\ o = SolverReturns st None None None.

Section WithSolver.

Variable solver : Solver.

Definition solve_hot_tubs (res : Resources) : result Solution :=
  match solver (build_model res) with
  | SolverRaises => Raise SolverError
  | SolverReturns _ v1 v2 vobj =>
      let xa := or_zero v1 in
      let xh := or_zero v2 in
      let profit := or_zero vobj in
      let used : dict :=
        [ ("pumps"%string, xa + xh);
          ("labor"%string, 9 * xa + 6 * xh);
          ("tubing"%string, 12 * xa + 16 * xh) ] in
      up <- dict_get used "pumps";;
      ul <- dict_get used "labor";;
      ut <- dict_get used "tubing";;
      let slack : dict :=
        [ ("pumps"%string, inject_Z (pumps res) - up);
          ("labor"%string, inject_Z (labor_hours res) - ul);
          ("tubing"%string, inject_Z (tubing_feet res) - ut) ] in
      Ok (mkSolution xa xh profit used slack)
  end.

(* ------------------------------------------------------------------ *)
(** ** run_analysis.py *)

(** The tuple [xs, profits, breakpoint_at, max_profit, max_at] returned by
    the two curve functions. *)
Record Curve : Type := mkCurve {
  curve_xs : list Z;
  curve_profits : list Q;
  curve_breakpoint_at : Z;
  curve_max_profit : Q;
  curve_max_at : Z
}.

(** The loop [for p in xs: sol = solve_hot_tubs(...); profits.append(sol.profit)],
    with [mk] building the envelope of the swept value. *)
Fixpoint collect_profits (mk : Z -> Resources) (xs : list Z) : result (list Q) :=
  match xs with
  | [] => Ok []
  | p :: rest =>
      sol <- solve_hot_tubs (mk p);;
      profits <- collect_profits mk rest;;
      Ok (profit sol :: profits)
  end.

(** [[profits[i+1] - profits[i] for i in range(len(profits)-1)]]; the indices
    are in range, so no access raises. *)
Definition marginal_deltas (profits : list Q) : list Q :=
  map (fun i => nth (S i) profits 0 - nth i profits 0)
      (seq 0 (length profits - 1)).

(** [for i, d in enumerate(deltas[1:], start=1)]: [ds] is what is left of
    [deltas[1:]] and [i] the index of its head; leaves [bp]. *)
Fixpoint scan_deltas (xs : list Z) (first : Q) (i : Z) (ds : list Q)
  : result (option Z) :=
  match ds with
  | [] => Ok None
  | d :: rest =>
      if exceeds_tol (Qabs (d - first)) then
        x <- py_index xs i;; Ok (Some x)
      else scan_deltas xs first (i + 1)%Z rest
  end.

(** The block [if deltas: ... else: breakpoint_at = xs[-1]]. *)
Definition detect_breakpoint (xs : list Z) (deltas : list Q) : result Z :=
  match deltas with
  | first :: tl =>
      bp <- scan_deltas xs first 1 tl;;
      match bp with
      | Some b => Ok b
      | None => py_index xs (-1)
      end
  | [] => py_index xs (-1)
  end.

Definition sensitivity_curve_pumps (start stop labor tubing : Z) : result Curve :=
  let xs := py_range start (stop + 1) in
  profits <- collect_profits (fun p => mkResources p labor tubing) xs;;
  let deltas := marginal_deltas profits in
  breakpoint_at <- detect_breakpoint xs deltas;;
  max_profit <- py_max profits;;
  j <- py_list_index profits max_profit 0;;
  max_at <- py_index xs j;;
  Ok (mkCurve xs profits breakpoint_at max_profit max_at).

Definition sensitivity_curve_labor (start stop pumps tubing : Z) : result Curve :=
  let xs := py_range start (stop + 1) in
  profits <- collect_profits (fun h => mkResources pumps h tubing) xs;;
  let deltas := marginal_deltas profits in
  breakpoint_at <- detect_breakpoint xs deltas;;
  max_profit <- py_max profits;;
  j <- py_list_index profits max_profit 0;;
  max_at <- py_index xs j;;
  Ok (mkCurve xs profits breakpoint_at max_profit max_at).

(* ------------------------------------------------------------------ *)
(** ** sensitivity.py *)

Definition delta_profit (base_profit new_profit : Q) : Q :=
  py_round2 (new_profit - base_profit).

(** The closing message of [q1_more_pumps] and [q2_more_labor]. *)
Inductive Verdict : Type :=
| BreakpointNear (until_about near : Z)
| NoBreakpoint.

(** What [q1_more_pumps] and [q2_more_labor] print. *)
Record MarginalReport : Type := mkMarginalReport {
  baseline_profit : Q;
  marginal_profit : Q;
  verdict : Verdict
}.

(** The [for] loop of [q1_more_pumps] and [q2_more_labor] over the values
    still to test, threading [last_profit], [first_delta], [breakpoint_at]. *)
Fixpoint marginal_loop (mk : Z -> Resources) (vals : list Z)
    (last_profit : Q) (first_delta : option Q) (breakpoint_at : option Z)
  : result (option Q * option Z) :=
  match vals with
  | [] => Ok (first_delta, breakpoint_at)
  | p :: rest =>
      sol <- solve_hot_tubs (mk p);;
      let d := delta_profit last_profit (profit sol) in
      match first_delta with
      | None => marginal_loop mk rest (profit sol) (Some d) breakpoint_at
      | Some fd =>
          if exceeds_tol (Qabs (d - fd)) &&
             match breakpoint_at with None => true | Some _ => false end
          then marginal_loop mk rest (profit sol) first_delta (Some p)
          else marginal_loop mk rest (profit sol) first_delta breakpoint_at
      end
  end.

(** [f"{first_delta:,.2f}"]: formatting [None] raises. *)
Definition format_delta (first_delta : option Q) : result Q :=
  match first_delta with
  | Some d => Ok d
  | None => Raise TypeError
  end.

(** [if breakpoint_at: ... else: ...]: [None] and [0] are falsy. *)
Definition closing_message (breakpoint_at : option Z) : Verdict :=
  match breakpoint_at with
  | Some b => if (b =? 0)%Z then NoBreakpoint else BreakpointNear (b - 1) b
  | None => NoBreakpoint
  end.

Definition q1_more_pumps (max_test : Z) : result MarginalReport :=
  let base_res := default_resources in
  base_sol <- solve_hot_tubs base_res;;
  let base_profit := profit base_sol in
  st <- marginal_loop
          (fun p => mkResources p (labor_hours base_res) (tubing_feet base_res))
          (py_range (pumps base_res + 1) (max_test + 1))
          base_profit None None;;
  marginal <- format_delta (fst st);;
  Ok (mkMarginalReport base_profit marginal (closing_message (snd st))).

Definition q2_more_labor (max_test : Z) : result MarginalReport :=
  let base_res := default_resources in
  base_sol <- solve_hot_tubs base_res;;
  let base_profit := profit base_sol in
  st <- marginal_loop
          (fun h => mkResources (pumps base_res) h (tubing_feet base_res))
          (py_range (labor_hours base_res + 1) (max_test + 1))
          base_profit None None;;
  marginal <- format_delta (fst st);;
  Ok (mkMarginalReport base_profit marginal (closing_message (snd st))).

(** The closing message of [q3_more_tubing]. *)
Inductive TubingVerdict : Type :=
| TubingBinding (t : Z) (d : Q)
| TubingNonBinding.

(** What [q3_more_tubing] prints. *)
Record TubingReport : Type := mkTubingReport {
  tubing_baseline_profit : Q;
  tubing_verdict : TubingVerdict
}.

(** The [for] loop of [q3_more_tubing] over the values still to test; the
    [return] inside the loop ends it. *)
Fixpoint tubing_loop (mk : Z -> Resources) (vals : list Z) (last_profit : Q)
  : result TubingVerdict :=
  match vals with
  | [] => Ok TubingNonBinding
  | t :: rest =>
      sol <- solve_hot_tubs (mk t);;
      let d := delta_profit last_profit (profit sol) in
      if exceeds_tol (Qabs d) then Ok (TubingBinding t d)
      else tubing_loop mk rest (profit sol)
  end.

Definition q3_more_tubing (increment : Z) : result TubingReport :=
  let base_res := default_resources in
  base_sol <- solve_hot_tubs base_res;;
  let base_profit := profit base_sol in
  v <- tubing_loop
         (fun t => mkResources (pumps base_res) (labor_hours base_res) t)
         (py_range (tubing_feet base_res + 1)
                   (tubing_feet base_res + increment + 1))
         base_profit;;
  Ok (mkTubingReport base_profit v).

End WithSolver.

(* ------------------------------------------------------------------ *)
(** ** Vocabulary of the statements *)

(** The three resources, with the key each has in [used] and [slack] and
    the field it has in the envelope. *)
Inductive Resource : Type := Pumps | Labor | Tubing.

Definition resource_key (r : Resource) : string :=
  match r with
  | Pumps => "pumps"
  | Labor => "labor"
  | Tubing => "tubing"
  end.

Definition envelope_amount (r : Resource) (res : Resources) : Z :=
  match r with
  | Pumps => pumps res
  | Labor => labor_hours res
  | Tubing => tubing_feet res
  end.

(** The call to the solver for [res] returns (it does not raise). *)
Definition answers (solver : Solver) (res : Resources) : Prop :=
  solver (build_model res) <> SolverRaises.

(** The profit [solve_hot_tubs] reports for [res] when the solver answers. *)
Definition profit_of (solver : Solver) (res : Resources) : Q :=
  match solver (build_model res) with
  | SolverRaises => 0
  | SolverReturns _ _ _ vobj => or_zero vobj
  end.

(** [res'] is [res] with exactly one resource increased. *)
Definition increases_one (res res' : Resources) : Prop :=
  ((pumps res < pumps res')%Z /\ labor_hours res = labor_hours res' /\
     tubing_feet res = tubing_feet res') \/
  (pumps res = pumps res' /\ (labor_hours res < labor_hours res')%Z /\
     tubing_feet res = tubing_feet res') \/
  (pumps res = pumps res' /\ labor_hours res = labor_hours res' /\
     (tubing_feet res < tubing_feet res')%Z).

(** A solver that reports no solution for every problem. *)
Definition infeasible_solver : Solver :=
  fun _ => SolverReturns LpStatusInfeasible None None None.

(** A solver that answers every problem with the baseline optimum. *)
Definition baseline_solver : Solver :=
  fun _ => SolverReturns LpStatusOptimal (Some 122) (Some 78) (Some 66100).

(** *** A concrete exact solver

    An instance of the solver oracle for the examples: it enumerates the
    vertices of the feasible region (intersections of two boundary lines)
    and returns the first one of largest objective value, or no value when
    there is no feasible vertex. *)

(** The boundary lines: the constraints and the two lower bounds. *)
Definition boundary_lines (lp : LpProblem) : list LpConstraint :=
  mkConstraint 1 0 (low1 lp) :: mkConstraint 0 1 (low2 lp) :: constraints lp.

(** Where two lines meet, if they are not parallel. *)
Definition intersection (c d : LpConstraint) : option (Q * Q) :=
  let det := coef1 c * coef2 d - coef2 c * coef1 d in
  if Qeq_bool det 0 then None
  else Some (Qred ((rhs c * coef2 d - coef2 c * rhs d) / det),
             Qred ((coef1 c * rhs d - rhs c * coef1 d) / det)).

Definition feasible_bool (lp : LpProblem) (v : Q * Q) : bool :=
  Qle_bool (low1 lp) (fst v) && Qle_bool (low2 lp) (snd v) &&
  forallb (fun c => Qle_bool (coef1 c * fst v + coef2 c * snd v) (rhs c))
          (constraints lp).

Fixpoint pairs {A : Type} (l : list A) : list (A * A) :=
  match l with
  | [] => []
  | a :: t => map (fun b => (a, b)) t ++ pairs t
  end.

Definition vertices (lp : LpProblem) : list (Q * Q) :=
  filter (feasible_bool lp)
    (flat_map (fun cd => match intersection (fst cd) (snd cd) with
                         | Some v => [v]
                         | None => []
                         end)
              (pairs (boundary_lines lp))).

Definition best_vertex (lp : LpProblem) (vs : list (Q * Q)) : option (Q * Q) :=
  fold_left
    (fun best v =>
       match best with
       | None => Some v
       | Some b =>
           if Qlt_bool (objective lp (fst b) (snd b)) (objective lp (fst v) (snd v))
           then Some v else best
       end)
    vs None.

Definition vertex_solver : Solver :=
  fun lp =>
    match best_vertex lp (vertices lp) with
    | Some v =>
        SolverReturns LpStatusOptimal (Some (fst v)) (Some (snd v))
                      (Some (Qred (objective lp (fst v) (snd v))))
    | None => SolverReturns LpStatusInfeasible None None None
    end.

(** *** Sweeps *)

(** The body shared by [sensitivity_curve_pumps] and
    [sensitivity_curve_labor], with [mk] building the envelope. *)
Definition sensitivity_curve (solver : Solver) (mk : Z -> Resources)
    (start stop : Z) : result Curve :=
  let xs := py_range start (stop + 1) in
  profits <- collect_profits solver mk xs;;
  let deltas := marginal_deltas profits in
  breakpoint_at <- detect_breakpoint xs deltas;;
  max_profit <- py_max profits;;
  j <- py_list_index profits max_profit 0;;
  max_at <- py_index xs j;;
  Ok (mkCurve xs profits breakpoint_at max_profit max_at).

(** The body shared by [q1_more_pumps] and [q2_more_labor]: [mk] builds the
    envelope and [base] is the baseline amount of the swept resource. *)
Definition marginal_report (solver : Solver) (mk : Z -> Resources)
    (base max_test : Z) : result MarginalReport :=
  base_sol <- solve_hot_tubs solver default_resources;;
  st <- marginal_loop solver mk (py_range (base + 1) (max_test + 1))
          (profit base_sol) None None;;
  marginal <- format_delta (fst st);;
  Ok (mkMarginalReport (profit base_sol) marginal (closing_message (snd st))).

(** The envelopes of the three sweeps. *)
Definition pumps_envelope (labor tubing : Z) (p : Z) : Resources :=
  mkResources p labor tubing.

Definition labor_envelope (pumps tubing : Z) (h : Z) : Resources :=
  mkResources pumps h tubing.

Definition tubing_envelope (pumps labor : Z) (t : Z) : Resources :=
  mkResources pumps labor t.

(** The first index in [k, k + n) at which [test] holds. *)
Fixpoint find_first (test : nat -> bool) (k n : nat) : option nat :=
  match n with
  | O => None
  | S n' => if test k then Some k else find_first test (S k) n'
  end.

(** [delta[i] = profits[i+1] - profits[i]]. *)
Definition delta_at (profits : list Q) (i : nat) : Q :=
  nth (S i) profits 0 - nth i profits 0.

(** [|delta[i] - delta[0]| > 1e-6]. *)
Definition deviates (profits : list Q) (i : nat) : Prop :=
  tol < Qabs (delta_at profits i - delta_at profits 0).

(** [bp] is [xs[i]] for the smallest delta index [i >= 1] that deviates from
    [delta[0]], or the last item of [xs] when no delta index does. *)
Definition breakpoint_spec (xs : list Z) (profits : list Q) (bp : Z) : Prop :=
  (exists i, (1 <= i < length profits - 1)%nat /\
             deviates profits i /\
             (forall j, (1 <= j < i)%nat -> ~ deviates profits j) /\
             nth_error xs i = Some bp) \/
  ((forall i, (1 <= i < length profits - 1)%nat -> ~ deviates profits i) /\
   nth_error xs (length xs - 1) = Some bp).

(** [mp] is the largest of [profits] and [ma] is the item of [xs] at the
    first position where [profits] equals [mp]. *)
Definition max_spec (xs : list Z) (profits : list Q) (mp : Q) (ma : Z) : Prop :=
  In mp profits /\
  (forall q, In q profits -> q <= mp) /\
  exists j, (j < length profits)%nat /\
            nth j profits 0 == mp /\
            (forall i, (i < j)%nat -> ~ nth i profits 0 == mp) /\
            nth_error xs j = Some ma.

(** The rounded delta the [q*] loops compute on reaching the value [p]. *)
Definition rounded_delta (solver : Solver) (mk : Z -> Resources) (p : Z) : Q :=
  delta_profit (profit_of solver (mk (p - 1)%Z)) (profit_of solver (mk p)).

(** The raw delta between the profits at [p - 1] and [p]. *)
Definition raw_delta (solver : Solver) (mk : Z -> Resources) (p : Z) : Q :=
  profit_of solver (mk p) - profit_of solver (mk (p - 1)%Z).

(** The test of the [q1]/[q2] loop at the [j]-th value after the baseline
    amount [base]: the rounded delta deviates from the first one. *)
Definition rounded_deviates (solver : Solver) (mk : Z -> Resources) (base : Z)
    (j : nat) : bool :=
  exceeds_tol (Qabs (rounded_delta solver mk (base + 1 + Z.of_nat j) -
                     rounded_delta solver mk (base + 1))).

(** A solver whose objective value rises by 0.004 once the tubing bound
    exceeds 2880 feet. *)
Definition tubing_bump_solver : Solver :=
  fun lp =>
    let tubing := rhs (nth 2 (constraints lp) (mkConstraint 0 0 0)) in
    SolverReturns LpStatusOptimal (Some 122) (Some 78)
      (Some (if Qle_bool tubing 2880 then 66100 else 66100 + (4 # 1000))).

(** The curve [c] is a complete result for the range [start..stop]. *)
Definition curve_complete (start stop : Z) (c : Curve) : Prop :=
  curve_xs c = py_range start (stop + 1) /\
  length (curve_profits c) = length (curve_xs c) /\
  Z.of_nat (length (curve_xs c)) = (stop - start + 1)%Z.

(** *** plot_curve and the two [main] functions *)

(** The calls [plot_curve] makes to matplotlib, in order. *)
Inductive PlotCall : Type :=
| PltFigure
| PltPlot (xs : list Z) (ys : list Q)
| PltAxvline (x : Z)
| PltXlabel (s : string)
| PltYlabel (s : string)
| PltTitle (s : string)
| PltGrid
| PltLegend
| PltTightLayout
| PltSavefig (path : string)
| PltShow.

(** [plot_curve]: the calls that completed, and whether it returned or
    raised.  [plt.plot] raises [ValueError] when [xs] and [ys] differ in
    length.  The chained comparison [xs[0] <= breakpoint_at <= xs[-1]] reads
    [xs[-1]] only when its first half holds. *)
Definition plot_curve (xs : list Z) (ys : list Q) (breakpoint_at : Z)
    (xlabel title outpath : string) : list PlotCall * result unit :=
  let opening := [PltFigure; PltPlot xs ys] in
  let closing := [PltXlabel xlabel; PltYlabel "Profit ($)"; PltTitle title;
                  PltGrid; PltLegend; PltTightLayout; PltSavefig outpath;
                  PltShow] in
  if negb (length xs =? length ys)%nat then ([PltFigure], Raise ValueError)
  else
  match py_index xs 0 with
  | Raise e => (opening, Raise e)
  | Ok x0 =>
      if (x0 <=? breakpoint_at)%Z then
        match py_index xs (-1) with
        | Raise e => (opening, Raise e)
        | Ok xl =>
            if (breakpoint_at <=? xl)%Z
            then (opening ++ [PltAxvline breakpoint_at] ++ closing, Ok tt)
            else (opening ++ closing, Ok tt)
        end
      else (opening ++ closing, Ok tt)
  end.

(** What [main] of run_analysis.py computes and draws. *)
Record AnalysisRun : Type := mkAnalysisRun {
  run_base : Solution;
  run_pumps : Curve;
  run_pumps_plot : list PlotCall;
  run_labor : Curve;
  run_labor_plot : list PlotCall
}.

(** [main] of run_analysis.py, with the default arguments of the two curve
    functions written out. *)
Definition run_analysis_main (solver : Solver) : result AnalysisRun :=
  base <- solve_hot_tubs solver (mkResources 200 1566 2880);;
  pc <- sensitivity_curve_pumps solver 200 220 1566 2880;;
  let pplot := plot_curve (curve_xs pc) (curve_profits pc)
                 (curve_breakpoint_at pc) "Number of Pumps Available"
                 "Profit vs Pumps (Breakpoint marked)" "profit_vs_pumps.png" in
  _ <- snd pplot;;
  lc <- sensitivity_curve_labor solver 1566 1820 200 2880;;
  let lplot := plot_curve (curve_xs lc) (curve_profits lc)
                 (curve_breakpoint_at lc) "Labor Hours Available"
                 "Profit vs Labor (Breakpoint marked)" "profit_vs_labor.png" in
  _ <- snd lplot;;
  Ok (mkAnalysisRun base pc (fst pplot) lc (fst lplot)).

(** What [main] of sensitivity.py prints. *)
Record SensitivityRun : Type := mkSensitivityRun {
  sens_base : Solution;
  sens_pumps : MarginalReport;
  sens_labor : MarginalReport;
  sens_tubing : TubingReport
}.

(** [main] of sensitivity.py, with the default arguments of the three
    questions written out. *)
Definition sensitivity_main (solver : Solver) : result SensitivityRun :=
  base <- solve_hot_tubs solver default_resources;;
  r1 <- q1_more_pumps solver 220;;
  r2 <- q2_more_labor solver 1800;;
  r3 <- q3_more_tubing solver 50;;
  Ok (mkSensitivityRun base r1 r2 r3).


(** [res] has no negative amount. *)
Definition nonnegative_envelope (res : Resources) : Prop :=
  (0 <= pumps res)%Z /\ (0 <= labor_hours res)%Z /\ (0 <= tubing_feet res)%Z.

(** The optimum of the pump sweep with labor 1566 and tubing 2880, in
    closed form: pumps and labor bind up to 207 pumps, labor and tubing
    beyond. *)
Definition pump_sweep_optimum (p : Z) : Q * Q * Q :=
  if (p <=? 207)%Z
  then (522 - 2 * inject_Z p, 3 * inject_Z p - 522, 26100 + 200 * inject_Z p)
  else (108, 99, 67500).

(** [vertex_solver] returns [pump_sweep_optimum p] for [p] pumps. *)
Definition vertex_solver_matches (p : Z) : bool :=
  match vertex_solver (build_model (pumps_envelope 1566 2880 p)) with
  | SolverReturns _ (Some x1) (Some x2) (Some v) =>
      let '(o1, o2, ov) := pump_sweep_optimum p in
      Qeq_bool x1 o1 && Qeq_bool x2 o2 && Qeq_bool v ov
  | _ => false
  end.

(** A solver whose every call raises. *)
Definition raising_solver : Solver := fun _ => SolverRaises.

(** *** Binary64 arithmetic

    A finite double is a rational, and each float operation returns the
    double nearest to the exact result, ties to the even mantissa.  Results
    beyond the largest double (which Python gives as [inf], or as
    [OverflowError] when an int is converted) are outside this model: the
    statements about it bound the amounts. *)

Definition pow2 (e : Z) : Q := 2 ^ e.

(** [floor (log2 |q|)] for [q <> 0]: the exponent of the binade of [q]. *)
Definition ilog2 (q : Q) : Z :=
  let k := (Z.log2 (Z.abs (Qnum q)) - Z.log2 (Zpos (Qden q)))%Z in
  if Qle_bool (pow2 k) (Qabs q) then k else (k - 1)%Z.

(** Rounding to the nearest double: 53 bits of mantissa in the binade of
    [q], and the fixed spacing [2^-1074] below [2^-1022]. *)
Definition fl (q : Q) : Q :=
  let e := (Z.max (ilog2 q) (-1022) - 52)%Z in
  inject_Z (round_half_even (q * pow2 (- e))) * pow2 e.

Definition fadd (x y : Q) : Q := fl (x + y).
Definition fsub (x y : Q) : Q := fl (x - y).
Definition fmul (x y : Q) : Q := fl (x * y).

(** [float(n)] for an int [n], as the mixed operations [int * float] and
    [int - float] apply it. *)
Definition float_of_int (n : Z) : Q := fl (inject_Z n).

(** The largest finite double. *)
Definition float_max : Z := (2 ^ 1024 - 2 ^ 971)%Z.

(** Every amount of [res] converts to a float without overflow. *)
Definition float_envelope (res : Resources) : Prop :=
  (Z.abs (pumps res) <= float_max)%Z /\
  (Z.abs (labor_hours res) <= float_max)%Z /\
  (Z.abs (tubing_feet res) <= float_max)%Z.

(** [solve_hot_tubs] with the rounding of each float operation of its
    lines 95 to 107. *)
Definition solve_hot_tubs_binary64 (solver : Solver) (res : Resources)
  : result Solution :=
  match solver (build_model res) with
  | SolverRaises => Raise SolverError
  | SolverReturns _ v1 v2 vobj =>
      let xa := or_zero v1 in
      let xh := or_zero v2 in
      let profit := or_zero vobj in
      let used : dict :=
        [ ("pumps"%string, fadd xa xh);
          ("labor"%string,
           fadd (fmul (float_of_int 9) xa) (fmul (float_of_int 6) xh));
          ("tubing"%string,
           fadd (fmul (float_of_int 12) xa) (fmul (float_of_int 16) xh)) ] in
      up <- dict_get used "pumps";;
      ul <- dict_get used "labor";;
      ut <- dict_get used "tubing";;
      let slack : dict :=
        [ ("pumps"%string, fsub (float_of_int (pumps res)) up);
          ("labor"%string, fsub (float_of_int (labor_hours res)) ul);
          ("tubing"%string, fsub (float_of_int (tubing_feet res)) ut) ] in
      Ok (mkSolution xa xh profit used slack)
  end.

(** [delta_profit] with its rounding: the float subtraction, then
    [round(., 2)], which gives the double nearest to the decimal rounding
    of its argument. *)
Definition delta_profit_binary64 (base_profit new_profit : Q) : Q :=
  fl (py_round2 (fsub new_profit base_profit)).

(** The variable values the solver leaves are at most [b] in absolute
    value. *)
Definition bounded_values (o : SolverOutcome) (b : Q) : Prop :=
  match o with
  | SolverRaises => True
  | SolverReturns _ v1 v2 _ => Qabs (or_zero v1) <= b /\ Qabs (or_zero v2) <= b
  end.

(** Every amount of [res] is at most [b] in absolute value. *)
Definition bounded_envelope (res : Resources) (b : Z) : Prop :=
  (Z.abs (pumps res) <= b)%Z /\
  (Z.abs (labor_hours res) <= b)%Z /\
  (Z.abs (tubing_feet res) <= b)%Z.

(** The solver returns, with no variable value and no objective value,
    whatever status it reports. *)
Definition returns_no_values (o : SolverOutcome) : Prop :=
  exists st, o = SolverReturns st None None None.

(** A solver that answers every problem with the plan of half an Aqua-Spa. *)
Definition half_pump_solver : Solver :=
  fun _ => SolverReturns LpStatusOptimal (Some (1 # 2)) (Some 0) (Some 175).

(** A solver whose objective value creeps up by 0.0049 with every foot of
    tubing beyond 2880. *)
Definition tubing_creep_solver : Solver :=
  fun lp =>
    let tubing := rhs (nth 2 (constraints lp) (mkConstraint 0 0 0)) in
    SolverReturns LpStatusOptimal (Some 122) (Some 78)
      (Some (if Qle_bool tubing 2880 then 66100
             else 66100 + (49 # 10000) * (tubing - 2880))).

(* ------------------------------------------------------------------ *)
(** ** Facts about the primitives *)

Lemma Qlt_bool_iff (x y : Q) : Qlt_bool x y = true <-> x < y.
Proof.
  unfold Qlt_bool. rewrite negb_true_iff.
  split; intro H.
  - apply Qnot_le_lt. intro Hle. apply Qle_bool_iff in Hle. congruence.
  - destruct (Qle_bool y x) eqn:E; [| reflexivity].
    apply Qle_bool_iff in E. exfalso. apply (Qlt_not_le _ _ H E).
Qed.

Lemma Qlt_bool_false_iff (x y : Q) : Qlt_bool x y = false <-> y <= x.
Proof.
  unfold Qlt_bool. rewrite negb_false_iff. apply Qle_bool_iff.
Qed.

Lemma exceeds_tol_iff (v : Q) : exceeds_tol v = true <-> tol < v.
Proof. apply Qlt_bool_iff. Qed.

Lemma exceeds_tol_false_iff (v : Q) : exceeds_tol v = false <-> v <= tol.
Proof. apply Qlt_bool_false_iff. Qed.

Lemma or_zero_eq (q : Q) : or_zero (Some q) == q.
Proof.
  unfold or_zero. destruct (Qeq_bool q 0) eqn:E; [| reflexivity].
  apply Qeq_bool_iff in E. symmetry. exact E.
Qed.

(** [solve_hot_tubs] returns exactly when the solver does, and then reports
    [profit_of]. *)
Lemma solve_hot_tubs_answers (solver : Solver) (res : Resources) :
  answers solver res ->
  exists sol, solve_hot_tubs solver res = Ok sol /\
              profit sol = profit_of solver res.
Proof.
  unfold answers, solve_hot_tubs, profit_of.
  destruct (solver (build_model res)) as [| st v1 v2 vobj]; [congruence |].
  intros _. simpl. eexists. split; reflexivity.
Qed.

Lemma solve_hot_tubs_raises (solver : Solver) (res : Resources) :
  ~ answers solver res -> solve_hot_tubs solver res = Raise SolverError.
Proof.
  unfold answers, solve_hot_tubs.
  destruct (solver (build_model res)); [reflexivity |].
  intros H. exfalso. apply H. discriminate.
Qed.

Lemma answers_dec (solver : Solver) (res : Resources) :
  {answers solver res} + {~ answers solver res}.
Proof.
  unfold answers. destruct (solver (build_model res)).
  - right. intros H. apply H. reflexivity.
  - left. discriminate.
Qed.

Lemma feasible_build_model (res : Resources) (x1 x2 : Q) :
  feasible (build_model res) x1 x2 <->
  0 <= x1 /\ 0 <= x2 /\
  x1 + x2 <= inject_Z (pumps res) /\
  9 * x1 + 6 * x2 <= inject_Z (labor_hours res) /\
  12 * x1 + 16 * x2 <= inject_Z (tubing_feet res).
Proof.
  unfold feasible, build_model, satisfies; simpl. split.
  - intros (H1 & H2 & HF).
    inversion HF as [| ? ? Ha HF1]; subst.
    inversion HF1 as [| ? ? Hb HF2]; subst.
    inversion HF2 as [| ? ? Hc _]; subst.
    simpl in *. clear HF HF1 HF2. repeat split; try assumption; lra.
  - intros (H1 & H2 & Ha & Hb & Hc).
    repeat split; try assumption.
    repeat constructor; simpl; lra.
Qed.

(** The baseline problem has the single optimum (122, 78), of value 66100. *)
Lemma baseline_optimum_unique (x1 x2 v : Q) :
  exact_optimum (build_model default_resources) x1 x2 v ->
  x1 == 122 /\ x2 == 78 /\ v == 66100.
Proof.
  intros (Hf & Hv & Hmax).
  apply feasible_build_model in Hf. simpl in Hf. unfold inject_Z in Hf.
  destruct Hf as (H1 & H2 & Ha & Hb & Hc).
  assert (Hopt : objective (build_model default_resources) 122 78 <= v).
  { apply Hmax. apply feasible_build_model. simpl. unfold inject_Z.
    repeat split; lra. }
  unfold objective in *; simpl in *.
  repeat split; lra.
Qed.

Lemma baseline_is_optimum :
  exact_optimum (build_model default_resources) 122 78 66100.
Proof.
  split; [| split].
  - apply feasible_build_model. simpl. unfold inject_Z. repeat split; lra.
  - unfold objective; simpl. lra.
  - intros y1 y2 Hf. apply feasible_build_model in Hf. simpl in Hf.
    unfold inject_Z in Hf.
    destruct Hf as (H1 & H2 & Ha & Hb & Hc).
    unfold objective; simpl. lra.
Qed.

Lemma baseline_solver_exact (lp : LpProblem) :
  lp = build_model default_resources -> solves_exactly baseline_solver lp.
Proof.
  intros ->. exists LpStatusOptimal, 122, 78, 66100.
  split; [reflexivity | apply baseline_is_optimum].
Qed.

Lemma Qabs_le_of_eq (a b eps : Q) : a == b -> 0 <= eps -> Qabs (a - b) <= eps.
Proof.
  intros Hab Heps. apply Qabs_case; intros _; lra.
Qed.

(* ------------------------------------------------------------------ *)
(** ** The solver wrapper: failure, baseline, monotonicity *)

(** C4, as stated, fails: when the solver reports infeasibility and leaves
    no variable or objective value, [solve_hot_tubs] raises nothing and
    returns the all-zero plan, here for the default envelope. *)
Lemma solve_hot_tubs_infeasible_returns_zero :
  no_solution (infeasible_solver (build_model default_resources)) /\
  solve_hot_tubs infeasible_solver default_resources =
    Ok (mkSolution 0 0 0
          [("pumps"%string, 0); ("labor"%string, 0); ("tubing"%string, 0)]
          [("pumps"%string, 200); ("labor"%string, 1566);
           ("tubing"%string, 2880)]) /\
  ~ (exists e, solve_hot_tubs infeasible_solver default_resources = Raise e).
Proof.
  split; [| split].
  - exists LpStatusInfeasible. split; [discriminate | reflexivity].
  - reflexivity.
  - intros [e He]. discriminate He.
Qed.

(** C4, amended: for every envelope whose amounts convert to floats, when
    the solver returns without variable and objective values, whatever
    status it reports, [solve_hot_tubs] raises nothing: it returns the plan
    with zero quantities, zero profit and nothing used. *)
Theorem solve_hot_tubs_no_values_zero_plan (solver : Solver) (res : Resources) :
  float_envelope res ->
  returns_no_values (solver (build_model res)) ->
  exists sol,
    solve_hot_tubs solver res = Ok sol /\
    x_aqua sol = 0 /\ x_hydro sol = 0 /\ profit sol = 0 /\
    forall r, exists u,
      dict_get (used sol) (resource_key r) = Ok u /\ u == 0.
Proof.
  intros _ (st & Hs). unfold solve_hot_tubs. rewrite Hs.
  cbn [or_zero bind dict_get String.eqb Ascii.eqb Bool.eqb].
  eexists. split; [reflexivity |].
  cbn [x_aqua x_hydro profit used].
  repeat split.
  intros r. destruct r; eexists; (split; [reflexivity | ring]).
Qed.

Lemma solve_hot_tubs_no_values_zero_plan_witness :
  float_envelope default_resources /\
  returns_no_values (infeasible_solver (build_model default_resources)) /\
  exists sol,
    solve_hot_tubs infeasible_solver default_resources = Ok sol /\
    x_aqua sol = 0 /\ x_hydro sol = 0 /\ profit sol = 0 /\
    forall r, exists u,
      dict_get (used sol) (resource_key r) = Ok u /\ u == 0.
Proof.
  assert (He : float_envelope default_resources).
  { unfold float_envelope. repeat split; vm_compute; discriminate. }
  assert (H : returns_no_values (infeasible_solver (build_model default_resources))).
  { exists LpStatusInfeasible. reflexivity. }
  split; [exact He |]. split; [exact H |].
  exact (solve_hot_tubs_no_values_zero_plan
           infeasible_solver default_resources He H).
Defined.

(** C6: for the envelope pumps=200, labor_hours=1566, tubing_feet=2880, if
    the solver returns an exact optimum of the problem built,
    [solve_hot_tubs] returns x_aqua, x_hydro and profit within 0.5 of
    122, 78 and 66100. *)
Theorem baseline_plan (solver : Solver) :
  solves_exactly solver (build_model (mkResources 200 1566 2880)) ->
  exists sol,
    solve_hot_tubs solver (mkResources 200 1566 2880) = Ok sol /\
    Qabs (x_aqua sol - 122) <= 1 # 2 /\
    Qabs (x_hydro sol - 78) <= 1 # 2 /\
    Qabs (profit sol - 66100) <= 1 # 2.
Proof.
  intros (st & x1 & x2 & v & Hs & Hopt).
  apply baseline_optimum_unique in Hopt. destruct Hopt as (E1 & E2 & E3).
  unfold solve_hot_tubs. rewrite Hs.
  eexists. split; [reflexivity |]. cbn [x_aqua x_hydro profit].
  repeat split; apply Qabs_le_of_eq; try lra;
    rewrite or_zero_eq; assumption.
Qed.

Lemma baseline_plan_witness :
  solves_exactly baseline_solver (build_model (mkResources 200 1566 2880)) /\
  exists sol,
    solve_hot_tubs baseline_solver (mkResources 200 1566 2880) = Ok sol /\
    Qabs (x_aqua sol - 122) <= 1 # 2 /\
    Qabs (x_hydro sol - 78) <= 1 # 2 /\
    Qabs (profit sol - 66100) <= 1 # 2.
Proof.
  split.
  - apply baseline_solver_exact. reflexivity.
  - apply (baseline_plan baseline_solver).
    apply baseline_solver_exact. reflexivity.
Defined.

Lemma feasible_increases_one (res res' : Resources) (x1 x2 : Q) :
  increases_one res res' ->
  feasible (build_model res) x1 x2 -> feasible (build_model res') x1 x2.
Proof.
  intros Hinc Hf.
  apply feasible_build_model in Hf. apply feasible_build_model.
  destruct Hf as (H1 & H2 & Ha & Hb & Hc).
  assert (Hp : inject_Z (pumps res) <= inject_Z (pumps res')).
  { rewrite <- Zle_Qle. destruct Hinc as [H | [H | H]]; lia. }
  assert (Hl : inject_Z (labor_hours res) <= inject_Z (labor_hours res')).
  { rewrite <- Zle_Qle. destruct Hinc as [H | [H | H]]; lia. }
  assert (Ht : inject_Z (tubing_feet res) <= inject_Z (tubing_feet res')).
  { rewrite <- Zle_Qle. destruct Hinc as [H | [H | H]]; lia. }
  repeat split; try assumption; eapply Qle_trans; eassumption.
Qed.

(** C8: when exactly one resource of the envelope is increased and the
    other two are kept, and the solver returns an exact optimum for both
    envelopes, the profit [solve_hot_tubs] returns for the larger envelope
    is at least the profit for the smaller one. *)
Theorem profit_monotone (solver : Solver) (res res' : Resources) :
  increases_one res res' ->
  solves_exactly solver (build_model res) ->
  solves_exactly solver (build_model res') ->
  exists sol sol',
    solve_hot_tubs solver res = Ok sol /\
    solve_hot_tubs solver res' = Ok sol' /\
    profit sol <= profit sol'.
Proof.
  intros Hinc (st & x1 & x2 & v & Hs & Hf & Hv & _)
         (st' & y1 & y2 & v' & Hs' & _ & _ & Hmax').
  unfold solve_hot_tubs. rewrite Hs, Hs'.
  do 2 eexists. split; [reflexivity | split; [reflexivity |]].
  cbn [profit]. rewrite !or_zero_eq, Hv.
  apply Hmax'. eapply feasible_increases_one; eassumption.
Qed.

Lemma pumps_201_is_optimum :
  exact_optimum (build_model (mkResources 201 1566 2880)) 120 81 66300.
Proof.
  split; [| split].
  - apply feasible_build_model. simpl. unfold inject_Z. repeat split; lra.
  - unfold objective; simpl. lra.
  - intros y1 y2 Hf. apply feasible_build_model in Hf. simpl in Hf.
    unfold inject_Z in Hf.
    destruct Hf as (H1 & H2 & Ha & Hb & Hc).
    unfold objective; simpl. lra.
Qed.

Lemma profit_monotone_witness :
  increases_one default_resources (mkResources 201 1566 2880) /\
  exists sol sol',
    solve_hot_tubs vertex_solver default_resources = Ok sol /\
    solve_hot_tubs vertex_solver (mkResources 201 1566 2880) = Ok sol' /\
    profit sol <= profit sol'.
Proof.
  assert (Hinc : increases_one default_resources (mkResources 201 1566 2880)).
  { left. simpl. repeat split; lia. }
  split; [exact Hinc |].
  apply (profit_monotone vertex_solver default_resources
           (mkResources 201 1566 2880) Hinc).
  - exists LpStatusOptimal, 122, 78, 66100.
    split; [vm_compute; reflexivity | apply baseline_is_optimum].
  - exists LpStatusOptimal, 120, 81, 66300.
    split; [vm_compute; reflexivity | apply pumps_201_is_optimum].
Defined.

(* ------------------------------------------------------------------ *)
(** ** Scans, ranges and indexing *)

Lemma find_first_some (test : nat -> bool) (n k j : nat) :
  find_first test k n = Some j ->
  (k <= j < k + n)%nat /\ test j = true /\
  forall i, (k <= i < j)%nat -> test i = false.
Proof.
  revert k. induction n as [| n IH]; intros k; simpl; [discriminate |].
  destruct (test k) eqn:Ek.
  - intros H. inversion H; subst. repeat split; try lia. exact Ek.
  - intros H. apply IH in H. destruct H as (Hr & Ht & Hlt).
    repeat split; try lia; [exact Ht |].
    intros i Hi. destruct (Nat.eq_dec i k) as [-> | Hne]; [exact Ek |].
    apply Hlt. lia.
Qed.

Lemma find_first_none (test : nat -> bool) (n k : nat) :
  find_first test k n = None ->
  forall i, (k <= i < k + n)%nat -> test i = false.
Proof.
  revert k. induction n as [| n IH]; intros k; simpl; [intros _ i Hi; lia |].
  destruct (test k) eqn:Ek; [discriminate |].
  intros H i Hi. destruct (Nat.eq_dec i k) as [-> | Hne]; [exact Ek |].
  apply (IH _ H). lia.
Qed.

Lemma find_first_intro (test : nat -> bool) (n k j : nat) :
  (k <= j < k + n)%nat -> test j = true ->
  (forall i, (k <= i < j)%nat -> test i = false) ->
  find_first test k n = Some j.
Proof.
  revert k. induction n as [| n IH]; intros k Hr Ht Hlt; simpl; [lia |].
  destruct (Nat.eq_dec j k) as [-> | Hne].
  - rewrite Ht. reflexivity.
  - rewrite (Hlt k) by lia. apply IH; [lia | exact Ht |].
    intros i Hi. apply Hlt. lia.
Qed.

Lemma find_first_none_intro (test : nat -> bool) (n k : nat) :
  (forall i, (k <= i < k + n)%nat -> test i = false) ->
  find_first test k n = None.
Proof.
  revert k. induction n as [| n IH]; intros k H; simpl; [reflexivity |].
  rewrite (H k) by lia. apply IH. intros i Hi. apply H. lia.
Qed.

Lemma py_range_length (a b : Z) : length (py_range a b) = Z.to_nat (b - a).
Proof. unfold py_range. rewrite length_map, length_seq. reflexivity. Qed.

Lemma py_range_nth_error (a b : Z) (i : nat) :
  (i < Z.to_nat (b - a))%nat ->
  nth_error (py_range a b) i = Some (a + Z.of_nat i)%Z.
Proof.
  intros Hi. unfold py_range.
  rewrite nth_error_map, nth_error_seq.
  apply Nat.ltb_lt in Hi. rewrite Hi. reflexivity.
Qed.

Lemma py_range_in (a b p : Z) : In p (py_range a b) <-> (a <= p < b)%Z.
Proof.
  unfold py_range. rewrite in_map_iff. split.
  - intros (k & <- & Hk). apply in_seq in Hk. lia.
  - intros H. exists (Z.to_nat (p - a)). split; [lia |].
    apply in_seq. lia.
Qed.

Lemma py_range_empty (a b : Z) : (b <= a)%Z -> py_range a b = [].
Proof.
  intros H. unfold py_range. replace (Z.to_nat (b - a)) with 0%nat by lia.
  reflexivity.
Qed.

Lemma py_index_nat {A : Type} (l : list A) (i : nat) (x : A) :
  nth_error l i = Some x -> py_index l (Z.of_nat i) = Ok x.
Proof.
  intros H. unfold py_index. cbv zeta.
  assert (Hlt : (i < length l)%nat).
  { apply nth_error_Some. congruence. }
  assert (E1 : (Z.of_nat i <? 0)%Z = false) by (apply Z.ltb_ge; lia).
  assert (E2 : (Z.of_nat (length l) <=? Z.of_nat i)%Z = false)
    by (apply Z.leb_gt; lia).
  rewrite !E1, E2. cbn [orb]. rewrite Nat2Z.id, H. reflexivity.
Qed.

Lemma py_index_last {A : Type} (l : list A) (x : A) :
  nth_error l (length l - 1) = Some x -> py_index l (-1) = Ok x.
Proof.
  intros H. unfold py_index. cbv zeta.
  assert (Hlt : (length l - 1 < length l)%nat).
  { apply nth_error_Some. congruence. }
  change (-1 <? 0)%Z with true. cbv iota.
  assert (E1 : (-1 + Z.of_nat (length l) <? 0)%Z = false)
    by (apply Z.ltb_ge; lia).
  assert (E2 : (Z.of_nat (length l) <=? -1 + Z.of_nat (length l))%Z = false)
    by (apply Z.leb_gt; lia).
  rewrite E1, E2. cbn [orb].
  replace (Z.to_nat (-1 + Z.of_nat (length l))) with (length l - 1)%nat
    by lia.
  rewrite H. reflexivity.
Qed.

Lemma py_index_nil {A : Type} (i : Z) : py_index (@nil A) i = Raise IndexError.
Proof.
  unfold py_index. cbv zeta. cbn [length Z.of_nat].
  destruct (i <? 0)%Z eqn:E1.
  - rewrite Z.add_0_r, E1. reflexivity.
  - rewrite E1. cbn [orb].
    assert (E2 : (0 <=? i)%Z = true) by (apply Z.leb_le; apply Z.ltb_ge; exact E1).
    rewrite E2. reflexivity.
Qed.

(* ------------------------------------------------------------------ *)
(** ** The curve functions of run_analysis.py *)

Section Curves.

Variable solver : Solver.
Variable mk : Z -> Resources.

Let P (p : Z) : Q := profit_of solver (mk p).

Lemma collect_profits_ok (xs : list Z) :
  (forall p, In p xs -> answers solver (mk p)) ->
  collect_profits solver mk xs = Ok (map P xs).
Proof.
  induction xs as [| p rest IH]; intros Hans; [reflexivity |].
  cbn [collect_profits map].
  destruct (solve_hot_tubs_answers solver (mk p)) as (sol & Hs & Hp).
  { apply Hans. left. reflexivity. }
  rewrite Hs. cbn [bind]. rewrite IH.
  - cbn [bind]. rewrite Hp. reflexivity.
  - intros q Hq. apply Hans. right. exact Hq.
Qed.

Lemma collect_profits_cases (xs : list Z) :
  collect_profits solver mk xs = Ok (map P xs) \/
  collect_profits solver mk xs = Raise SolverError.
Proof.
  induction xs as [| p rest IH]; [left; reflexivity |].
  cbn [collect_profits map].
  destruct (answers_dec solver (mk p)) as [Ha | Hn].
  - destruct (solve_hot_tubs_answers solver (mk p) Ha) as (sol & Hs & Hp).
    rewrite Hs. cbn [bind].
    destruct IH as [-> | ->]; cbn [bind]; [left | right; reflexivity].
    rewrite Hp. reflexivity.
  - rewrite (solve_hot_tubs_raises solver (mk p) Hn). right. reflexivity.
Qed.

Lemma scan_deltas_find (xs : list Z) (first : Q) (D : nat -> Q) (n k : nat) :
  scan_deltas xs first (Z.of_nat k) (map D (seq k n)) =
  match find_first (fun j => exceeds_tol (Qabs (D j - first))) k n with
  | Some j => x <- py_index xs (Z.of_nat j);; Ok (Some x)
  | None => Ok None
  end.
Proof.
  revert k. induction n as [| n IH]; intros k; [reflexivity |].
  cbn [seq map scan_deltas find_first].
  destruct (exceeds_tol (Qabs (D k - first))); [reflexivity |].
  replace (Z.of_nat k + 1)%Z with (Z.of_nat (S k)) by lia.
  apply IH.
Qed.

Lemma marginal_deltas_cons (profits : list Q) :
  (2 <= length profits)%nat ->
  marginal_deltas profits =
  delta_at profits 0 :: map (delta_at profits) (seq 1 (length profits - 2)).
Proof.
  intros H. unfold marginal_deltas.
  replace (length profits - 1)%nat with (S (length profits - 2)) by lia.
  reflexivity.
Qed.

Lemma marginal_deltas_short (profits : list Q) :
  (length profits <= 1)%nat -> marginal_deltas profits = [].
Proof.
  intros H. unfold marginal_deltas.
  replace (length profits - 1)%nat with 0%nat by lia. reflexivity.
Qed.

(** The breakpoint block returns, with the value [breakpoint_spec] names. *)
Lemma detect_breakpoint_spec (xs : list Z) (profits : list Q) :
  length xs = length profits -> (1 <= length xs)%nat ->
  exists bp, detect_breakpoint xs (marginal_deltas profits) = Ok bp /\
             breakpoint_spec xs profits bp.
Proof.
  intros Hlen Hpos.
  assert (Hlast : exists x, nth_error xs (length xs - 1) = Some x).
  { destruct (nth_error xs (length xs - 1)) eqn:E; [eexists; reflexivity |].
    apply nth_error_None in E. lia. }
  destruct Hlast as (xl & Hxl).
  destruct (le_lt_dec (length profits) 1) as [Hshort | Hlong].
  - rewrite marginal_deltas_short by exact Hshort.
    exists xl. split; [apply py_index_last; exact Hxl |].
    right. split; [intros i Hi; lia | exact Hxl].
  - rewrite marginal_deltas_cons by lia.
    cbn [detect_breakpoint].
    change 1%Z with (Z.of_nat 1). rewrite scan_deltas_find.
    destruct (find_first _ 1 (length profits - 2)) as [j |] eqn:Ef.
    + apply find_first_some in Ef. destruct Ef as (Hr & Ht & Hlt).
      destruct (nth_error xs j) as [x |] eqn:Ex.
      2:{ apply nth_error_None in Ex. lia. }
      exists x. rewrite (py_index_nat _ _ _ Ex). cbn [bind].
      split; [reflexivity |].
      left. exists j. repeat split; try lia.
      * apply exceeds_tol_iff in Ht. exact Ht.
      * intros i Hi Hdev. apply exceeds_tol_iff in Hdev.
        unfold deviates in Hdev. rewrite (Hlt i) in Hdev by lia.
        discriminate.
      * exact Ex.
    + cbn [bind]. exists xl. split; [apply py_index_last; exact Hxl |].
      right. split; [| exact Hxl].
      intros i Hi Hdev. apply exceeds_tol_iff in Hdev.
      rewrite (find_first_none _ _ _ Ef i) in Hdev by lia. discriminate.
Qed.

Lemma fold_max_spec (t : list Q) (a : Q) :
  let m := fold_left (fun m x => if Qlt_bool m x then x else m) t a in
  In m (a :: t) /\ a <= m /\ forall q, In q t -> q <= m.
Proof.
  revert a. induction t as [| b t IH]; intros a; cbn [fold_left].
  - split; [left; reflexivity | split; [apply Qle_refl | intros q []]].
  - destruct (Qlt_bool a b) eqn:E.
    + apply Qlt_bool_iff in E.
      destruct (IH b) as (Hin & Hle & Hall).
      split; [right; exact Hin | split].
      * apply Qle_trans with b; [apply Qlt_le_weak; exact E | exact Hle].
      * intros q [<- | Hq]; [exact Hle | apply Hall; exact Hq].
    + apply Qlt_bool_false_iff in E.
      destruct (IH a) as (Hin & Hle & Hall).
      split; [| split; [exact Hle |]].
      * destruct Hin as [<- | Hin]; [left; reflexivity | right; right; exact Hin].
      * intros q [<- | Hq]; [apply Qle_trans with a; assumption | apply Hall; exact Hq].
Qed.

Lemma py_max_spec (l : list Q) :
  l <> [] ->
  exists m, py_max l = Ok m /\ In m l /\ forall q, In q l -> q <= m.
Proof.
  destruct l as [| a t]; [congruence |]. intros _.
  destruct (fold_max_spec t a) as (Hin & Hle & Hall).
  eexists. split; [reflexivity |]. split; [exact Hin |].
  intros q [<- | Hq]; [exact Hle | apply Hall; exact Hq].
Qed.

Lemma py_list_index_spec (l : list Q) (v : Q) (i0 : Z) :
  In v l ->
  exists j, py_list_index l v i0 = Ok (i0 + Z.of_nat j)%Z /\
            (j < length l)%nat /\
            nth j l 0 == v /\
            forall i, (i < j)%nat -> ~ nth i l 0 == v.
Proof.
  revert i0. induction l as [| a t IH]; intros i0 Hin; [destruct Hin |].
  cbn [py_list_index].
  destruct (Qeq_bool a v) eqn:E.
  - exists 0%nat. rewrite Z.add_0_r. split; [reflexivity |].
    split; [simpl; lia |]. split; [apply Qeq_bool_iff; exact E |].
    intros i Hi. lia.
  - assert (Hin' : In v t).
    { destruct Hin as [-> | H]; [| exact H].
      rewrite Qeq_bool_refl in E. discriminate. }
    destruct (IH (i0 + 1)%Z Hin') as (j & Hj & Hlt & Heq & Hfirst).
    exists (S j). split; [rewrite Hj; f_equal; lia |].
    split; [simpl; lia |]. split; [exact Heq |].
    intros i Hi. destruct i as [| i]; cbn [nth].
    + intros Hav. apply Qeq_bool_iff in Hav. congruence.
    + apply Hfirst. lia.
Qed.

(** The common body returns a complete result on a non-empty range whose
    envelopes the solver answers. *)
Lemma sensitivity_curve_ok (start stop : Z) :
  (start <= stop)%Z ->
  (forall p, (start <= p <= stop)%Z -> answers solver (mk p)) ->
  exists c,
    sensitivity_curve solver mk start stop = Ok c /\
    curve_xs c = py_range start (stop + 1) /\
    curve_profits c = map P (curve_xs c) /\
    breakpoint_spec (curve_xs c) (curve_profits c) (curve_breakpoint_at c) /\
    max_spec (curve_xs c) (curve_profits c) (curve_max_profit c) (curve_max_at c).
Proof.
  intros Hle Hans. unfold sensitivity_curve. cbv zeta.
  set (xs := py_range start (stop + 1)).
  assert (Hlen : length xs = Z.to_nat (stop + 1 - start)) by apply py_range_length.
  rewrite collect_profits_ok.
  2:{ intros p Hp. apply py_range_in in Hp. apply Hans. lia. }
  cbn [bind].
  assert (Hlen' : length xs = length (map P xs)) by (rewrite length_map; reflexivity).
  destruct (detect_breakpoint_spec xs (map P xs) Hlen') as (bp & Hbp & Hspec); [lia |].
  rewrite Hbp. cbn [bind].
  destruct (py_max_spec (map P xs)) as (m & Hm & Hin & Hall).
  { intros E. rewrite E in Hlen'. simpl in Hlen'. lia. }
  rewrite Hm. cbn [bind].
  destruct (py_list_index_spec (map P xs) m 0 Hin) as (j & Hj & Hlt & Heq & Hfirst).
  rewrite Hj. cbn [bind]. rewrite Z.add_0_l.
  destruct (nth_error xs j) as [x |] eqn:Ex.
  2:{ apply nth_error_None in Ex. lia. }
  rewrite (py_index_nat _ _ _ Ex). cbn [bind].
  eexists. split; [reflexivity |]. cbn [curve_xs curve_profits curve_breakpoint_at
                                         curve_max_profit curve_max_at].
  repeat split; try assumption.
  exists j. repeat split; assumption.
Qed.

(** On an empty range the common body raises [IndexError] at [xs[-1]]. *)
Lemma sensitivity_curve_empty (start stop : Z) :
  (stop < start)%Z ->
  sensitivity_curve solver mk start stop = Raise IndexError.
Proof.
  intros H. unfold sensitivity_curve. cbv zeta.
  rewrite py_range_empty by lia. reflexivity.
Qed.

(** On a non-empty range the common body raises only when the solver does. *)
Lemma sensitivity_curve_raise (start stop : Z) (e : exn) :
  (start <= stop)%Z ->
  sensitivity_curve solver mk start stop = Raise e -> e = SolverError.
Proof.
  intros Hle. unfold sensitivity_curve. cbv zeta.
  set (xs := py_range start (stop + 1)).
  assert (Hlen : length xs = Z.to_nat (stop + 1 - start)) by apply py_range_length.
  destruct (collect_profits_cases xs) as [-> | ->]; cbn [bind].
  2:{ intros H. inversion H. reflexivity. }
  assert (Hlen' : length xs = length (map P xs)) by (rewrite length_map; reflexivity).
  destruct (detect_breakpoint_spec xs (map P xs) Hlen') as (bp & Hbp & Hspec); [lia |].
  rewrite Hbp. cbn [bind].
  destruct (py_max_spec (map P xs)) as (m & Hm & Hin & Hall).
  { intros E. rewrite E in Hlen'. simpl in Hlen'. lia. }
  rewrite Hm. cbn [bind].
  destruct (py_list_index_spec (map P xs) m 0 Hin) as (j & Hj & Hlt & Heq & Hfirst).
  rewrite Hj. cbn [bind]. rewrite Z.add_0_l.
  destruct (nth_error xs j) as [x |] eqn:Ex.
  2:{ apply nth_error_None in Ex. lia. }
  rewrite (py_index_nat _ _ _ Ex). cbn [bind]. discriminate.
Qed.

End Curves.

Lemma sensitivity_curve_pumps_body (solver : Solver) (start stop labor tubing : Z) :
  sensitivity_curve_pumps solver start stop labor tubing =
  sensitivity_curve solver (pumps_envelope labor tubing) start stop.
Proof. reflexivity. Qed.

Lemma sensitivity_curve_labor_body (solver : Solver) (start stop pumps tubing : Z) :
  sensitivity_curve_labor solver start stop pumps tubing =
  sensitivity_curve solver (labor_envelope pumps tubing) start stop.
Proof. reflexivity. Qed.

Lemma vertex_solver_answers (res : Resources) : answers vertex_solver res.
Proof.
  unfold answers, vertex_solver.
  destruct (best_vertex _ _); discriminate.
Qed.

(** The reference scenarios, on the exact optima: the pump sweep 200..220
    breaks at 207 with the best profit 67500 first reached at 207, and the
    labor sweep 1566..1820 breaks at 1800. *)
Example pump_sweep_reference :
  exists c,
    sensitivity_curve_pumps vertex_solver 200 220 1566 2880 = Ok c /\
    curve_breakpoint_at c = 207%Z /\
    curve_max_profit c == 67500 /\
    curve_max_at c = 207%Z.
Proof.
  eexists. split; [vm_compute; reflexivity |].
  repeat split; reflexivity.
Qed.

Example labor_sweep_reference :
  exists c,
    sensitivity_curve_labor vertex_solver 1566 1820 200 2880 = Ok c /\
    curve_breakpoint_at c = 1800%Z.
Proof.
  eexists. split; [vm_compute; reflexivity | reflexivity].
Qed.

(** C1: on a sweep of at least two points that the solver answers, the
    breakpoint returned by [sensitivity_curve_pumps] and by
    [sensitivity_curve_labor] is [xs[i]] for the smallest delta index
    [i >= 1] with [|delta[i] - delta[0]| > 1e-6], and the last tested value
    [xs[-1]] when there is no such index. *)
Theorem curve_breakpoint_first_deviation (solver : Solver) :
  (forall start stop labor tubing : Z,
     (start < stop)%Z ->
     (forall p, (start <= p <= stop)%Z ->
                answers solver (pumps_envelope labor tubing p)) ->
     exists c,
       sensitivity_curve_pumps solver start stop labor tubing = Ok c /\
       curve_xs c = py_range start (stop + 1) /\
       curve_profits c =
         map (fun p => profit_of solver (pumps_envelope labor tubing p))
             (curve_xs c) /\
       breakpoint_spec (curve_xs c) (curve_profits c) (curve_breakpoint_at c)) /\
  (forall start stop pumps tubing : Z,
     (start < stop)%Z ->
     (forall h, (start <= h <= stop)%Z ->
                answers solver (labor_envelope pumps tubing h)) ->
     exists c,
       sensitivity_curve_labor solver start stop pumps tubing = Ok c /\
       curve_xs c = py_range start (stop + 1) /\
       curve_profits c =
         map (fun h => profit_of solver (labor_envelope pumps tubing h))
             (curve_xs c) /\
       breakpoint_spec (curve_xs c) (curve_profits c) (curve_breakpoint_at c)).
Proof.
  split; intros start stop a b Hlt Hans.
  - rewrite sensitivity_curve_pumps_body.
    destruct (sensitivity_curve_ok solver (pumps_envelope a b) start stop)
      as (c & Hc & Hxs & Hps & Hbp & _); [lia | exact Hans |].
    exists c. repeat split; assumption.
  - rewrite sensitivity_curve_labor_body.
    destruct (sensitivity_curve_ok solver (labor_envelope a b) start stop)
      as (c & Hc & Hxs & Hps & Hbp & _); [lia | exact Hans |].
    exists c. repeat split; assumption.
Qed.

Lemma curve_breakpoint_first_deviation_witness :
  (200 < 220)%Z /\
  exists c,
    sensitivity_curve_pumps vertex_solver 200 220 1566 2880 = Ok c /\
    curve_xs c = py_range 200 (220 + 1) /\
    curve_profits c =
      map (fun p => profit_of vertex_solver (pumps_envelope 1566 2880 p))
          (curve_xs c) /\
    breakpoint_spec (curve_xs c) (curve_profits c) (curve_breakpoint_at c).
Proof.
  split; [lia |].
  apply (proj1 (curve_breakpoint_first_deviation vertex_solver)); [lia |].
  intros p _. apply vertex_solver_answers.
Defined.

(** C9: on a non-empty sweep that the solver answers, [max_profit] returned
    by [sensitivity_curve_pumps] and by [sensitivity_curve_labor] is the
    largest of the collected profits, and [max_at] is the parameter value at
    the first position where the profits equal it. *)
Theorem curve_max_first_occurrence (solver : Solver) :
  (forall start stop labor tubing : Z,
     (start <= stop)%Z ->
     (forall p, (start <= p <= stop)%Z ->
                answers solver (pumps_envelope labor tubing p)) ->
     exists c,
       sensitivity_curve_pumps solver start stop labor tubing = Ok c /\
       curve_xs c = py_range start (stop + 1) /\
       curve_profits c =
         map (fun p => profit_of solver (pumps_envelope labor tubing p))
             (curve_xs c) /\
       max_spec (curve_xs c) (curve_profits c)
                (curve_max_profit c) (curve_max_at c)) /\
  (forall start stop pumps tubing : Z,
     (start <= stop)%Z ->
     (forall h, (start <= h <= stop)%Z ->
                answers solver (labor_envelope pumps tubing h)) ->
     exists c,
       sensitivity_curve_labor solver start stop pumps tubing = Ok c /\
       curve_xs c = py_range start (stop + 1) /\
       curve_profits c =
         map (fun h => profit_of solver (labor_envelope pumps tubing h))
             (curve_xs c) /\
       max_spec (curve_xs c) (curve_profits c)
                (curve_max_profit c) (curve_max_at c)).
Proof.
  split; intros start stop a b Hle Hans.
  - rewrite sensitivity_curve_pumps_body.
    destruct (sensitivity_curve_ok solver (pumps_envelope a b) start stop)
      as (c & Hc & Hxs & Hps & _ & Hmax); [exact Hle | exact Hans |].
    exists c. repeat split; try assumption; apply Hmax.
  - rewrite sensitivity_curve_labor_body.
    destruct (sensitivity_curve_ok solver (labor_envelope a b) start stop)
      as (c & Hc & Hxs & Hps & _ & Hmax); [exact Hle | exact Hans |].
    exists c. repeat split; try assumption; apply Hmax.
Qed.

Lemma curve_max_first_occurrence_witness :
  (200 <= 220)%Z /\
  exists c,
    sensitivity_curve_pumps vertex_solver 200 220 1566 2880 = Ok c /\
    curve_xs c = py_range 200 (220 + 1) /\
    curve_profits c =
      map (fun p => profit_of vertex_solver (pumps_envelope 1566 2880 p))
          (curve_xs c) /\
    max_spec (curve_xs c) (curve_profits c)
             (curve_max_profit c) (curve_max_at c).
Proof.
  split; [lia |].
  apply (proj1 (curve_max_first_occurrence vertex_solver)); [lia |].
  intros p _. apply vertex_solver_answers.
Defined.

Lemma sensitivity_curve_complete (solver : Solver) (mk : Z -> Resources)
    (start stop : Z) :
  (start <= stop)%Z ->
  (forall p, (start <= p <= stop)%Z -> answers solver (mk p)) ->
  exists c, sensitivity_curve solver mk start stop = Ok c /\
            curve_complete start stop c.
Proof.
  intros Hle Hans.
  destruct (sensitivity_curve_ok solver mk start stop Hle Hans)
    as (c & Hc & Hxs & Hps & _ & _).
  exists c. split; [exact Hc |]. unfold curve_complete.
  split; [exact Hxs |]. split.
  - rewrite Hps, length_map. reflexivity.
  - rewrite Hxs, py_range_length. lia.
Qed.

(** C10: [sensitivity_curve_pumps] and [sensitivity_curve_labor] return only
    when [start <= stop].  On an empty range ([start > stop]) they raise
    [IndexError] at [xs[-1]] (the list of profits is then empty, whose [max]
    would raise too); on a non-empty range neither the indexing nor the
    [max] raises: the functions return a complete result when the solver
    answers every envelope, and any exception is the solver's. *)
Theorem curve_returns_iff_nonempty_range
    (solver : Solver) (start stop a b : Z) :
  ((stop < start)%Z ->
     sensitivity_curve_pumps solver start stop a b = Raise IndexError /\
     sensitivity_curve_labor solver start stop a b = Raise IndexError /\
     py_range start (stop + 1) = [] /\
     py_max [] = Raise ValueError) /\
  ((start <= stop)%Z ->
     ((forall p, (start <= p <= stop)%Z ->
                 answers solver (pumps_envelope a b p)) ->
      exists c, sensitivity_curve_pumps solver start stop a b = Ok c /\
                curve_complete start stop c) /\
     ((forall h, (start <= h <= stop)%Z ->
                 answers solver (labor_envelope a b h)) ->
      exists c, sensitivity_curve_labor solver start stop a b = Ok c /\
                curve_complete start stop c) /\
     (forall e, sensitivity_curve_pumps solver start stop a b = Raise e ->
                e = SolverError) /\
     (forall e, sensitivity_curve_labor solver start stop a b = Raise e ->
                e = SolverError)).
Proof.
  split.
  - intros Hlt.
    rewrite sensitivity_curve_pumps_body, sensitivity_curve_labor_body.
    rewrite !sensitivity_curve_empty by exact Hlt.
    repeat split. apply py_range_empty. lia.
  - intros Hle. repeat split.
    + intros Hans. rewrite sensitivity_curve_pumps_body.
      apply sensitivity_curve_complete; assumption.
    + intros Hans. rewrite sensitivity_curve_labor_body.
      apply sensitivity_curve_complete; assumption.
    + intros e. rewrite sensitivity_curve_pumps_body.
      apply sensitivity_curve_raise. exact Hle.
    + intros e. rewrite sensitivity_curve_labor_body.
      apply sensitivity_curve_raise. exact Hle.
Qed.

Lemma curve_returns_iff_nonempty_range_witness :
  ((200 < 201)%Z /\
   sensitivity_curve_pumps vertex_solver 201 200 1566 2880 = Raise IndexError /\
   sensitivity_curve_labor vertex_solver 201 200 1566 2880 = Raise IndexError /\
   py_range 201 (200 + 1) = [] /\
   py_max [] = Raise ValueError) /\
  ((200 <= 220)%Z /\
   exists c, sensitivity_curve_pumps vertex_solver 200 220 1566 2880 = Ok c /\
             curve_complete 200 220 c).
Proof.
  split.
  - split; [lia |].
    apply (proj1 (curve_returns_iff_nonempty_range vertex_solver 201 200 1566 2880)).
    lia.
  - split; [lia |].
    apply (proj2 (curve_returns_iff_nonempty_range vertex_solver 200 220 1566 2880)).
    + lia.
    + intros p _. apply vertex_solver_answers.
Defined.

(* ------------------------------------------------------------------ *)
(** ** The loops of sensitivity.py *)

Section Loops.

Variable solver : Solver.
Variable mk : Z -> Resources.

(** The values tested are [first], [first + 1], ... *)
Variable first : Z.

Let P (p : Z) : Q := profit_of solver (mk p).
Let V (j : nat) : Z := (first + Z.of_nat j)%Z.

Lemma V_pred (k : nat) : (V (S k) - 1)%Z = V k.
Proof. unfold V. lia. Qed.

(** Once a breakpoint is recorded the loop keeps it. *)
Lemma marginal_loop_found (n k : nat) (last fd : Q) (bp : Z) :
  (forall j, (k <= j < k + n)%nat -> answers solver (mk (V j))) ->
  marginal_loop solver mk (map V (seq k n)) last (Some fd) (Some bp) =
  Ok (Some fd, Some bp).
Proof.
  revert k last. induction n as [| n IH]; intros k last Hans; [reflexivity |].
  cbn [seq map marginal_loop].
  destruct (solve_hot_tubs_answers solver (mk (V k))) as (sol & Hs & Hp).
  { apply Hans. lia. }
  rewrite Hs. cbn [bind]. rewrite andb_false_r.
  apply IH. intros j Hj. apply Hans. lia.
Qed.

(** With the first delta known and no breakpoint yet, the loop records the
    first value whose rounded delta deviates from it. *)
Lemma marginal_loop_scan (n k : nat) (fd : Q) :
  (forall j, (k <= j < k + n)%nat -> answers solver (mk (V j))) ->
  marginal_loop solver mk (map V (seq k n)) (P (V k - 1)) (Some fd) None =
  Ok (Some fd,
      option_map V
        (find_first
           (fun j => exceeds_tol (Qabs (rounded_delta solver mk (V j) - fd)))
           k n)).
Proof.
  revert k. induction n as [| n IH]; intros k Hans; [reflexivity |].
  cbn [seq map marginal_loop find_first].
  destruct (solve_hot_tubs_answers solver (mk (V k))) as (sol & Hs & Hp).
  { apply Hans. lia. }
  rewrite Hs. cbn [bind]. rewrite Hp. rewrite andb_true_r.
  change (delta_profit (P (V k - 1)) (profit_of solver (mk (V k))))
    with (rounded_delta solver mk (V k)).
  destruct (exceeds_tol (Qabs (rounded_delta solver mk (V k) - fd))).
  - apply marginal_loop_found. intros j Hj. apply Hans. lia.
  - fold (P (V k)). rewrite <- (V_pred k).
    apply IH. intros j Hj. apply Hans. lia.
Qed.

(** The whole loop of [q1_more_pumps] and [q2_more_labor], from the
    baseline profit. *)
Lemma marginal_loop_from_baseline (n : nat) :
  (forall j, (j < S n)%nat -> answers solver (mk (V j))) ->
  marginal_loop solver mk (map V (seq 0 (S n))) (P (first - 1)) None None =
  Ok (Some (rounded_delta solver mk first),
      option_map V
        (find_first
           (fun j => exceeds_tol
                       (Qabs (rounded_delta solver mk (V j) -
                              rounded_delta solver mk first)))
           1 n)).
Proof.
  intros Hans. cbn [seq map marginal_loop].
  destruct (solve_hot_tubs_answers solver (mk (V 0))) as (sol & Hs & Hp).
  { apply Hans. lia. }
  rewrite Hs. cbn [bind]. rewrite Hp.
  assert (HV0 : V 0 = first) by (unfold V; simpl; lia).
  rewrite HV0.
  change (delta_profit (P (first - 1)) (profit_of solver (mk first)))
    with (rounded_delta solver mk first).
  fold (P first). rewrite <- HV0 at 1. rewrite <- (V_pred 0).
  apply marginal_loop_scan. intros j Hj. apply Hans. lia.
Qed.

(** The tubing loop stops at the first value whose rounded delta exceeds the
    tolerance; only the envelopes up to that value need an answer. *)
Lemma tubing_loop_first (n k j : nat) :
  (k <= j < k + n)%nat ->
  (forall i, (k <= i <= j)%nat -> answers solver (mk (V i))) ->
  exceeds_tol (Qabs (rounded_delta solver mk (V j))) = true ->
  (forall i, (k <= i < j)%nat ->
             exceeds_tol (Qabs (rounded_delta solver mk (V i))) = false) ->
  tubing_loop solver mk (map V (seq k n)) (P (V k - 1)) =
  Ok (TubingBinding (V j) (rounded_delta solver mk (V j))).
Proof.
  revert k. induction n as [| n IH]; intros k Hr Hans Ht Hlt; [lia |].
  cbn [seq map tubing_loop].
  destruct (solve_hot_tubs_answers solver (mk (V k))) as (sol & Hs & Hp).
  { apply Hans. lia. }
  rewrite Hs. cbn [bind]. rewrite Hp.
  change (delta_profit (P (V k - 1)) (profit_of solver (mk (V k))))
    with (rounded_delta solver mk (V k)).
  destruct (Nat.eq_dec j k) as [-> | Hne].
  - rewrite Ht. reflexivity.
  - rewrite (Hlt k) by lia. fold (P (V k)). rewrite <- (V_pred k).
    apply IH; [lia | | exact Ht |].
    + intros i Hi. apply Hans. lia.
    + intros i Hi. apply Hlt. lia.
Qed.

Lemma tubing_loop_none (n k : nat) :
  (forall i, (k <= i < k + n)%nat ->
             answers solver (mk (V i)) /\
             exceeds_tol (Qabs (rounded_delta solver mk (V i))) = false) ->
  tubing_loop solver mk (map V (seq k n)) (P (V k - 1)) = Ok TubingNonBinding.
Proof.
  revert k. induction n as [| n IH]; intros k H; [reflexivity |].
  cbn [seq map tubing_loop].
  destruct (H k) as (Ha & Hf); [lia |].
  destruct (solve_hot_tubs_answers solver (mk (V k)) Ha) as (sol & Hs & Hp).
  rewrite Hs. cbn [bind]. rewrite Hp.
  change (delta_profit (P (V k - 1)) (profit_of solver (mk (V k))))
    with (rounded_delta solver mk (V k)).
  rewrite Hf. fold (P (V k)). rewrite <- (V_pred k).
  apply IH. intros i Hi. apply H. lia.
Qed.

(** What a returned verdict says about the values tested. *)
Lemma tubing_loop_inv (n k : nat) (v : TubingVerdict) :
  tubing_loop solver mk (map V (seq k n)) (P (V k - 1)) = Ok v ->
  match v with
  | TubingBinding t d =>
      exists j, (k <= j < k + n)%nat /\ t = V j /\
                d = rounded_delta solver mk (V j) /\
                exceeds_tol (Qabs (rounded_delta solver mk (V j))) = true /\
                (forall i, (k <= i <= j)%nat -> answers solver (mk (V i))) /\
                (forall i, (k <= i < j)%nat ->
                   exceeds_tol (Qabs (rounded_delta solver mk (V i))) = false)
  | TubingNonBinding =>
      forall i, (k <= i < k + n)%nat ->
                answers solver (mk (V i)) /\
                exceeds_tol (Qabs (rounded_delta solver mk (V i))) = false
  end.
Proof.
  revert k. induction n as [| n IH]; intros k.
  - cbn [seq map tubing_loop]. intros H. inversion H; subst. intros i Hi. lia.
  - cbn [seq map tubing_loop].
    destruct (answers_dec solver (mk (V k))) as [Ha | Hn].
    2:{ rewrite (solve_hot_tubs_raises solver (mk (V k)) Hn). discriminate. }
    destruct (solve_hot_tubs_answers solver (mk (V k)) Ha) as (sol & Hs & Hp).
    rewrite Hs. cbn [bind]. rewrite Hp.
    change (delta_profit (P (V k - 1)) (profit_of solver (mk (V k))))
      with (rounded_delta solver mk (V k)).
    destruct (exceeds_tol (Qabs (rounded_delta solver mk (V k)))) eqn:Ek.
    + intros H. inversion H; subst. exists k.
      repeat split; try lia; try assumption.
      intros i Hi. replace i with k by lia. exact Ha.
    + fold (P (V k)). rewrite <- (V_pred k). intros H.
      specialize (IH (S k) H). destruct v as [t d |].
      * destruct IH as (j & Hr & Et & Ed & Hex & Hans & Hlt).
        exists j. repeat split; try lia; try assumption.
        -- intros i Hi. destruct (Nat.eq_dec i k) as [-> | Hne]; [exact Ha |].
           apply Hans. lia.
        -- intros i Hi. destruct (Nat.eq_dec i k) as [-> | Hne]; [exact Ek |].
           apply Hlt. lia.
      * intros i Hi. destruct (Nat.eq_dec i k) as [-> | Hne].
        -- split; assumption.
        -- apply IH. lia.
Qed.

End Loops.

(* ------------------------------------------------------------------ *)
(** ** q3_more_tubing *)

Lemma q3_more_tubing_body (solver : Solver) (increment : Z) :
  answers solver default_resources ->
  q3_more_tubing solver increment =
  (v <- tubing_loop solver (tubing_envelope 200 1566)
          (map (fun j => (2881 + Z.of_nat j)%Z) (seq 0 (Z.to_nat increment)))
          (profit_of solver (tubing_envelope 200 1566 (2881 + Z.of_nat 0 - 1)));;
   Ok (mkTubingReport (profit_of solver default_resources) v)).
Proof.
  intros Hbase.
  destruct (solve_hot_tubs_answers solver default_resources Hbase)
    as (sol & Hs & Hp).
  unfold q3_more_tubing. cbv zeta. rewrite Hs. cbn [bind]. rewrite Hp.
  unfold py_range.
  replace (Z.to_nat (tubing_feet default_resources + increment + 1 -
                     (tubing_feet default_resources + 1)))
    with (Z.to_nat increment) by (cbn [tubing_feet default_resources]; lia).
  reflexivity.
Qed.

(** The tubing scenario on the exact optima: no profit change anywhere in
    2881..2930. *)
Example tubing_sweep_reference :
  q3_more_tubing vertex_solver 50 = Ok (mkTubingReport 66100 TubingNonBinding).
Proof. vm_compute. reflexivity. Qed.

(** The scan of [q3_more_tubing] in terms of what [delta_profit] returns:
    it reports the first value of 2881, 2882, ... whose rounded delta
    exceeds [1e-6], and calls the solver for no value beyond it. *)
Lemma tubing_scan_rounded (solver : Solver) (increment : Z) :
  answers solver default_resources ->
  (forall r, q3_more_tubing solver increment = Ok r ->
             tubing_baseline_profit r = profit_of solver default_resources) /\
  (forall t d,
     q3_more_tubing solver increment =
       Ok (mkTubingReport (profit_of solver default_resources)
                          (TubingBinding t d)) <->
     (2880 < t <= 2880 + increment)%Z /\
     d = rounded_delta solver (tubing_envelope 200 1566) t /\
     tol < Qabs (rounded_delta solver (tubing_envelope 200 1566) t) /\
     (forall u, (2880 < u <= t)%Z ->
                answers solver (tubing_envelope 200 1566 u)) /\
     (forall u, (2880 < u < t)%Z ->
                Qabs (rounded_delta solver (tubing_envelope 200 1566) u) <= tol)) /\
  (q3_more_tubing solver increment =
     Ok (mkTubingReport (profit_of solver default_resources) TubingNonBinding) <->
   forall u, (2880 < u <= 2880 + increment)%Z ->
             answers solver (tubing_envelope 200 1566 u) /\
             Qabs (rounded_delta solver (tubing_envelope 200 1566) u) <= tol).
Proof.
  intros Hbase. rewrite (q3_more_tubing_body solver increment Hbase).
  set (mk := tubing_envelope 200 1566).
  set (n := Z.to_nat increment).
  assert (HV : forall u, (2880 < u)%Z ->
                         u = (2881 + Z.of_nat (Z.to_nat (u - 2881)))%Z)
    by (intros u Hu; lia).
  split; [| split].
  - intros r.
    destruct (tubing_loop solver mk _ _); cbn [bind]; [| discriminate].
    intros H. inversion H. reflexivity.
  - intros t d. split.
    + destruct (tubing_loop solver mk _ _) as [v |] eqn:El;
        cbn [bind]; [| discriminate].
      intros H. inversion H; subst v. clear H.
      pose proof (tubing_loop_inv solver mk 2881 n 0 _ El) as Hinv.
      cbv zeta in Hinv. cbn beta in Hinv.
      destruct Hinv as (j & Hr & Et & Ed & Hex & Hans & Hlt).
      subst t d.
      split; [unfold n in *; lia |]. split; [reflexivity |].
      split; [apply exceeds_tol_iff; exact Hex |]. split.
      * intros u Hu. rewrite (HV u) by lia.
        apply (Hans (Z.to_nat (u - 2881))). lia.
      * intros u Hu. rewrite (HV u) by lia.
        apply exceeds_tol_false_iff.
        apply (Hlt (Z.to_nat (u - 2881))). lia.
    + intros (Hr & Ed & Hex & Hans & Hlt).
      pose proof (tubing_loop_first solver mk 2881 n 0 (Z.to_nat (t - 2881)))
        as Hfirst.
      cbv zeta in Hfirst. cbn beta in Hfirst.
      rewrite <- (HV t) in Hfirst by lia.
      rewrite Hfirst.
      * cbn [bind]. rewrite Ed. reflexivity.
      * unfold n. lia.
      * intros i Hi. apply Hans. lia.
      * apply exceeds_tol_iff. exact Hex.
      * intros i Hi. apply exceeds_tol_false_iff. apply Hlt. lia.
  - split.
    + destruct (tubing_loop solver mk _ _) as [v |] eqn:El;
        cbn [bind]; [| discriminate].
      intros H. inversion H; subst v. clear H.
      pose proof (tubing_loop_inv solver mk 2881 n 0 _ El) as Hinv.
      cbv zeta in Hinv. cbn beta in Hinv.
      intros u Hu. rewrite (HV u) by lia.
      destruct (Hinv (Z.to_nat (u - 2881))) as (Ha & Hf); [unfold n; lia |].
      split; [exact Ha | apply exceeds_tol_false_iff; exact Hf].
    + intros H.
      pose proof (tubing_loop_none solver mk 2881 n 0) as Hnone.
      cbv zeta in Hnone. cbn beta in Hnone. rewrite Hnone; [reflexivity |].
      intros i Hi. destruct (H (2881 + Z.of_nat i)%Z) as (Ha & Hf);
        [unfold n in Hi; lia |].
      split; [exact Ha | apply exceeds_tol_false_iff; exact Hf].
Qed.

(* ------------------------------------------------------------------ *)
(** ** q1_more_pumps and q2_more_labor *)

Lemma q1_more_pumps_body (solver : Solver) (max_test : Z) :
  q1_more_pumps solver max_test =
  marginal_report solver (pumps_envelope 1566 2880) 200 max_test.
Proof. reflexivity. Qed.

Lemma q2_more_labor_body (solver : Solver) (max_test : Z) :
  q2_more_labor solver max_test =
  marginal_report solver (labor_envelope 200 2880) 1566 max_test.
Proof. reflexivity. Qed.

Section Marginal.

Variable solver : Solver.
Variable mk : Z -> Resources.
Variable base : Z.

Hypothesis mk_base : mk base = default_resources.
Hypothesis base_nonneg : (0 <= base)%Z.

Lemma marginal_report_ok (max_test : Z) :
  (base < max_test)%Z ->
  (forall p, (base <= p <= max_test)%Z -> answers solver (mk p)) ->
  marginal_report solver mk base max_test =
  Ok (mkMarginalReport
        (profit_of solver default_resources)
        (rounded_delta solver mk (base + 1))
        (match find_first (rounded_deviates solver mk base) 1 (Z.to_nat (max_test - base) - 1) with
         | Some j => BreakpointNear (base + Z.of_nat j) (base + 1 + Z.of_nat j)
         | None => NoBreakpoint
         end)).
Proof.
  intros Hlt Hans.
  assert (Hbase : answers solver default_resources).
  { rewrite <- mk_base. apply Hans. lia. }
  destruct (solve_hot_tubs_answers solver default_resources Hbase)
    as (sol & Hs & Hp).
  unfold marginal_report. rewrite Hs. cbn [bind]. rewrite Hp.
  unfold py_range.
  replace (Z.to_nat (max_test + 1 - (base + 1)))
    with (S (Z.to_nat (max_test - base) - 1)) by lia.
  pose proof (marginal_loop_from_baseline solver mk (base + 1)
                (Z.to_nat (max_test - base) - 1)) as Hloop.
  cbv zeta in Hloop. cbn beta in Hloop.
  replace (base + 1 - 1)%Z with base in Hloop by lia.
  rewrite mk_base in Hloop. rewrite Hloop.
  2:{ intros j Hj. apply Hans. lia. }
  cbn [bind fst snd format_delta]. fold (rounded_deviates solver mk base).
  destruct (find_first (rounded_deviates solver mk base) 1 _) as [j |]; cbn [option_map closing_message].
  - assert (E : (base + 1 + Z.of_nat j =? 0)%Z = false) by (apply Z.eqb_neq; lia).
    rewrite E. replace (base + 1 + Z.of_nat j - 1)%Z with (base + Z.of_nat j)%Z by lia.
    reflexivity.
  - reflexivity.
Qed.

(** A breakpoint is reported exactly when some rounded delta after the first
    deviates from the first by more than the tolerance. *)
Lemma marginal_report_detects (max_test : Z) :
  (base < max_test)%Z ->
  (forall p, (base <= p <= max_test)%Z -> answers solver (mk p)) ->
  exists r,
    marginal_report solver mk base max_test = Ok r /\
    ((exists a b, verdict r = BreakpointNear a b) <->
     (exists p, (base + 1 < p <= max_test)%Z /\
                tol < Qabs (rounded_delta solver mk p -
                            rounded_delta solver mk (base + 1)))).
Proof.
  intros Hlt Hans. rewrite (marginal_report_ok max_test Hlt Hans).
  eexists. split; [reflexivity |]. cbn [verdict].
  destruct (find_first (rounded_deviates solver mk base) 1 _) as [j |] eqn:Ef.
  - apply find_first_some in Ef. destruct Ef as (Hr & Ht & _).
    split; [| intros _; do 2 eexists; reflexivity].
    intros _. exists (base + 1 + Z.of_nat j)%Z. split; [lia |].
    apply exceeds_tol_iff. exact Ht.
  - split; [intros (a & b & H); discriminate |].
    intros (p & Hp & Hdev). exfalso.
    pose proof (find_first_none _ _ _ Ef (Z.to_nat (p - (base + 1)))) as Hf.
    unfold rounded_deviates in Hf.
    replace (base + 1 + Z.of_nat (Z.to_nat (p - (base + 1))))%Z with p in Hf by lia.
    apply exceeds_tol_iff in Hdev. rewrite Hf in Hdev; [discriminate | lia].
Qed.

End Marginal.

(** C3, as stated, fails: [delta_profit] rounds each delta to two decimals
    before the comparison.  With a profit that rises by 0.004 at 2881 feet
    the raw delta deviates from zero by more than [1e-6], yet
    [q3_more_tubing] reports no change. *)
Lemma rounded_delta_hides_small_change :
  tol < Qabs (raw_delta tubing_bump_solver (tubing_envelope 200 1566) 2881 - 0) /\
  rounded_delta tubing_bump_solver (tubing_envelope 200 1566) 2881 == 0 /\
  q3_more_tubing tubing_bump_solver 50 =
    Ok (mkTubingReport 66100 TubingNonBinding).
Proof.
  split; [| split]; vm_compute; reflexivity.
Qed.

Lemma q3_more_tubing_detects (solver : Solver) (increment : Z) :
  answers solver default_resources ->
  (forall t, (2880 < t <= 2880 + increment)%Z ->
             answers solver (tubing_envelope 200 1566 t)) ->
  exists r,
    q3_more_tubing solver increment = Ok r /\
    ((exists t d, tubing_verdict r = TubingBinding t d) <->
     (exists t, (2880 < t <= 2880 + increment)%Z /\
                tol < Qabs (rounded_delta solver (tubing_envelope 200 1566) t))).
Proof.
  intros Hbase Hans. rewrite (q3_more_tubing_body solver increment Hbase).
  set (mk := tubing_envelope 200 1566).
  set (n := Z.to_nat increment).
  set (test := fun j : nat =>
         exceeds_tol (Qabs (rounded_delta solver mk (2881 + Z.of_nat j)))).
  destruct (find_first test 0 n) as [j |] eqn:Ef.
  - apply find_first_some in Ef. destruct Ef as (Hr & Ht & Hlt).
    pose proof (tubing_loop_first solver mk 2881 n 0 j) as Hfirst.
    cbv zeta in Hfirst. cbn beta in Hfirst.
    rewrite Hfirst; [| lia | | exact Ht | exact Hlt].
    2:{ intros i Hi. apply Hans. unfold n in Hr. lia. }
    cbn [bind]. eexists. split; [reflexivity |]. cbn [tubing_verdict].
    split; [| intros _; do 2 eexists; reflexivity].
    intros _. exists (2881 + Z.of_nat j)%Z.
    split; [unfold n in Hr; lia | apply exceeds_tol_iff; exact Ht].
  - pose proof (find_first_none _ _ _ Ef) as Hnone.
    pose proof (tubing_loop_none solver mk 2881 n 0) as Hloop.
    cbv zeta in Hloop. cbn beta in Hloop.
    rewrite Hloop.
    2:{ intros i Hi. split; [apply Hans; unfold n in Hi; lia | apply Hnone; lia]. }
    cbn [bind]. eexists. split; [reflexivity |]. cbn [tubing_verdict].
    split; [intros (t & d & H); discriminate |].
    intros (t & Ht & Hdev). exfalso.
    apply exceeds_tol_iff in Hdev.
    specialize (Hnone (Z.to_nat (t - 2881))). unfold test in Hnone.
    replace (2881 + Z.of_nat (Z.to_nat (t - 2881)))%Z with t in Hnone by lia.
    rewrite Hnone in Hdev; [discriminate | unfold n; lia].
Qed.

(** C3, amended: the scans of [q1_more_pumps], [q2_more_labor] and
    [q3_more_tubing] compare, with the absolute tolerance [1e-6], the deltas
    that [delta_profit] has rounded to two decimals.  A change is reported
    exactly when some rounded delta of the scan deviates from the reference
    value (the first rounded delta for pumps and labor, zero for tubing) by
    more than [1e-6]. *)
Theorem rounded_delta_changes_detected (solver : Solver) :
  (forall max_test : Z,
     (200 < max_test)%Z ->
     (forall p, (200 <= p <= max_test)%Z ->
                answers solver (pumps_envelope 1566 2880 p)) ->
     exists r,
       q1_more_pumps solver max_test = Ok r /\
       ((exists a b, verdict r = BreakpointNear a b) <->
        (exists p, (201 < p <= max_test)%Z /\
                   tol < Qabs (rounded_delta solver (pumps_envelope 1566 2880) p -
                               rounded_delta solver (pumps_envelope 1566 2880) 201)))) /\
  (forall max_test : Z,
     (1566 < max_test)%Z ->
     (forall h, (1566 <= h <= max_test)%Z ->
                answers solver (labor_envelope 200 2880 h)) ->
     exists r,
       q2_more_labor solver max_test = Ok r /\
       ((exists a b, verdict r = BreakpointNear a b) <->
        (exists h, (1567 < h <= max_test)%Z /\
                   tol < Qabs (rounded_delta solver (labor_envelope 200 2880) h -
                               rounded_delta solver (labor_envelope 200 2880) 1567)))) /\
  (forall increment : Z,
     answers solver default_resources ->
     (forall t, (2880 < t <= 2880 + increment)%Z ->
                answers solver (tubing_envelope 200 1566 t)) ->
     exists r,
       q3_more_tubing solver increment = Ok r /\
       ((exists t d, tubing_verdict r = TubingBinding t d) <->
        (exists t, (2880 < t <= 2880 + increment)%Z /\
                   tol < Qabs (rounded_delta solver (tubing_envelope 200 1566) t)))).
Proof.
  split; [| split].
  - intros max_test Hlt Hans. rewrite q1_more_pumps_body.
    apply (marginal_report_detects solver (pumps_envelope 1566 2880) 200
             eq_refl ltac:(lia) max_test Hlt Hans).
  - intros max_test Hlt Hans. rewrite q2_more_labor_body.
    apply (marginal_report_detects solver (labor_envelope 200 2880) 1566
             eq_refl ltac:(lia) max_test Hlt Hans).
  - intros increment Hbase Hans.
    apply q3_more_tubing_detects; assumption.
Qed.

Lemma rounded_delta_changes_detected_witness :
  (200 < 220)%Z /\
  exists r,
    q1_more_pumps vertex_solver 220 = Ok r /\
    ((exists a b, verdict r = BreakpointNear a b) <->
     (exists p, (201 < p <= 220)%Z /\
                tol < Qabs (rounded_delta vertex_solver (pumps_envelope 1566 2880) p -
                            rounded_delta vertex_solver (pumps_envelope 1566 2880) 201))).
Proof.
  split; [lia |].
  apply (proj1 (rounded_delta_changes_detected vertex_solver)); [lia |].
  intros p _. apply vertex_solver_answers.
Defined.

(* ------------------------------------------------------------------ *)
(** ** q1_more_pumps against sensitivity_curve_pumps *)

Lemma nth_map_py_range (f : Z -> Q) (a b : Z) (i : nat) :
  (i < Z.to_nat (b - a))%nat ->
  nth i (map f (py_range a b)) 0 = f (a + Z.of_nat i)%Z.
Proof.
  intros Hi. apply nth_error_nth.
  rewrite nth_error_map, py_range_nth_error by exact Hi. reflexivity.
Qed.

Lemma delta_at_sweep (solver : Solver) (mk : Z -> Resources) (a b : Z) (i : nat) :
  (S i < Z.to_nat (b - a))%nat ->
  delta_at (map (fun p => profit_of solver (mk p)) (py_range a b)) i =
  raw_delta solver mk (a + 1 + Z.of_nat i).
Proof.
  intros Hi. unfold delta_at, raw_delta.
  rewrite !nth_map_py_range by lia.
  replace (a + Z.of_nat (S i))%Z with (a + 1 + Z.of_nat i)%Z by lia.
  replace (a + 1 + Z.of_nat i - 1)%Z with (a + Z.of_nat i)%Z by lia.
  reflexivity.
Qed.

Lemma range_check (f : Z -> bool) (a b : Z) :
  forallb f (py_range a b) = true ->
  forall p, (a <= p < b)%Z -> f p = true.
Proof.
  intros H p Hp. rewrite forallb_forall in H. apply H.
  apply py_range_in. exact Hp.
Qed.

(** C2, as stated, fails.  On the exact optima of the pump sweep 200..220
    [sensitivity_curve_pumps] returns the breakpoint 207 while
    [q1_more_pumps] records 208 ("constant until about 207, breakpoint near
    208"); on a flat series the curve returns the last value 220 while [q1]
    reports no breakpoint. *)
Lemma q1_and_curve_name_different_breakpoints :
  (exists c r,
     sensitivity_curve_pumps vertex_solver 200 220 1566 2880 = Ok c /\
     q1_more_pumps vertex_solver 220 = Ok r /\
     curve_breakpoint_at c = 207%Z /\
     verdict r = BreakpointNear 207 208) /\
  (exists c r,
     sensitivity_curve_pumps baseline_solver 200 220 1566 2880 = Ok c /\
     q1_more_pumps baseline_solver 220 = Ok r /\
     curve_breakpoint_at c = 220%Z /\
     verdict r = NoBreakpoint).
Proof.
  split; do 2 eexists.
  - split; [vm_compute; reflexivity |].
    split; [vm_compute; reflexivity |].
    split; reflexivity.
  - split; [vm_compute; reflexivity |].
    split; [vm_compute; reflexivity |].
    split; reflexivity.
Qed.

(** C2, amended: on the same solver answers for the pump sweep
    200..max_test (labor and tubing at baseline), when rounding to two
    decimals leaves every consecutive delta unchanged, [q1_more_pumps] and
    [sensitivity_curve_pumps] find the same change of marginal value and
    name it one apart: if the curve's breakpoint [b] is below the last
    tested value, [q1] reports "constant until about [b], breakpoint near
    [b + 1]"; if the curve returns the last tested value, [q1] reports no
    breakpoint. *)
Theorem q1_breakpoint_is_curve_breakpoint_plus_one
    (solver : Solver) (max_test : Z) :
  (200 < max_test)%Z ->
  (forall p, (200 <= p <= max_test)%Z ->
             answers solver (pumps_envelope 1566 2880 p)) ->
  (forall p, (200 < p <= max_test)%Z ->
             rounded_delta solver (pumps_envelope 1566 2880) p ==
             raw_delta solver (pumps_envelope 1566 2880) p) ->
  exists c r,
    sensitivity_curve_pumps solver 200 max_test 1566 2880 = Ok c /\
    q1_more_pumps solver max_test = Ok r /\
    verdict r =
      if (curve_breakpoint_at c <? max_test)%Z
      then BreakpointNear (curve_breakpoint_at c) (curve_breakpoint_at c + 1)
      else NoBreakpoint.
Proof.
  intros Hlt Hans Hround.
  set (mk := pumps_envelope 1566 2880) in *.
  destruct (sensitivity_curve_ok solver mk 200 max_test)
    as (c & Hc & Hxs & Hps & Hbp & _); [lia | exact Hans |].
  rewrite q1_more_pumps_body, sensitivity_curve_pumps_body. fold mk.
  rewrite (marginal_report_ok solver mk 200 eq_refl ltac:(lia) max_test Hlt Hans).
  exists c. eexists. split; [exact Hc |]. split; [reflexivity |].
  cbn [verdict].
  set (n := Z.to_nat (max_test - 200)).
  assert (Hn : Z.to_nat (max_test + 1 - 200) = S n) by (unfold n; lia).
  assert (Hlen : length (curve_profits c) = S n).
  { rewrite Hps, length_map, Hxs, py_range_length. exact Hn. }
  assert (Hlenx : length (curve_xs c) = S n).
  { rewrite Hxs, py_range_length. exact Hn. }
  assert (Hiff : forall i, (1 <= i < n)%nat ->
             (deviates (curve_profits c) i <->
              rounded_deviates solver mk 200 i = true)).
  { intros i Hi. unfold deviates, rounded_deviates.
    rewrite exceeds_tol_iff. rewrite Hps, Hxs.
    rewrite !delta_at_sweep by lia.
    rewrite (Hround (200 + 1 + Z.of_nat i)%Z) by lia.
    rewrite (Hround (200 + 1)%Z) by lia.
    replace (200 + 1 + Z.of_nat 0)%Z with (200 + 1)%Z by lia.
    reflexivity. }
  destruct Hbp as [(i & Hi & Hdev & Hmin & Hnth) | (Hnone & Hlast)].
  - rewrite Hlen in Hi.
    rewrite (find_first_intro (rounded_deviates solver mk 200) (n - 1) 1 i).
    + rewrite Hxs, py_range_nth_error in Hnth by lia.
      assert (Hb : curve_breakpoint_at c = (200 + Z.of_nat i)%Z) by congruence.
      rewrite Hb.
      assert (E : (200 + Z.of_nat i <? max_test)%Z = true)
        by (apply Z.ltb_lt; unfold n in Hi; lia).
      rewrite E. f_equal. lia.
    + lia.
    + apply Hiff; [lia | exact Hdev].
    + intros j Hj. destruct (rounded_deviates solver mk 200 j) eqn:Ej;
        [| reflexivity].
      exfalso. apply (Hmin j); [lia |]. apply Hiff; [lia | exact Ej].
  - rewrite Hlen in Hnone.
    rewrite (find_first_none_intro (rounded_deviates solver mk 200) (n - 1) 1).
    + rewrite Hlenx, Hxs, py_range_nth_error in Hlast by lia.
      assert (Hb : curve_breakpoint_at c = (200 + Z.of_nat (S n - 1))%Z)
        by congruence.
      rewrite Hb.
      replace (200 + Z.of_nat (S n - 1))%Z with max_test by (unfold n; lia).
      rewrite Z.ltb_irrefl. reflexivity.
    + intros j Hj. destruct (rounded_deviates solver mk 200 j) eqn:Ej;
        [| reflexivity].
      exfalso. apply (Hnone j); [lia |]. apply Hiff; [lia | exact Ej].
Qed.

Lemma vertex_solver_pump_deltas_whole_cents :
  forall p, (200 < p <= 220)%Z ->
    rounded_delta vertex_solver (pumps_envelope 1566 2880) p ==
    raw_delta vertex_solver (pumps_envelope 1566 2880) p.
Proof.
  intros p Hp. apply Qeq_bool_iff.
  apply (range_check
           (fun p => Qeq_bool
                       (rounded_delta vertex_solver (pumps_envelope 1566 2880) p)
                       (raw_delta vertex_solver (pumps_envelope 1566 2880) p))
           201 221); [vm_compute; reflexivity | lia].
Qed.

Lemma q1_breakpoint_is_curve_breakpoint_plus_one_witness :
  (200 < 220)%Z /\
  exists c r,
    sensitivity_curve_pumps vertex_solver 200 220 1566 2880 = Ok c /\
    q1_more_pumps vertex_solver 220 = Ok r /\
    verdict r =
      if (curve_breakpoint_at c <? 220)%Z
      then BreakpointNear (curve_breakpoint_at c) (curve_breakpoint_at c + 1)
      else NoBreakpoint.
Proof.
  split; [lia |].
  apply (q1_breakpoint_is_curve_breakpoint_plus_one vertex_solver 220).
  - lia.
  - intros p _. apply vertex_solver_answers.
  - apply vertex_solver_pump_deltas_whole_cents.
Defined.

(* ------------------------------------------------------------------ *)
(** ** Further properties of the LP wrapper *)

(** X1: the problem [solve_hot_tubs] builds has a feasible plan exactly when
    no amount of the envelope is negative; the zero plan is then feasible. *)
Theorem build_model_feasible_iff_nonnegative (res : Resources) :
  ((exists x1 x2, feasible (build_model res) x1 x2) <->
   nonnegative_envelope res) /\
  (nonnegative_envelope res <-> feasible (build_model res) 0 0).
Proof.
  assert (Hz : nonnegative_envelope res <-> feasible (build_model res) 0 0).
  { rewrite feasible_build_model. unfold nonnegative_envelope.
    rewrite (Zle_Qle 0 (pumps res)), (Zle_Qle 0 (labor_hours res)),
            (Zle_Qle 0 (tubing_feet res)).
    change (inject_Z 0) with 0.
    split.
    - intros (Hp & Hl & Ht). repeat split; lra.
    - intros (_ & _ & Hp & Hl & Ht). repeat split; lra. }
  split; [| exact Hz].
  split.
  - intros (x1 & x2 & Hf). apply feasible_build_model in Hf.
    destruct Hf as (H1 & H2 & Hp & Hl & Ht).
    unfold nonnegative_envelope.
    rewrite (Zle_Qle 0 (pumps res)), (Zle_Qle 0 (labor_hours res)),
            (Zle_Qle 0 (tubing_feet res)).
    change (inject_Z 0) with 0. repeat split; lra.
  - intros H. exists 0, 0. apply Hz. exact H.
Qed.

Lemma build_model_feasible_iff_nonnegative_witness :
  nonnegative_envelope default_resources /\
  feasible (build_model default_resources) 0 0.
Proof.
  assert (H : nonnegative_envelope default_resources).
  { unfold nonnegative_envelope. simpl. lia. }
  split; [exact H |].
  exact (proj1 (proj2 (build_model_feasible_iff_nonnegative default_resources)) H).
Defined.

Lemma solves_exactly_profit_of (solver : Solver) (res : Resources)
    (st : LpStatus) (x1 x2 v : Q) :
  solver (build_model res) = SolverReturns st (Some x1) (Some x2) (Some v) ->
  profit_of solver res == v.
Proof.
  intros Hs. unfold profit_of. rewrite Hs. apply or_zero_eq.
Qed.

Lemma or_zero_of_zero (q : Q) : q == 0 -> or_zero (Some q) = 0.
Proof.
  intros H. unfold or_zero. apply Qeq_bool_iff in H. rewrite H. reflexivity.
Qed.

(** X2: when one of the three amounts of a non-negative envelope is zero and
    the solver returns an exact optimum, [solve_hot_tubs] returns the plan
    that builds nothing: both quantities and the profit are 0. *)
Theorem zero_resource_zero_plan (solver : Solver) (res : Resources) :
  (pumps res = 0 \/ labor_hours res = 0 \/ tubing_feet res = 0)%Z ->
  solves_exactly solver (build_model res) ->
  exists sol,
    solve_hot_tubs solver res = Ok sol /\
    x_aqua sol = 0 /\ x_hydro sol = 0 /\ profit sol = 0.
Proof.
  intros Hzero (st & x1 & x2 & v & Hs & Hf & Hv & _).
  apply feasible_build_model in Hf. destruct Hf as (H1 & H2 & Hp & Hl & Ht).
  assert (E : x1 == 0 /\ x2 == 0).
  { destruct Hzero as [Hz | [Hz | Hz]]; rewrite Hz in *;
      change (inject_Z 0) with 0 in *; split; lra. }
  destruct E as (E1 & E2).
  assert (E3 : v == 0).
  { rewrite Hv. unfold objective. cbn [obj1 obj2 build_model].
    rewrite E1, E2. ring. }
  unfold solve_hot_tubs. rewrite Hs.
  eexists. split; [reflexivity |]. cbn [x_aqua x_hydro profit].
  repeat split; apply or_zero_of_zero; assumption.
Qed.

Lemma no_pumps_is_optimum :
  exact_optimum (build_model (mkResources 0 1566 2880)) 0 0 0.
Proof.
  split; [| split].
  - apply feasible_build_model. simpl. unfold inject_Z. repeat split; lra.
  - unfold objective; simpl. lra.
  - intros y1 y2 Hf. apply feasible_build_model in Hf. simpl in Hf.
    unfold inject_Z in Hf.
    destruct Hf as (H1 & H2 & Ha & Hb & Hc).
    unfold objective; simpl. lra.
Qed.

Lemma zero_resource_zero_plan_witness :
  (pumps (mkResources 0 1566 2880) = 0 \/
   labor_hours (mkResources 0 1566 2880) = 0 \/
   tubing_feet (mkResources 0 1566 2880) = 0)%Z /\
  exists sol,
    solve_hot_tubs vertex_solver (mkResources 0 1566 2880) = Ok sol /\
    x_aqua sol = 0 /\ x_hydro sol = 0 /\ profit sol = 0.
Proof.
  assert (H : (pumps (mkResources 0 1566 2880) = 0 \/
               labor_hours (mkResources 0 1566 2880) = 0 \/
               tubing_feet (mkResources 0 1566 2880) = 0)%Z)
    by (left; reflexivity).
  split; [exact H |].
  apply (zero_resource_zero_plan vertex_solver (mkResources 0 1566 2880) H).
  exists LpStatusOptimal, 0, 0, 0.
  split; [vm_compute; reflexivity | apply no_pumps_is_optimum].
Defined.




(** X4: the profit of an exact optimum is non-negative and bounded by each
    resource alone: at most 350 per pump, 50 per labour hour and 175/6 per
    foot of tubing. *)
Theorem optimal_profit_bounds (solver : Solver) (res : Resources) :
  solves_exactly solver (build_model res) ->
  exists sol,
    solve_hot_tubs solver res = Ok sol /\
    0 <= profit sol /\
    profit sol <= 350 * inject_Z (pumps res) /\
    profit sol <= 50 * inject_Z (labor_hours res) /\
    profit sol <= (175 # 6) * inject_Z (tubing_feet res).
Proof.
  intros (st & x1 & x2 & v & Hs & Hf & Hv & _).
  apply feasible_build_model in Hf. destruct Hf as (H1 & H2 & Hp & Hl & Ht).
  unfold solve_hot_tubs. rewrite Hs.
  eexists. split; [reflexivity |]. cbn [profit].
  pose proof (or_zero_eq v) as Ev. set (pv := or_zero (Some v)) in *.
  unfold objective in Hv. cbn [obj1 obj2 build_model] in Hv.
  repeat split; lra.
Qed.

Lemma optimal_profit_bounds_witness :
  solves_exactly baseline_solver (build_model default_resources) /\
  exists sol,
    solve_hot_tubs baseline_solver default_resources = Ok sol /\
    0 <= profit sol /\
    profit sol <= 350 * inject_Z (pumps default_resources) /\
    profit sol <= 50 * inject_Z (labor_hours default_resources) /\
    profit sol <= (175 # 6) * inject_Z (tubing_feet default_resources).
Proof.
  split.
  - apply baseline_solver_exact. reflexivity.
  - apply (optimal_profit_bounds baseline_solver default_resources).
    apply baseline_solver_exact. reflexivity.
Defined.

(* ------------------------------------------------------------------ *)
(** ** Further properties of the curve functions *)

Section CurveOutcomes.

Variable solver : Solver.
Variable mk : Z -> Resources.

Lemma collect_profits_inv (xs : list Z) :
  match collect_profits solver mk xs with
  | Ok _ => forall p, In p xs -> answers solver (mk p)
  | Raise e => e = SolverError /\ exists p, In p xs /\ ~ answers solver (mk p)
  end.
Proof.
  induction xs as [| p rest IH]; cbn [collect_profits].
  - intros p Hp. inversion Hp.
  - destruct (answers_dec solver (mk p)) as [Ha | Hn].
    + destruct (solve_hot_tubs_answers solver (mk p) Ha) as (sol & Hs & _).
      rewrite Hs. cbn [bind].
      destruct (collect_profits solver mk rest) as [ps | e]; cbn [bind].
      * intros q [<- | Hq]; [exact Ha | apply IH; exact Hq].
      * destruct IH as (He & q & Hq & Hnq).
        split; [exact He |]. exists q. split; [right; exact Hq | exact Hnq].
    + rewrite (solve_hot_tubs_raises solver (mk p) Hn). cbn [bind].
      split; [reflexivity |]. exists p. split; [left; reflexivity | exact Hn].
Qed.

(** The three outcomes of the common body. *)
Lemma sensitivity_curve_cases (start stop : Z) :
  ((stop < start)%Z /\
   sensitivity_curve solver mk start stop = Raise IndexError) \/
  ((start <= stop)%Z /\
   (forall p, (start <= p <= stop)%Z -> answers solver (mk p)) /\
   exists c, sensitivity_curve solver mk start stop = Ok c) \/
  ((start <= stop)%Z /\
   (exists p, (start <= p <= stop)%Z /\ ~ answers solver (mk p)) /\
   sensitivity_curve solver mk start stop = Raise SolverError).
Proof.
  destruct (Z_lt_le_dec stop start) as [Hlt | Hle].
  - left. split; [exact Hlt | apply sensitivity_curve_empty; exact Hlt].
  - right.
    pose proof (collect_profits_inv (py_range start (stop + 1))) as Hinv.
    destruct (collect_profits solver mk (py_range start (stop + 1)))
      as [ps | e] eqn:Ec.
    + left. split; [exact Hle |].
      assert (Hans : forall p, (start <= p <= stop)%Z -> answers solver (mk p)).
      { intros p Hp. apply Hinv. apply py_range_in. lia. }
      split; [exact Hans |].
      destruct (sensitivity_curve_ok solver mk start stop Hle Hans)
        as (c & Hc & _).
      exists c. exact Hc.
    + right. destruct Hinv as (-> & p & Hp & Hn).
      split; [exact Hle |]. split.
      * exists p. split; [apply py_range_in in Hp; lia | exact Hn].
      * unfold sensitivity_curve. cbv zeta. rewrite Ec. reflexivity.
Qed.

Lemma sensitivity_curve_outcome (start stop : Z) :
  ((exists c, sensitivity_curve solver mk start stop = Ok c) <->
   (start <= stop)%Z /\
   forall p, (start <= p <= stop)%Z -> answers solver (mk p)) /\
  (sensitivity_curve solver mk start stop = Raise IndexError <->
   (stop < start)%Z) /\
  (sensitivity_curve solver mk start stop = Raise SolverError <->
   (start <= stop)%Z /\
   exists p, (start <= p <= stop)%Z /\ ~ answers solver (mk p)).
Proof.
  destruct (sensitivity_curve_cases start stop)
    as [(Hlt & Hr) | [(Hle & Hans & c & Hc) | (Hle & (p & Hp & Hn) & Hr)]].
  - rewrite Hr. split; [split; intros H | split; split; intros H].
    + destruct H as (c & Hc). discriminate.
    + lia.
    + exact Hlt.
    + reflexivity.
    + discriminate.
    + lia.
  - rewrite Hc. split; [split; intros H | split; split; intros H].
    + split; assumption.
    + exists c. reflexivity.
    + discriminate.
    + lia.
    + discriminate.
    + destruct H as (_ & q & Hq & Hnq). exfalso. apply Hnq, Hans, Hq.
  - rewrite Hr. split; [split; intros H | split; split; intros H].
    + destruct H as (c & Hc). discriminate.
    + destruct H as (_ & Hans). exfalso. apply Hn, Hans, Hp.
    + discriminate.
    + lia.
    + split; [exact Hle |]. exists p. split; assumption.
    + reflexivity.
Qed.

(** A returned curve is the one [sensitivity_curve_ok] describes. *)
Lemma sensitivity_curve_Ok_inv (start stop : Z) (c : Curve) :
  sensitivity_curve solver mk start stop = Ok c ->
  (start <= stop)%Z /\
  (forall p, (start <= p <= stop)%Z -> answers solver (mk p)) /\
  curve_xs c = py_range start (stop + 1) /\
  curve_profits c = map (fun p => profit_of solver (mk p)) (curve_xs c) /\
  breakpoint_spec (curve_xs c) (curve_profits c) (curve_breakpoint_at c) /\
  max_spec (curve_xs c) (curve_profits c) (curve_max_profit c) (curve_max_at c).
Proof.
  intros Hc.
  destruct (proj1 (proj1 (sensitivity_curve_outcome start stop))
              (ex_intro _ c Hc)) as (Hle & Hans).
  destruct (sensitivity_curve_ok solver mk start stop Hle Hans)
    as (c' & Hc' & Hspec).
  assert (c' = c) by congruence. subst c'.
  split; [exact Hle |]. split; [exact Hans | exact Hspec].
Qed.

(** The breakpoint and the best value returned lie in the tested range; with
    at least two points the breakpoint is past the first. *)
Lemma sensitivity_curve_bounds (start stop : Z) (c : Curve) :
  sensitivity_curve solver mk start stop = Ok c ->
  (start <= curve_breakpoint_at c <= stop)%Z /\
  ((start < stop)%Z -> (start < curve_breakpoint_at c)%Z) /\
  (start <= curve_max_at c <= stop)%Z.
Proof.
  intros Hc.
  destruct (sensitivity_curve_Ok_inv start stop c Hc)
    as (Hle & _ & Hxs & Hps & Hbp & Hmax).
  assert (Hlenx : length (curve_xs c) = Z.to_nat (stop + 1 - start))
    by (rewrite Hxs; apply py_range_length).
  assert (Hlenp : length (curve_profits c) = Z.to_nat (stop + 1 - start))
    by (rewrite Hps, length_map; exact Hlenx).
  assert (Hnth : forall i x, nth_error (curve_xs c) i = Some x ->
                             (i < Z.to_nat (stop + 1 - start))%nat /\
                             x = (start + Z.of_nat i)%Z).
  { intros i x Hx.
    assert (Hi : (i < length (curve_xs c))%nat)
      by (apply nth_error_Some; congruence).
    split; [lia |].
    rewrite Hxs, py_range_nth_error in Hx by lia. congruence. }
  split; [| split].
  - destruct Hbp as [(i & Hi & _ & _ & Hx) | (_ & Hx)];
      apply Hnth in Hx; lia.
  - intros Hlt.
    destruct Hbp as [(i & Hi & _ & _ & Hx) | (_ & Hx)];
      apply Hnth in Hx; lia.
  - destruct Hmax as (_ & _ & j & _ & _ & _ & Hx). apply Hnth in Hx. lia.
Qed.

End CurveOutcomes.

(** X5: what [sensitivity_curve_pumps] and [sensitivity_curve_labor] do, in
    full: they return exactly when the range is non-empty and the solver
    answers every envelope of it; they raise [IndexError] exactly on an empty
    range; and on a non-empty range one unanswered envelope aborts the whole
    sweep with the solver's exception (no partial series is returned). *)
Theorem curve_outcomes (solver : Solver) (start stop a b : Z) :
  (((exists c, sensitivity_curve_pumps solver start stop a b = Ok c) <->
    (start <= stop)%Z /\
    forall p, (start <= p <= stop)%Z -> answers solver (pumps_envelope a b p)) /\
   (sensitivity_curve_pumps solver start stop a b = Raise IndexError <->
    (stop < start)%Z) /\
   (sensitivity_curve_pumps solver start stop a b = Raise SolverError <->
    (start <= stop)%Z /\
    exists p, (start <= p <= stop)%Z /\
              ~ answers solver (pumps_envelope a b p))) /\
  (((exists c, sensitivity_curve_labor solver start stop a b = Ok c) <->
    (start <= stop)%Z /\
    forall h, (start <= h <= stop)%Z -> answers solver (labor_envelope a b h)) /\
   (sensitivity_curve_labor solver start stop a b = Raise IndexError <->
    (stop < start)%Z) /\
   (sensitivity_curve_labor solver start stop a b = Raise SolverError <->
    (start <= stop)%Z /\
    exists h, (start <= h <= stop)%Z /\
              ~ answers solver (labor_envelope a b h))).
Proof.
  split.
  - rewrite sensitivity_curve_pumps_body. apply sensitivity_curve_outcome.
  - rewrite sensitivity_curve_labor_body. apply sensitivity_curve_outcome.
Qed.

Lemma curve_outcomes_witness :
  ((200 <= 220)%Z /\
   forall p, (200 <= p <= 220)%Z ->
             answers vertex_solver (pumps_envelope 1566 2880 p)) /\
  exists c, sensitivity_curve_pumps vertex_solver 200 220 1566 2880 = Ok c.
Proof.
  assert (H : (200 <= 220)%Z /\
              forall p, (200 <= p <= 220)%Z ->
                        answers vertex_solver (pumps_envelope 1566 2880 p)).
  { split; [lia | intros p _; apply vertex_solver_answers]. }
  split; [exact H |].
  exact (proj2 (proj1 (proj1 (curve_outcomes vertex_solver 200 220 1566 2880))) H).
Defined.

(** X6: the breakpoint and the best-profit value that the curve functions
    return are values of the tested range [start..stop], and on a sweep of
    at least two points the breakpoint is never the first value. *)
Theorem curve_results_within_range (solver : Solver) (start stop a b : Z)
    (c : Curve) :
  sensitivity_curve_pumps solver start stop a b = Ok c \/
  sensitivity_curve_labor solver start stop a b = Ok c ->
  (start <= curve_breakpoint_at c <= stop)%Z /\
  ((start < stop)%Z -> (start < curve_breakpoint_at c)%Z) /\
  (start <= curve_max_at c <= stop)%Z.
Proof.
  intros [H | H].
  - rewrite sensitivity_curve_pumps_body in H.
    exact (sensitivity_curve_bounds _ _ _ _ _ H).
  - rewrite sensitivity_curve_labor_body in H.
    exact (sensitivity_curve_bounds _ _ _ _ _ H).
Qed.

Lemma curve_results_within_range_witness :
  exists c,
    sensitivity_curve_pumps vertex_solver 200 220 1566 2880 = Ok c /\
    (200 <= curve_breakpoint_at c <= 220)%Z /\
    ((200 < 220)%Z -> (200 < curve_breakpoint_at c)%Z) /\
    (200 <= curve_max_at c <= 220)%Z.
Proof.
  destruct (sensitivity_curve_pumps vertex_solver 200 220 1566 2880)
    as [c | e] eqn:E; [| vm_compute in E; discriminate E].
  exists c. split; [reflexivity |].
  apply (curve_results_within_range vertex_solver 200 220 1566 2880 c).
  left. exact E.
Defined.

Lemma sensitivity_curve_single (solver : Solver) (mk : Z -> Resources)
    (start : Z) :
  answers solver (mk start) ->
  sensitivity_curve solver mk start start =
  Ok (mkCurve [start] [profit_of solver (mk start)] start
              (profit_of solver (mk start)) start).
Proof.
  intros Hans. unfold sensitivity_curve. cbv zeta.
  unfold py_range. replace (Z.to_nat (start + 1 - start)) with 1%nat by lia.
  cbn [seq map Z.of_nat]. rewrite Z.add_0_r.
  cbn [collect_profits].
  destruct (solve_hot_tubs_answers solver (mk start) Hans) as (sol & Hs & Hp).
  rewrite Hs. cbn [bind]. rewrite Hp.
  cbn [marginal_deltas length Nat.sub seq map detect_breakpoint].
  rewrite (py_index_last [start] start eq_refl). cbn [bind py_max fold_left].
  cbn [py_list_index]. rewrite Qeq_bool_refl. cbn [bind].
  assert (E : py_index [start] 0 = Ok start) by reflexivity.
  rewrite E. reflexivity.
Qed.

(** X7: a sweep of a single point ([start = stop]) has no delta: the curve
    functions return that point as breakpoint and as best value, with its
    profit as the maximum. *)
Theorem single_point_sweep (solver : Solver) (start a b : Z) :
  (answers solver (pumps_envelope a b start) ->
   sensitivity_curve_pumps solver start start a b =
   Ok (mkCurve [start] [profit_of solver (pumps_envelope a b start)] start
               (profit_of solver (pumps_envelope a b start)) start)) /\
  (answers solver (labor_envelope a b start) ->
   sensitivity_curve_labor solver start start a b =
   Ok (mkCurve [start] [profit_of solver (labor_envelope a b start)] start
               (profit_of solver (labor_envelope a b start)) start)).
Proof.
  split; intros Hans.
  - rewrite sensitivity_curve_pumps_body.
    apply sensitivity_curve_single. exact Hans.
  - rewrite sensitivity_curve_labor_body.
    apply sensitivity_curve_single. exact Hans.
Qed.

Lemma single_point_sweep_witness :
  answers vertex_solver (pumps_envelope 1566 2880 200) /\
  sensitivity_curve_pumps vertex_solver 200 200 1566 2880 =
  Ok (mkCurve [200%Z] [profit_of vertex_solver (pumps_envelope 1566 2880 200)]
              200
              (profit_of vertex_solver (pumps_envelope 1566 2880 200)) 200).
Proof.
  split; [apply vertex_solver_answers |].
  apply (proj1 (single_point_sweep vertex_solver 200 1566 2880)).
  apply vertex_solver_answers.
Defined.

(* ------------------------------------------------------------------ *)
(** ** plot_curve *)

Lemma nth_error_last {A : Type} (l : list A) (d : A) :
  l <> [] -> nth_error l (length l - 1) = Some (last l d).
Proof.
  induction l as [| a t IH]; [congruence |]. intros _.
  destruct t as [| b t']; [reflexivity |].
  specialize (IH ltac:(discriminate)).
  replace (length (a :: b :: t') - 1)%nat with (S (length (b :: t') - 1))
    by (cbn [length]; lia).
  change (nth_error (a :: b :: t') (S (length (b :: t') - 1)))
    with (nth_error (b :: t') (length (b :: t') - 1)).
  rewrite IH. reflexivity.
Qed.

Lemma plot_curve_nonempty (x0 : Z) (rest : list Z) (ys : list Q)
    (bp : Z) (xlabel title outpath : string) :
  length ys = length (x0 :: rest) ->
  plot_curve (x0 :: rest) ys bp xlabel title outpath =
  ([PltFigure; PltPlot (x0 :: rest) ys] ++
   (if ((x0 <=? bp) && (bp <=? last (x0 :: rest) x0))%Z
    then [PltAxvline bp] else []) ++
   [PltXlabel xlabel; PltYlabel "Profit ($)"; PltTitle title; PltGrid;
    PltLegend; PltTightLayout; PltSavefig outpath; PltShow],
   Ok tt).
Proof.
  intros Hlen. unfold plot_curve. cbv zeta.
  rewrite <- Hlen, Nat.eqb_refl. cbn [negb].
  assert (E0 : py_index (x0 :: rest) 0 = Ok x0)
    by (apply (py_index_nat (x0 :: rest) 0 x0); reflexivity).
  assert (El : py_index (x0 :: rest) (-1) = Ok (last (x0 :: rest) x0))
    by (apply py_index_last, nth_error_last; discriminate).
  rewrite E0. destruct (x0 <=? bp)%Z; [| reflexivity].
  rewrite El. destruct (bp <=? last (x0 :: rest) x0)%Z; reflexivity.
Qed.



Lemma plot_curve_on_sweep (solver : Solver) (mk : Z -> Resources)
    (start stop : Z) (c : Curve) (xlabel title outpath : string) :
  sensitivity_curve solver mk start stop = Ok c ->
  plot_curve (curve_xs c) (curve_profits c) (curve_breakpoint_at c)
             xlabel title outpath =
  ([PltFigure; PltPlot (curve_xs c) (curve_profits c);
    PltAxvline (curve_breakpoint_at c);
    PltXlabel xlabel; PltYlabel "Profit ($)"; PltTitle title; PltGrid;
    PltLegend; PltTightLayout; PltSavefig outpath; PltShow],
   Ok tt).
Proof.
  intros H.
  destruct (sensitivity_curve_Ok_inv _ _ _ _ _ H) as (Hle & _ & Hxs & _).
  destruct (sensitivity_curve_bounds _ _ _ _ _ H) as (Hb & _).
  assert (Hlen : length (curve_xs c) = Z.to_nat (stop + 1 - start))
    by (rewrite Hxs; apply py_range_length).
  assert (Hleny : length (curve_profits c) = length (curve_xs c)).
  { destruct (sensitivity_curve_Ok_inv _ _ _ _ _ H) as (_ & _ & _ & Hps & _).
    rewrite Hps, length_map. reflexivity. }
  destruct (curve_xs c) as [| x0 rest] eqn:Ex.
  { simpl in Hlen. lia. }
  rewrite plot_curve_nonempty by exact Hleny.
  assert (E0 : x0 = start).
  { assert (Hn : nth_error (x0 :: rest) 0 = Some (start + Z.of_nat 0)%Z)
      by (rewrite Hxs; apply py_range_nth_error; lia).
    cbn [nth_error Z.of_nat] in Hn. rewrite Z.add_0_r in Hn. congruence. }
  assert (El : last (x0 :: rest) x0 = stop).
  { assert (Hn : nth_error (x0 :: rest) (length (x0 :: rest) - 1) =
                 Some (start + Z.of_nat (length (x0 :: rest) - 1))%Z).
    { rewrite Hxs at 1. apply py_range_nth_error. lia. }
    rewrite (nth_error_last (x0 :: rest) x0) in Hn by discriminate.
    assert (Hl : last (x0 :: rest) x0 =
                 (start + Z.of_nat (length (x0 :: rest) - 1))%Z) by congruence.
    rewrite Hl. lia. }
  rewrite El, E0.
  replace (start <=? curve_breakpoint_at c)%Z with true
    by (symmetry; apply Z.leb_le; lia).
  replace (curve_breakpoint_at c <=? stop)%Z with true
    by (symmetry; apply Z.leb_le; lia).
  reflexivity.
Qed.



(* ------------------------------------------------------------------ *)
(** ** Sweeps answered by exact optima *)

Lemma objective_build_model (res : Resources) (x1 x2 : Q) :
  objective (build_model res) x1 x2 = 350 * x1 + 300 * x2.
Proof. reflexivity. Qed.

Lemma inject_Z_succ (p : Z) : inject_Z (p + 1) == inject_Z p + 1.
Proof. rewrite inject_Z_plus. reflexivity. Qed.

Lemma inject_Z_succ2 (p : Z) : inject_Z (p + 2) == inject_Z p + 2.
Proof. rewrite inject_Z_plus. reflexivity. Qed.

Section ExactSweep.

Variable solver : Solver.
Variable mk : Z -> Resources.

(** Raising the swept amount keeps a plan feasible, and the mean of a plan
    feasible at [p] and one feasible at [p + 2] is feasible at [p + 1]. *)
Hypothesis mk_grows : forall p x1 x2,
  feasible (build_model (mk p)) x1 x2 ->
  feasible (build_model (mk (p + 1))) x1 x2.
Hypothesis mk_midpoint : forall p x1 x2 z1 z2,
  feasible (build_model (mk p)) x1 x2 ->
  feasible (build_model (mk (p + 2))) z1 z2 ->
  feasible (build_model (mk (p + 1))) ((x1 + z1) / 2) ((x2 + z2) / 2).

Variables start stop : Z.

Hypothesis exact : forall p, (start <= p <= stop)%Z ->
  solves_exactly solver (build_model (mk p)).

Let P (p : Z) : Q := profit_of solver (mk p).

Lemma exact_answers (p : Z) :
  (start <= p <= stop)%Z -> answers solver (mk p).
Proof.
  intros Hp. destruct (exact p Hp) as (st & x1 & x2 & v & Hs & _).
  unfold answers. rewrite Hs. discriminate.
Qed.

Lemma exact_profit (p : Z) :
  (start <= p <= stop)%Z ->
  exists x1 x2,
    feasible (build_model (mk p)) x1 x2 /\
    P p == 350 * x1 + 300 * x2 /\
    forall y1 y2, feasible (build_model (mk p)) y1 y2 ->
                  350 * y1 + 300 * y2 <= P p.
Proof.
  intros Hp. destruct (exact p Hp) as (st & x1 & x2 & v & Hs & Hf & Hv & Hmax).
  pose proof (solves_exactly_profit_of solver (mk p) st x1 x2 v Hs) as HP.
  fold (P p) in HP.
  exists x1, x2. split; [exact Hf |]. split.
  - rewrite HP, Hv. apply Qeq_refl.
  - intros y1 y2 Hy. rewrite HP. apply (Hmax y1 y2 Hy).
Qed.

Lemma exact_profit_step (p : Z) :
  (start <= p)%Z -> (p + 1 <= stop)%Z -> P p <= P (p + 1).
Proof.
  intros H1 H2.
  destruct (exact_profit p) as (x1 & x2 & Hf & Hv & _); [lia |].
  destruct (exact_profit (p + 1)) as (_ & _ & _ & _ & Hmax); [lia |].
  rewrite Hv. apply Hmax. apply mk_grows. exact Hf.
Qed.

Lemma exact_profit_mono (p : Z) (k : nat) :
  (start <= p)%Z -> (p + Z.of_nat k <= stop)%Z -> P p <= P (p + Z.of_nat k).
Proof.
  intros H1. induction k as [| k IH]; intros H2.
  - rewrite Z.add_0_r. apply Qle_refl.
  - apply Qle_trans with (P (p + Z.of_nat k)); [apply IH; lia |].
    replace (p + Z.of_nat (S k))%Z with (p + Z.of_nat k + 1)%Z by lia.
    apply exact_profit_step; lia.
Qed.

Lemma exact_profit_concave (p : Z) :
  (start <= p)%Z -> (p + 2 <= stop)%Z ->
  P (p + 2) - P (p + 1) <= P (p + 1) - P p.
Proof.
  intros H1 H2.
  destruct (exact_profit p) as (x1 & x2 & Hfx & Hvx & _); [lia |].
  destruct (exact_profit (p + 2)) as (z1 & z2 & Hfz & Hvz & _); [lia |].
  destruct (exact_profit (p + 1)) as (_ & _ & _ & _ & Hmax); [lia |].
  pose proof (Hmax _ _ (mk_midpoint p x1 x2 z1 z2 Hfx Hfz)) as Hmid.
  assert (E : 350 * ((x1 + z1) / 2) + 300 * ((x2 + z2) / 2) ==
              (1 # 2) * (P p + P (p + 2))).
  { rewrite Hvx, Hvz. field. }
  rewrite E in Hmid. clear - Hmid.
  generalize dependent (P (p + 2)). generalize (P (p + 1)). generalize (P p).
  intros a b c Hmid. lra.
Qed.

(** The returned curve, its profits in terms of [P]. *)
Lemma exact_sweep_curve :
  (start <= stop)%Z ->
  exists c,
    sensitivity_curve solver mk start stop = Ok c /\
    curve_xs c = py_range start (stop + 1) /\
    curve_profits c = map P (py_range start (stop + 1)) /\
    length (curve_profits c) = Z.to_nat (stop + 1 - start) /\
    breakpoint_spec (curve_xs c) (curve_profits c) (curve_breakpoint_at c) /\
    max_spec (curve_xs c) (curve_profits c) (curve_max_profit c) (curve_max_at c).
Proof.
  intros Hle.
  destruct (sensitivity_curve_ok solver mk start stop Hle exact_answers)
    as (c & Hc & Hxs & Hps & Hbp & Hmax).
  exists c. split; [exact Hc |]. split; [exact Hxs |].
  rewrite Hxs in Hps. split; [exact Hps |]. split.
  - rewrite Hps, length_map. apply py_range_length.
  - split; assumption.
Qed.

Lemma exact_sweep_nondecreasing (c : Curve) :
  curve_profits c = map P (py_range start (stop + 1)) ->
  forall i j, (i <= j < length (curve_profits c))%nat ->
              nth i (curve_profits c) 0 <= nth j (curve_profits c) 0.
Proof.
  intros Hps i j Hij. rewrite Hps in *.
  rewrite length_map, py_range_length in Hij.
  rewrite !nth_map_py_range by lia.
  replace (start + Z.of_nat j)%Z
    with (start + Z.of_nat i + Z.of_nat (j - i))%Z by lia.
  apply exact_profit_mono; lia.
Qed.

Lemma exact_sweep_delta_step (c : Curve) :
  curve_profits c = map P (py_range start (stop + 1)) ->
  forall i, (S i < length (curve_profits c) - 1)%nat ->
            delta_at (curve_profits c) (S i) <= delta_at (curve_profits c) i.
Proof.
  intros Hps i Hi. rewrite Hps in *.
  rewrite length_map, py_range_length in Hi.
  unfold delta_at. rewrite !nth_map_py_range by lia.
  replace (start + Z.of_nat (S (S i)))%Z with (start + Z.of_nat i + 2)%Z by lia.
  replace (start + Z.of_nat (S i))%Z with (start + Z.of_nat i + 1)%Z by lia.
  apply exact_profit_concave; lia.
Qed.

Lemma exact_sweep_delta_mono (c : Curve) :
  curve_profits c = map P (py_range start (stop + 1)) ->
  forall i k, (i + k < length (curve_profits c) - 1)%nat ->
              delta_at (curve_profits c) (i + k) <= delta_at (curve_profits c) i.
Proof.
  intros Hps i k. induction k as [| k IH]; intros Hk.
  - rewrite Nat.add_0_r. apply Qle_refl.
  - apply Qle_trans with (delta_at (curve_profits c) (i + k)); [| apply IH; lia].
    replace (i + S k)%nat with (S (i + k)) by lia.
    apply exact_sweep_delta_step; [exact Hps | lia].
Qed.

End ExactSweep.

Lemma half_sum (x z : Q) : 2 * ((x + z) / 2) == x + z.
Proof. field. Qed.

Lemma pumps_envelope_grows (labor tubing p : Z) (x1 x2 : Q) :
  feasible (build_model (pumps_envelope labor tubing p)) x1 x2 ->
  feasible (build_model (pumps_envelope labor tubing (p + 1))) x1 x2.
Proof.
  rewrite !feasible_build_model. unfold pumps_envelope.
  cbn [pumps labor_hours tubing_feet]. rewrite inject_Z_succ.
  intros (H1 & H2 & Ha & Hb & Hc). repeat split; try assumption. lra.
Qed.

Lemma labor_envelope_grows (pu tubing h : Z) (x1 x2 : Q) :
  feasible (build_model (labor_envelope pu tubing h)) x1 x2 ->
  feasible (build_model (labor_envelope pu tubing (h + 1))) x1 x2.
Proof.
  rewrite !feasible_build_model. unfold labor_envelope.
  cbn [pumps labor_hours tubing_feet]. rewrite inject_Z_succ.
  intros (H1 & H2 & Ha & Hb & Hc). repeat split; try assumption. lra.
Qed.

Lemma pumps_envelope_midpoint (labor tubing p : Z) (x1 x2 z1 z2 : Q) :
  feasible (build_model (pumps_envelope labor tubing p)) x1 x2 ->
  feasible (build_model (pumps_envelope labor tubing (p + 2))) z1 z2 ->
  feasible (build_model (pumps_envelope labor tubing (p + 1)))
           ((x1 + z1) / 2) ((x2 + z2) / 2).
Proof.
  rewrite !feasible_build_model. unfold pumps_envelope.
  cbn [pumps labor_hours tubing_feet]. rewrite inject_Z_succ, inject_Z_succ2.
  intros (H1 & H2 & Ha & Hb & Hc) (G1 & G2 & Ga & Gb & Gc).
  pose proof (half_sum x1 z1) as E1. pose proof (half_sum x2 z2) as E2.
  generalize dependent ((x1 + z1) / 2). generalize dependent ((x2 + z2) / 2).
  intros m2 E2 m1 E1. repeat split; lra.
Qed.

Lemma labor_envelope_midpoint (pu tubing h : Z) (x1 x2 z1 z2 : Q) :
  feasible (build_model (labor_envelope pu tubing h)) x1 x2 ->
  feasible (build_model (labor_envelope pu tubing (h + 2))) z1 z2 ->
  feasible (build_model (labor_envelope pu tubing (h + 1)))
           ((x1 + z1) / 2) ((x2 + z2) / 2).
Proof.
  rewrite !feasible_build_model. unfold labor_envelope.
  cbn [pumps labor_hours tubing_feet].
  rewrite inject_Z_succ, inject_Z_succ2.
  intros (H1 & H2 & Ha & Hb & Hc) (G1 & G2 & Ga & Gb & Gc).
  pose proof (half_sum x1 z1) as E1. pose proof (half_sum x2 z2) as E2.
  generalize dependent ((x1 + z1) / 2). generalize dependent ((x2 + z2) / 2).
  intros m2 E2 m1 E1. repeat split; lra.
Qed.

Section ExactSweepResults.

Variable solver : Solver.
Variable mk : Z -> Resources.

Hypothesis mk_grows : forall p x1 x2,
  feasible (build_model (mk p)) x1 x2 ->
  feasible (build_model (mk (p + 1))) x1 x2.
Hypothesis mk_midpoint : forall p x1 x2 z1 z2,
  feasible (build_model (mk p)) x1 x2 ->
  feasible (build_model (mk (p + 2))) z1 z2 ->
  feasible (build_model (mk (p + 1))) ((x1 + z1) / 2) ((x2 + z2) / 2).

Variables start stop : Z.

Hypothesis nonempty : (start <= stop)%Z.
Hypothesis exact : forall p, (start <= p <= stop)%Z ->
  solves_exactly solver (build_model (mk p)).

Lemma exact_sweep_monotone_result :
  exists c,
    sensitivity_curve solver mk start stop = Ok c /\
    (forall i j, (i <= j < length (curve_profits c))%nat ->
                 nth i (curve_profits c) 0 <= nth j (curve_profits c) 0) /\
    curve_max_profit c == profit_of solver (mk stop).
Proof.
  destruct (exact_sweep_curve solver mk start stop exact nonempty)
    as (c & Hc & Hxs & Hps & Hlen & _ & Hmax).
  cbv zeta in Hps.
  pose proof (exact_sweep_nondecreasing solver mk mk_grows start stop exact c Hps)
    as Hmono.
  exists c. split; [exact Hc |]. split; [exact Hmono |].
  destruct Hmax as (Hin & Hall & _).
  set (n := Z.to_nat (stop + 1 - start)) in *.
  assert (Hlast : nth (n - 1) (curve_profits c) 0 = profit_of solver (mk stop)).
  { rewrite Hps. rewrite nth_map_py_range by (unfold n; lia).
    f_equal. f_equal. unfold n. lia. }
  apply Qle_antisym.
  - destruct (In_nth _ _ 0 Hin) as (k & Hk & Ek).
    rewrite <- Ek, <- Hlast. apply Hmono. lia.
  - apply Hall. rewrite <- Hlast. apply nth_In. lia.
Qed.

Lemma exact_sweep_concave_result :
  exists c,
    sensitivity_curve solver mk start stop = Ok c /\
    forall i, (S i < length (curve_profits c) - 1)%nat ->
              delta_at (curve_profits c) (S i) <= delta_at (curve_profits c) i.
Proof.
  destruct (exact_sweep_curve solver mk start stop exact nonempty)
    as (c & Hc & _ & Hps & _).
  cbv zeta in Hps.
  exists c. split; [exact Hc |].
  exact (exact_sweep_delta_step solver mk mk_midpoint start stop exact c Hps).
Qed.

Lemma exact_sweep_drop_result :
  exists c,
    sensitivity_curve solver mk start stop = Ok c /\
    ((curve_breakpoint_at c < stop)%Z ->
     forall j, (Z.to_nat (curve_breakpoint_at c - start) <= j
                < length (curve_profits c) - 1)%nat ->
               delta_at (curve_profits c) j <
               delta_at (curve_profits c) 0 - tol).
Proof.
  destruct (exact_sweep_curve solver mk start stop exact nonempty)
    as (c & Hc & Hxs & Hps & Hlen & Hbp & _).
  cbv zeta in Hps.
  pose proof (exact_sweep_delta_mono solver mk mk_midpoint start stop exact c Hps)
    as Hmono.
  exists c. split; [exact Hc |]. intros Hlt j Hj.
  destruct Hbp as [(i & Hi & Hdev & _ & Hx) | (_ & Hx)].
  - rewrite Hxs, py_range_nth_error in Hx by lia.
    assert (Ei : Z.to_nat (curve_breakpoint_at c - start) = i)
      by (inversion Hx; lia).
    rewrite Ei in Hj.
    assert (Hji : delta_at (curve_profits c) j <= delta_at (curve_profits c) i).
    { replace j with (i + (j - i))%nat by lia. apply Hmono. lia. }
    assert (Hi0 : delta_at (curve_profits c) i <= delta_at (curve_profits c) 0).
    { apply (Hmono 0%nat i). simpl. lia. }
    unfold deviates in Hdev.
    rewrite Qabs_neg in Hdev by lra.
    clear - Hdev Hji. unfold tol in *.
    generalize dependent (delta_at (curve_profits c) j).
    generalize dependent (delta_at (curve_profits c) i).
    generalize (delta_at (curve_profits c) 0).
    intros d0 di Hdev dj Hji. lra.
  - exfalso.
    assert (Hlenx : length (curve_xs c) = Z.to_nat (stop + 1 - start))
      by (rewrite Hxs; apply py_range_length).
    rewrite Hlenx, Hxs, py_range_nth_error in Hx by lia.
    inversion Hx. lia.
Qed.

End ExactSweepResults.

(** *** The exact optima of the reference pump sweep *)

Lemma exact_optimum_Qeq (res : Resources) (x1 x2 v a b c : Q) :
  x1 == a -> x2 == b -> v == c ->
  exact_optimum (build_model res) a b c ->
  exact_optimum (build_model res) x1 x2 v.
Proof.
  intros E1 E2 E3 (Hf & Hv & Hmax).
  apply feasible_build_model in Hf. rewrite objective_build_model in Hv.
  split; [| split].
  - apply feasible_build_model.
    destruct Hf as (H1 & H2 & Ha & Hb & Hc). repeat split; lra.
  - rewrite objective_build_model. lra.
  - intros y1 y2 Hy. specialize (Hmax y1 y2 Hy).
    rewrite objective_build_model in Hmax. rewrite objective_build_model. lra.
Qed.

Lemma pump_sweep_optimum_exact (p : Z) :
  (174 <= p)%Z ->
  let '(o1, o2, ov) := pump_sweep_optimum p in
  exact_optimum (build_model (pumps_envelope 1566 2880 p)) o1 o2 ov.
Proof.
  intros Hp. unfold pump_sweep_optimum.
  destruct (p <=? 207)%Z eqn:E.
  - apply Z.leb_le in E.
    assert (Hlo : inject_Z 174 <= inject_Z p) by (rewrite <- Zle_Qle; lia).
    assert (Hhi : inject_Z p <= inject_Z 207) by (rewrite <- Zle_Qle; lia).
    change (inject_Z 174) with 174 in Hlo.
    change (inject_Z 207) with 207 in Hhi.
    split; [| split].
    + apply feasible_build_model. unfold pumps_envelope.
      cbn [pumps labor_hours tubing_feet].
      change (inject_Z 1566) with 1566. change (inject_Z 2880) with 2880.
      repeat split; lra.
    + rewrite objective_build_model. lra.
    + intros y1 y2 Hy. apply feasible_build_model in Hy.
      unfold pumps_envelope in Hy. cbn [pumps labor_hours tubing_feet] in Hy.
      change (inject_Z 1566) with 1566 in Hy.
      change (inject_Z 2880) with 2880 in Hy.
      destruct Hy as (H1 & H2 & Ha & Hb & Hc).
      rewrite objective_build_model. lra.
  - apply Z.leb_gt in E.
    assert (Hlo : inject_Z 207 <= inject_Z p) by (rewrite <- Zle_Qle; lia).
    change (inject_Z 207) with 207 in Hlo.
    split; [| split].
    + apply feasible_build_model. unfold pumps_envelope.
      cbn [pumps labor_hours tubing_feet].
      change (inject_Z 1566) with 1566. change (inject_Z 2880) with 2880.
      repeat split; lra.
    + rewrite objective_build_model. lra.
    + intros y1 y2 Hy. apply feasible_build_model in Hy.
      unfold pumps_envelope in Hy. cbn [pumps labor_hours tubing_feet] in Hy.
      change (inject_Z 1566) with 1566 in Hy.
      change (inject_Z 2880) with 2880 in Hy.
      destruct Hy as (H1 & H2 & Ha & Hb & Hc).
      rewrite objective_build_model. lra.
Qed.

Lemma vertex_solver_exact_pump_sweep (p : Z) :
  (200 <= p <= 220)%Z ->
  solves_exactly vertex_solver (build_model (pumps_envelope 1566 2880 p)).
Proof.
  intros Hp.
  assert (Hm : vertex_solver_matches p = true).
  { apply (range_check vertex_solver_matches 200 221);
      [vm_compute; reflexivity | lia]. }
  unfold vertex_solver_matches in Hm.
  pose proof (pump_sweep_optimum_exact p ltac:(lia)) as Hopt.
  destruct (vertex_solver (build_model (pumps_envelope 1566 2880 p)))
    as [| st [x1 |] [x2 |] [v |]] eqn:Es; try discriminate Hm.
  destruct (pump_sweep_optimum p) as ((o1 & o2) & ov).
  apply andb_true_iff in Hm. destruct Hm as (Hm & E3).
  apply andb_true_iff in Hm. destruct Hm as (E1 & E2).
  apply Qeq_bool_iff in E1. apply Qeq_bool_iff in E2. apply Qeq_bool_iff in E3.
  exists st, x1, x2, v. split; [exact Es |].
  exact (exact_optimum_Qeq _ _ _ _ _ _ _ E1 E2 E3 Hopt).
Qed.

(** X10: on a sweep that the solver answers with exact optima, the profits
    the curve functions collect never decrease along the sweep, so the
    maximum they report is the profit at the last value [stop]. *)
Theorem exact_sweep_profits_nondecreasing (solver : Solver) :
  (forall start stop labor tubing : Z,
     (start <= stop)%Z ->
     (forall p, (start <= p <= stop)%Z ->
        solves_exactly solver (build_model (pumps_envelope labor tubing p))) ->
     exists c,
       sensitivity_curve_pumps solver start stop labor tubing = Ok c /\
       (forall i j, (i <= j < length (curve_profits c))%nat ->
                    nth i (curve_profits c) 0 <= nth j (curve_profits c) 0) /\
       curve_max_profit c ==
         profit_of solver (pumps_envelope labor tubing stop)) /\
  (forall start stop pumps tubing : Z,
     (start <= stop)%Z ->
     (forall h, (start <= h <= stop)%Z ->
        solves_exactly solver (build_model (labor_envelope pumps tubing h))) ->
     exists c,
       sensitivity_curve_labor solver start stop pumps tubing = Ok c /\
       (forall i j, (i <= j < length (curve_profits c))%nat ->
                    nth i (curve_profits c) 0 <= nth j (curve_profits c) 0) /\
       curve_max_profit c ==
         profit_of solver (labor_envelope pumps tubing stop)).
Proof.
  split; intros start stop a b Hle Hexact.
  - rewrite sensitivity_curve_pumps_body.
    apply exact_sweep_monotone_result;
      [apply pumps_envelope_grows | exact Hle | exact Hexact].
  - rewrite sensitivity_curve_labor_body.
    apply exact_sweep_monotone_result;
      [apply labor_envelope_grows | exact Hle | exact Hexact].
Qed.

Lemma exact_sweep_profits_nondecreasing_witness :
  (200 <= 220)%Z /\
  exists c,
    sensitivity_curve_pumps vertex_solver 200 220 1566 2880 = Ok c /\
    (forall i j, (i <= j < length (curve_profits c))%nat ->
                 nth i (curve_profits c) 0 <= nth j (curve_profits c) 0) /\
    curve_max_profit c == profit_of vertex_solver (pumps_envelope 1566 2880 220).
Proof.
  split; [lia |].
  apply (proj1 (exact_sweep_profits_nondecreasing vertex_solver)
           200 220 1566 2880)%Z; [lia |].
  exact vertex_solver_exact_pump_sweep.
Defined.

(** X11: on a sweep answered with exact optima the marginal deltas the curve
    functions compute never increase: each extra unit of the swept resource
    is worth at most as much as the one before. *)
Theorem exact_sweep_deltas_nonincreasing (solver : Solver) :
  (forall start stop labor tubing : Z,
     (start <= stop)%Z ->
     (forall p, (start <= p <= stop)%Z ->
        solves_exactly solver (build_model (pumps_envelope labor tubing p))) ->
     exists c,
       sensitivity_curve_pumps solver start stop labor tubing = Ok c /\
       forall i, (S i < length (curve_profits c) - 1)%nat ->
         delta_at (curve_profits c) (S i) <= delta_at (curve_profits c) i) /\
  (forall start stop pumps tubing : Z,
     (start <= stop)%Z ->
     (forall h, (start <= h <= stop)%Z ->
        solves_exactly solver (build_model (labor_envelope pumps tubing h))) ->
     exists c,
       sensitivity_curve_labor solver start stop pumps tubing = Ok c /\
       forall i, (S i < length (curve_profits c) - 1)%nat ->
         delta_at (curve_profits c) (S i) <= delta_at (curve_profits c) i).
Proof.
  split; intros start stop a b Hle Hexact.
  - rewrite sensitivity_curve_pumps_body.
    apply exact_sweep_concave_result;
      [apply pumps_envelope_midpoint | exact Hle | exact Hexact].
  - rewrite sensitivity_curve_labor_body.
    apply exact_sweep_concave_result;
      [apply labor_envelope_midpoint | exact Hle | exact Hexact].
Qed.

Lemma exact_sweep_deltas_nonincreasing_witness :
  (200 <= 220)%Z /\
  exists c,
    sensitivity_curve_pumps vertex_solver 200 220 1566 2880 = Ok c /\
    forall i, (S i < length (curve_profits c) - 1)%nat ->
      delta_at (curve_profits c) (S i) <= delta_at (curve_profits c) i.
Proof.
  split; [lia |].
  apply (proj1 (exact_sweep_deltas_nonincreasing vertex_solver)
           200 220 1566 2880)%Z; [lia |].
  exact vertex_solver_exact_pump_sweep.
Defined.

(** X12: on a sweep answered with exact optima, a breakpoint below the last
    tested value marks a drop: from the delta index of the breakpoint on,
    every delta is below the first delta by more than [1e-6]. *)
Theorem exact_sweep_breakpoint_is_drop (solver : Solver) :
  (forall start stop labor tubing : Z,
     (start <= stop)%Z ->
     (forall p, (start <= p <= stop)%Z ->
        solves_exactly solver (build_model (pumps_envelope labor tubing p))) ->
     exists c,
       sensitivity_curve_pumps solver start stop labor tubing = Ok c /\
       ((curve_breakpoint_at c < stop)%Z ->
        forall j, (Z.to_nat (curve_breakpoint_at c - start) <= j
                   < length (curve_profits c) - 1)%nat ->
                  delta_at (curve_profits c) j <
                  delta_at (curve_profits c) 0 - tol)) /\
  (forall start stop pumps tubing : Z,
     (start <= stop)%Z ->
     (forall h, (start <= h <= stop)%Z ->
        solves_exactly solver (build_model (labor_envelope pumps tubing h))) ->
     exists c,
       sensitivity_curve_labor solver start stop pumps tubing = Ok c /\
       ((curve_breakpoint_at c < stop)%Z ->
        forall j, (Z.to_nat (curve_breakpoint_at c - start) <= j
                   < length (curve_profits c) - 1)%nat ->
                  delta_at (curve_profits c) j <
                  delta_at (curve_profits c) 0 - tol)).
Proof.
  split; intros start stop a b Hle Hexact.
  - rewrite sensitivity_curve_pumps_body.
    apply exact_sweep_drop_result;
      [apply pumps_envelope_midpoint | exact Hle | exact Hexact].
  - rewrite sensitivity_curve_labor_body.
    apply exact_sweep_drop_result;
      [apply labor_envelope_midpoint | exact Hle | exact Hexact].
Qed.

Lemma exact_sweep_breakpoint_is_drop_witness :
  (200 <= 220)%Z /\
  exists c,
    sensitivity_curve_pumps vertex_solver 200 220 1566 2880 = Ok c /\
    ((curve_breakpoint_at c < 220)%Z ->
     forall j, (Z.to_nat (curve_breakpoint_at c - 200) <= j
                < length (curve_profits c) - 1)%nat ->
               delta_at (curve_profits c) j <
               delta_at (curve_profits c) 0 - tol).
Proof.
  split; [lia |].
  apply (proj1 (exact_sweep_breakpoint_is_drop vertex_solver)
           200 220 1566 2880)%Z; [lia |].
  exact vertex_solver_exact_pump_sweep.
Defined.

(* ------------------------------------------------------------------ *)
(** ** delta_profit: rounding to cents *)

Lemma Qfloor_bounds (q : Q) :
  inject_Z (Qfloor q) <= q /\ q < inject_Z (Qfloor q) + 1.
Proof.
  split; [apply Qfloor_le |].
  pose proof (Qlt_floor q) as H. rewrite inject_Z_plus in H. exact H.
Qed.

Lemma inject_Z_between (z : Z) (lo hi : Z) :
  inject_Z lo - 1 < inject_Z z -> inject_Z z < inject_Z hi + 1 ->
  (lo <= z <= hi)%Z.
Proof.
  intros H1 H2.
  assert (G1 : inject_Z (lo - 1) < inject_Z z).
  { unfold Zminus. rewrite inject_Z_plus. exact H1. }
  assert (G2 : inject_Z z < inject_Z (hi + 1)).
  { rewrite inject_Z_plus. exact H2. }
  rewrite <- Zlt_Qlt in G1, G2. lia.
Qed.

(** The three cases of [round_half_even], with the fractional part. *)
Lemma round_half_even_cases (q : Q) :
  let f := Qfloor q in
  (q - inject_Z f < 1 # 2 /\ round_half_even q = f) \/
  (1 # 2 < q - inject_Z f /\ round_half_even q = (f + 1)%Z) \/
  (q - inject_Z f == 1 # 2 /\
   round_half_even q = if Z.even f then f else (f + 1)%Z).
Proof.
  intros f. unfold round_half_even. fold f.
  destruct (Qcompare (q - inject_Z f) (1 # 2)) eqn:E.
  - right. right. split; [apply Qeq_alt; exact E | reflexivity].
  - left. split; [apply Qlt_alt; exact E | reflexivity].
  - right. left. split; [apply Qgt_alt; exact E | reflexivity].
Qed.

Lemma round_half_even_error (q : Q) :
  Qabs (inject_Z (round_half_even q) - q) <= 1 # 2.
Proof.
  destruct (Qfloor_bounds q) as (Hlo & Hhi).
  destruct (round_half_even_cases q) as [(Hr & ->) | [(Hr & ->) | (Hr & ->)]].
  - apply Qabs_case; intros _; lra.
  - rewrite inject_Z_plus. change (inject_Z 1) with 1.
    apply Qabs_case; intros _; lra.
  - destruct (Z.even (Qfloor q)).
    + apply Qabs_case; intros _; lra.
    + rewrite inject_Z_plus. change (inject_Z 1) with 1.
      apply Qabs_case; intros _; lra.
Qed.

Lemma round_half_even_zero_iff (q : Q) :
  round_half_even q = 0%Z <-> Qabs q <= 1 # 2.
Proof.
  destruct (Qfloor_bounds q) as (Hlo & Hhi).
  destruct (round_half_even_cases q) as [(Hr & E) | [(Hr & E) | (Hr & E)]];
    rewrite E; clear E.
  - split.
    + intros Hf. rewrite Hf in *. change (inject_Z 0) with 0 in *.
      apply Qabs_case; intros _; lra.
    + intros Hq.
      assert (Hq' : - (1 # 2) <= q /\ q <= 1 # 2).
      { revert Hq. apply Qabs_case; intros; split; lra. }
      assert (Hb : (0 <= Qfloor q <= 0)%Z).
      { apply inject_Z_between; change (inject_Z 0) with 0; lra. }
      lia.
  - split.
    + intros Hf. assert (Ef : Qfloor q = (-1)%Z) by lia.
      rewrite Ef in *. change (inject_Z (-1)) with (-1 # 1) in *.
      apply Qabs_case; intros _; lra.
    + intros Hq.
      assert (Hq' : - (1 # 2) <= q /\ q <= 1 # 2).
      { revert Hq. apply Qabs_case; intros; split; lra. }
      assert (Hb : (-1 <= Qfloor q <= -1)%Z).
      { apply inject_Z_between; change (inject_Z (-1)) with (-1 # 1); lra. }
      lia.
  - split.
    + intros Hf.
      destruct (Z.even (Qfloor q)) eqn:Ev.
      * rewrite Hf in *. change (inject_Z 0) with 0 in *.
        apply Qabs_case; intros _; lra.
      * assert (Ef : Qfloor q = (-1)%Z) by lia.
        rewrite Ef in *. change (inject_Z (-1)) with (-1 # 1) in *.
        apply Qabs_case; intros _; lra.
    + intros Hq.
      assert (Hq' : - (1 # 2) <= q /\ q <= 1 # 2).
      { revert Hq. apply Qabs_case; intros; split; lra. }
      assert (Hb : (-1 <= Qfloor q <= 0)%Z).
      { apply inject_Z_between;
          [change (inject_Z (-1)) with (-1 # 1) | change (inject_Z 0) with 0];
          lra. }
      assert (Ef : Qfloor q = (-1)%Z \/ Qfloor q = 0%Z) by lia.
      destruct Ef as [Ef | Ef]; rewrite Ef; reflexivity.
Qed.

Lemma py_round2_eq (x : Q) :
  py_round2 x == inject_Z (round_half_even (x * 100)) * (1 # 100).
Proof. unfold py_round2. reflexivity. Qed.

Lemma py_round2_error (x : Q) : Qabs (py_round2 x - x) <= 1 # 200.
Proof.
  pose proof (round_half_even_error (x * 100)) as H.
  apply Qabs_Qle_condition in H. destruct H as (H1 & H2).
  rewrite py_round2_eq.
  generalize dependent (inject_Z (round_half_even (x * 100))). intros r H1 H2.
  apply Qabs_Qle_condition. split; lra.
Qed.

Lemma Qabs_gt_cases (x c : Q) : c < Qabs x <-> x < - c \/ c < x.
Proof.
  split.
  - apply Qabs_case; intros Hx H; [right; exact H | left; lra].
  - intros [H | H].
    + apply Qlt_le_trans with (- x); [lra |].
      rewrite <- Qabs_opp. apply Qle_Qabs.
    + apply Qlt_le_trans with x; [exact H | apply Qle_Qabs].
Qed.

Lemma nonzero_inject_Z (r : Z) :
  r <> 0%Z -> inject_Z r <= -1 \/ 1 <= inject_Z r.
Proof.
  intros Hr. destruct (Z_lt_le_dec r 0) as [Hneg | Hpos].
  - left. change (-1) with (inject_Z (-1)). rewrite <- Zle_Qle. lia.
  - right. change 1 with (inject_Z 1). rewrite <- Zle_Qle. lia.
Qed.

(** The comparison with [1e-6] after rounding is a comparison of the raw
    value with half a cent. *)
Lemma py_round2_exceeds (x : Q) :
  exceeds_tol (Qabs (py_round2 x)) = true <-> 1 # 200 < Qabs x.
Proof.
  rewrite exceeds_tol_iff, py_round2_eq.
  pose proof (round_half_even_zero_iff (x * 100)) as Hz.
  rewrite Qabs_Qle_condition in Hz.
  rewrite !Qabs_gt_cases. unfold tol.
  destruct (Z.eq_dec (round_half_even (x * 100)) 0) as [E | E].
  - rewrite E in *. change (inject_Z 0) with 0.
    destruct (proj1 Hz eq_refl) as (H1 & H2).
    split; intros [H | H]; lra.
  - assert (Hn : ~ (- (1 # 2) <= x * 100 <= 1 # 2)).
    { intros H. apply E. apply Hz. exact H. }
    pose proof (nonzero_inject_Z _ E) as Hr.
    clear Hz E.
    generalize dependent (inject_Z (round_half_even (x * 100))).
    intros r Hr.
    split.
    + intros _.
      destruct (Qlt_le_dec x (- (1 # 200))) as [H | H]; [left; exact H |].
      destruct (Qlt_le_dec (1 # 200) x) as [H' | H']; [right; exact H' |].
      exfalso. apply Hn. split; lra.
    + intros _. destruct Hr as [Hr | Hr]; [left | right]; lra.
Qed.

Lemma rounded_delta_raw (solver : Solver) (mk : Z -> Resources) (p : Z) :
  rounded_delta solver mk p = py_round2 (raw_delta solver mk p).
Proof. reflexivity. Qed.

Lemma py_round2_exceeds_tol (x : Q) :
  tol < Qabs (py_round2 x) <-> 1 # 200 < Qabs x.
Proof. rewrite <- exceeds_tol_iff. apply py_round2_exceeds. Qed.

Lemma py_round2_within_tol (x : Q) :
  Qabs (py_round2 x) <= tol <-> Qabs x <= 1 # 200.
Proof.
  split; intros H.
  - apply Qnot_lt_le. intros Hlt. apply py_round2_exceeds_tol in Hlt.
    exact (Qle_not_lt _ _ H Hlt).
  - apply Qnot_lt_le. intros Hlt. apply py_round2_exceeds_tol in Hlt.
    exact (Qle_not_lt _ _ H Hlt).
Qed.

(** C7, as stated, fails: with a profit that creeps up by 0.0049 with every
    foot of tubing beyond 2880, the profit delta from the previous solve
    exceeds [1e-6] at 2881 and at every later value, and the profit at 2930
    is 0.245 above the baseline, yet [q3_more_tubing] stops nowhere and
    reports tubing as non-binding. *)
Lemma tubing_creep_not_reported :
  raw_delta tubing_creep_solver (tubing_envelope 200 1566) 2881 == 49 # 10000 /\
  (forall t, (2880 < t <= 2880 + 50)%Z ->
             tol < Qabs (raw_delta tubing_creep_solver (tubing_envelope 200 1566) t)) /\
  profit_of tubing_creep_solver (tubing_envelope 200 1566 2930) -
    profit_of tubing_creep_solver default_resources == 245 # 1000 /\
  q3_more_tubing tubing_creep_solver 50 =
    Ok (mkTubingReport 66100 TubingNonBinding).
Proof.
  split; [vm_compute; reflexivity |].
  split; [| split; vm_compute; reflexivity].
  assert (H : forallb
                (fun t => exceeds_tol
                   (Qabs (raw_delta tubing_creep_solver
                                    (tubing_envelope 200 1566) t)))
                (py_range 2881 2931) = true)
    by (vm_compute; reflexivity).
  rewrite forallb_forall in H.
  intros t Ht. apply exceeds_tol_iff. apply H.
  unfold py_range. apply in_map_iff.
  exists (Z.to_nat (t - 2881)). split; [lia |].
  apply in_seq. lia.
Qed.

(** C7, amended: [q3_more_tubing] scans the tubing values 2881, 2882, ... up
    to 2880 + increment in increasing order.  Because [delta_profit] rounds
    the delta to two decimals before the comparison with [1e-6], it reports
    value [t], with the rounded delta, exactly when [t] is the first value
    in that range whose profit differs from the profit of the previous solve
    by more than half a cent (0.005); the solver is then called for no value
    beyond [t].  It reports tubing as non-binding exactly when no value in
    the range differs by more than half a cent from the previous one.  The
    delta is compared with zero, never with a first delta. *)
Theorem tubing_first_change_scan (solver : Solver) (increment : Z) :
  answers solver default_resources ->
  (forall r, q3_more_tubing solver increment = Ok r ->
             tubing_baseline_profit r = profit_of solver default_resources) /\
  (forall t d,
     q3_more_tubing solver increment =
       Ok (mkTubingReport (profit_of solver default_resources)
                          (TubingBinding t d)) <->
     (2880 < t <= 2880 + increment)%Z /\
     d = py_round2 (raw_delta solver (tubing_envelope 200 1566) t) /\
     1 # 200 < Qabs (raw_delta solver (tubing_envelope 200 1566) t) /\
     (forall u, (2880 < u <= t)%Z ->
                answers solver (tubing_envelope 200 1566 u)) /\
     (forall u, (2880 < u < t)%Z ->
                Qabs (raw_delta solver (tubing_envelope 200 1566) u) <= 1 # 200)) /\
  (q3_more_tubing solver increment =
     Ok (mkTubingReport (profit_of solver default_resources) TubingNonBinding) <->
   forall u, (2880 < u <= 2880 + increment)%Z ->
             answers solver (tubing_envelope 200 1566 u) /\
             Qabs (raw_delta solver (tubing_envelope 200 1566) u) <= 1 # 200).
Proof.
  intros Hbase.
  destruct (tubing_scan_rounded solver increment Hbase) as (H1 & H2 & H3).
  split; [exact H1 |]. split.
  - intros t d. rewrite (H2 t d). rewrite rounded_delta_raw.
    split; intros (Hr & Ed & Hex & Hans & Hlt);
      (split; [exact Hr |]); (split; [exact Ed |]);
      (split; [apply py_round2_exceeds_tol; exact Hex |]);
      (split; [exact Hans |]);
      intros u Hu; apply py_round2_within_tol.
    + rewrite <- rounded_delta_raw. apply Hlt. exact Hu.
    + apply Hlt. exact Hu.
  - rewrite H3.
    split; intros H u Hu; destruct (H u Hu) as (Ha & Hd);
      (split; [exact Ha |]); apply py_round2_within_tol.
    + rewrite <- rounded_delta_raw. exact Hd.
    + exact Hd.
Qed.

Lemma tubing_first_change_scan_witness :
  answers vertex_solver default_resources /\
  (q3_more_tubing vertex_solver 50 =
     Ok (mkTubingReport (profit_of vertex_solver default_resources)
                        TubingNonBinding) <->
   forall u, (2880 < u <= 2880 + 50)%Z ->
             answers vertex_solver (tubing_envelope 200 1566 u) /\
             Qabs (raw_delta vertex_solver (tubing_envelope 200 1566) u)
               <= 1 # 200).
Proof.
  split; [apply vertex_solver_answers |].
  apply (proj2 (proj2 (tubing_first_change_scan vertex_solver 50
                         (vertex_solver_answers default_resources)))).
Defined.

(** X14: because [delta_profit] rounds before the comparison with [1e-6],
    [q3_more_tubing] reports a change exactly when some tubing value of the
    range moves the raw profit by more than half a cent (0.005) from the
    previous solve. *)
Theorem tubing_change_threshold (solver : Solver) (increment : Z) :
  answers solver default_resources ->
  (forall t, (2880 < t <= 2880 + increment)%Z ->
             answers solver (tubing_envelope 200 1566 t)) ->
  exists r,
    q3_more_tubing solver increment = Ok r /\
    ((exists t d, tubing_verdict r = TubingBinding t d) <->
     (exists t, (2880 < t <= 2880 + increment)%Z /\
                1 # 200 < Qabs (raw_delta solver (tubing_envelope 200 1566) t))).
Proof.
  intros Hbase Hans.
  destruct (q3_more_tubing_detects solver increment Hbase Hans)
    as (r & Hr & Hiff).
  exists r. split; [exact Hr |]. rewrite Hiff.
  split; intros (t & Ht & Hd); exists t; (split; [exact Ht |]).
  - apply py_round2_exceeds. apply exceeds_tol_iff. exact Hd.
  - apply exceeds_tol_iff.
    apply (proj2 (py_round2_exceeds
                    (profit_of solver (tubing_envelope 200 1566 t) -
                     profit_of solver (tubing_envelope 200 1566 (t - 1))))).
    exact Hd.
Qed.

Lemma tubing_change_threshold_witness :
  answers vertex_solver default_resources /\
  exists r,
    q3_more_tubing vertex_solver 50 = Ok r /\
    ((exists t d, tubing_verdict r = TubingBinding t d) <->
     (exists t, (2880 < t <= 2880 + 50)%Z /\
                1 # 200 <
                Qabs (raw_delta vertex_solver (tubing_envelope 200 1566) t))).
Proof.
  split; [apply vertex_solver_answers |].
  apply (tubing_change_threshold vertex_solver 50).
  - apply vertex_solver_answers.
  - intros t _. apply vertex_solver_answers.
Defined.

(* ------------------------------------------------------------------ *)
(** ** Binary64 rounding *)

Lemma pow2_pos (e : Z) : 0 < pow2 e.
Proof. apply Qpower_0_lt. reflexivity. Qed.

Lemma pow2_add (a b : Z) : pow2 (a + b) == pow2 a * pow2 b.
Proof. apply Qpower_plus. discriminate. Qed.

Lemma pow2_inv (e : Z) : pow2 (- e) * pow2 e == 1.
Proof.
  rewrite <- pow2_add. replace (- e + e)%Z with 0%Z by lia. reflexivity.
Qed.

Lemma pow2_of_Z (n : Z) : (0 <= n)%Z -> inject_Z (2 ^ n) == pow2 n.
Proof. intros H. apply (Zpower_Qpower 2 n H). Qed.

Lemma Qabs_make (q : Q) :
  Qabs q == inject_Z (Z.abs (Qnum q)) / inject_Z (Zpos (Qden q)).
Proof.
  destruct q as [n d]. unfold Qabs. cbn [Qnum Qden]. apply Qmake_Qdiv.
Qed.

Lemma ilog2_le (q : Q) : ~ q == 0 -> pow2 (ilog2 q) <= Qabs q.
Proof.
  intros Hq. unfold ilog2.
  set (n := Z.abs (Qnum q)). set (d := Zpos (Qden q)).
  destruct (Qle_bool (pow2 (Z.log2 n - Z.log2 d)) (Qabs q)) eqn:E.
  - apply Qle_bool_iff. exact E.
  - clear E.
    assert (Hn : (0 < n)%Z).
    { unfold n. destruct q as [[| p | p] dd]; cbn [Qnum Z.abs]; try lia.
      exfalso. apply Hq. reflexivity. }
    assert (Hd : (0 < d)%Z) by (unfold d; lia).
    destruct (Z.log2_spec n Hn) as (Ha & _).
    destruct (Z.log2_spec d Hd) as (_ & Hb).
    pose proof (Z.log2_nonneg n) as Ha0. pose proof (Z.log2_nonneg d) as Hb0.
    rewrite Qabs_make. fold n d.
    replace (Z.log2 n - Z.log2 d - 1)%Z with (Z.log2 n - (Z.log2 d + 1))%Z by lia.
    unfold pow2 at 1. rewrite Qpower_minus by discriminate.
    fold (pow2 (Z.log2 n)). fold (pow2 (Z.log2 d + 1)).
    rewrite <- !pow2_of_Z by lia.
    replace (Z.succ (Z.log2 d)) with (Z.log2 d + 1)%Z in Hb by lia.
    set (A := (2 ^ Z.log2 n)%Z) in *. set (B := (2 ^ (Z.log2 d + 1))%Z) in *.
    assert (HA : inject_Z A <= inject_Z n) by (rewrite <- Zle_Qle; exact Ha).
    assert (HB : inject_Z d <= inject_Z B) by (rewrite <- Zle_Qle; lia).
    assert (Hd' : 0 < inject_Z d) by (change 0 with (inject_Z 0); rewrite <- Zlt_Qlt; exact Hd).
    assert (HA0 : 0 < inject_Z A).
    { change 0 with (inject_Z 0). rewrite <- Zlt_Qlt. unfold A. apply Z.pow_pos_nonneg; lia. }
    assert (HB0 : 0 < inject_Z B) by lra.
    apply Qle_shift_div_l; [exact Hd' |].
    unfold Qdiv. rewrite <- Qmult_assoc, (Qmult_comm (/ inject_Z B)), Qmult_assoc.
    apply Qle_shift_div_r; [exact HB0 |].
    generalize dependent (inject_Z A). generalize dependent (inject_Z B).
    generalize dependent (inject_Z n). generalize dependent (inject_Z d).
    intros. nra.
Qed.

(** [ilog2 q] is the exponent of the binade of [q]: with [ilog2_le],
    [2^(ilog2 q) <= |q| < 2^(ilog2 q + 1)], so [fl] keeps 53 bits. *)
Lemma ilog2_lt (q : Q) : ~ q == 0 -> Qabs q < pow2 (ilog2 q + 1).
Proof.
  intros Hq. unfold ilog2.
  set (n := Z.abs (Qnum q)). set (d := Zpos (Qden q)).
  destruct (Qle_bool (pow2 (Z.log2 n - Z.log2 d)) (Qabs q)) eqn:E.
  - clear E.
    assert (Hn : (0 < n)%Z).
    { unfold n. destruct q as [[| p | p] dd]; cbn [Qnum Z.abs]; try lia.
      exfalso. apply Hq. reflexivity. }
    assert (Hd : (0 < d)%Z) by (unfold d; lia).
    destruct (Z.log2_spec n Hn) as (_ & Ha).
    destruct (Z.log2_spec d Hd) as (Hb & _).
    pose proof (Z.log2_nonneg n) as Ha0. pose proof (Z.log2_nonneg d) as Hb0.
    rewrite Qabs_make. fold n d.
    replace (Z.log2 n - Z.log2 d + 1)%Z with (Z.log2 n + 1 - Z.log2 d)%Z by lia.
    unfold pow2 at 1. rewrite Qpower_minus by discriminate.
    fold (pow2 (Z.log2 n + 1)). fold (pow2 (Z.log2 d)).
    rewrite <- !pow2_of_Z by lia.
    replace (Z.succ (Z.log2 n)) with (Z.log2 n + 1)%Z in Ha by lia.
    set (A := (2 ^ (Z.log2 n + 1))%Z) in *. set (B := (2 ^ Z.log2 d)%Z) in *.
    assert (HA : inject_Z n < inject_Z A) by (rewrite <- Zlt_Qlt; exact Ha).
    assert (HB : inject_Z B <= inject_Z d) by (rewrite <- Zle_Qle; lia).
    assert (Hd' : 0 < inject_Z d)
      by (change 0 with (inject_Z 0); rewrite <- Zlt_Qlt; exact Hd).
    assert (HB0 : 0 < inject_Z B).
    { change 0 with (inject_Z 0). rewrite <- Zlt_Qlt. unfold B.
      apply Z.pow_pos_nonneg; lia. }
    assert (Hn' : 0 < inject_Z n)
      by (change 0 with (inject_Z 0); rewrite <- Zlt_Qlt; exact Hn).
    apply Qlt_shift_div_r; [exact Hd' |].
    unfold Qdiv. rewrite <- Qmult_assoc, (Qmult_comm (/ inject_Z B)), Qmult_assoc.
    apply Qlt_shift_div_l; [exact HB0 |].
    generalize dependent (inject_Z A). generalize dependent (inject_Z B).
    generalize dependent (inject_Z n). generalize dependent (inject_Z d).
    intros. nra.
  - replace (Z.log2 n - Z.log2 d - 1 + 1)%Z with (Z.log2 n - Z.log2 d)%Z by lia.
    apply Qnot_le_lt. intros H. apply Qle_bool_iff in H.
    rewrite H in E. discriminate E.
Qed.

Lemma fl_scaled (q : Q) (e : Z) :
  Qabs (inject_Z (round_half_even (q * pow2 (- e))) * pow2 e - q)
    <= (1 # 2) * pow2 e.
Proof.
  pose proof (round_half_even_error (q * pow2 (- e))) as H.
  pose proof (pow2_pos e) as Hu. pose proof (pow2_inv e) as Hinv.
  set (r := inject_Z (round_half_even (q * pow2 (- e)))) in *.
  assert (E : r * pow2 e - q == (r - q * pow2 (- e)) * pow2 e).
  { setoid_replace ((r - q * pow2 (- e)) * pow2 e)
      with (r * pow2 e - q * (pow2 (- e) * pow2 e)) by ring.
    rewrite Hinv. ring. }
  rewrite E, Qabs_Qmult, (Qabs_pos (pow2 e)) by (apply Qlt_le_weak; exact Hu).
  apply Qmult_le_compat_r; [exact H | apply Qlt_le_weak; exact Hu].
Qed.

Lemma fl_zero (q : Q) : q == 0 -> fl q == 0.
Proof.
  intros Hq. unfold fl. cbv zeta.
  generalize (Z.max (ilog2 q) (-1022) - 52)%Z. intros e.
  assert (E : round_half_even (q * pow2 (- e)) = 0%Z).
  { apply (proj2 (round_half_even_zero_iff _)).
    rewrite Hq, Qmult_0_l. discriminate. }
  rewrite E. apply Qmult_0_l.
Qed.

(** The error of one rounding: relative 2^-53, or absolute 2^-1075 among the
    subnormals. *)
Lemma fl_error (q : Q) :
  Qabs (fl q - q) <= pow2 (-53) * Qabs q + pow2 (-1075).
Proof.
  pose proof (Qabs_nonneg q) as Hq0.
  pose proof (pow2_pos (-53)) as He. pose proof (pow2_pos (-1075)) as Hn.
  destruct (Qeq_dec q 0) as [Hz | Hnz].
  - rewrite (fl_zero q Hz), Hz. change (Qabs (0 - 0)) with 0.
    change (Qabs 0) with 0. lra.
  - unfold fl. cbv zeta.
    eapply Qle_trans; [apply fl_scaled |].
    destruct (Z.max_spec (ilog2 q) (-1022)) as [(Hlt & ->) | (Hge & ->)].
    + change (-1022 - 52)%Z with (-1075 + 1)%Z.
      rewrite pow2_add. change (pow2 1) with 2.
      assert (0 <= pow2 (-53) * Qabs q)
        by (apply Qmult_le_0_compat; [apply Qlt_le_weak; exact He | exact Hq0]).
      lra.
    + replace (ilog2 q - 52)%Z with (ilog2 q + (-53 + 1))%Z by lia.
      rewrite !pow2_add. change (pow2 1) with 2.
      pose proof (ilog2_le q Hnz) as Hl.
      assert (pow2 (ilog2 q) * pow2 (-53) <= Qabs q * pow2 (-53))
        by (apply Qmult_le_compat_r; [exact Hl | apply Qlt_le_weak; exact He]).
      generalize dependent (pow2 (ilog2 q)). generalize dependent (Qabs q).
      generalize dependent (pow2 (-53)). generalize dependent (pow2 (-1075)).
      intros. nra.
Qed.

(** [fl] on reference values: 0.1, the integers around 2^53 (ties to the
    even mantissa), a tie below 2^53, and a double. *)
Example fl_reference_values :
  fl (1 # 10) == 3602879701896397 # 36028797018963968 /\
  fl 9007199254740993 == 9007199254740992 /\
  fl 9007199254740995 == 9007199254740996 /\
  fl (9007199254740990 + (1 # 2)) == 9007199254740990 /\
  fl (1 # 8) == 1 # 8.
Proof. repeat split; vm_compute; reflexivity. Qed.

Lemma pow2_m53 : pow2 (-53) == 1 # 9007199254740992.
Proof. vm_compute. reflexivity. Qed.

Lemma pow2_m1075_small : pow2 (-1075) <= 1 # 1000000000000000000.
Proof. vm_compute. discriminate. Qed.

(** One rounding, as a two-sided bound with the constants made explicit. *)
Lemma fl_error_bounds (q m : Q) :
  Qabs q <= m ->
  - ((1 # 9007199254740992) * m + (1 # 1000000000000000000)) <= fl q - q /\
  fl q - q <= (1 # 9007199254740992) * m + (1 # 1000000000000000000).
Proof.
  intros Hm. pose proof (fl_error q) as H.
  rewrite pow2_m53 in H. pose proof pow2_m1075_small as Hn.
  apply Qabs_Qle_condition in H. destruct H as (H1 & H2).
  generalize dependent (fl q - q). generalize dependent (Qabs q).
  generalize dependent (pow2 (-1075)). intros. split; lra.
Qed.

Lemma slack_identity_binary64 (E u : Q) :
  Qabs E <= 1000000000 -> Qabs u <= 1000000000 ->
  let s := fsub (fl E) u in
  Qabs (u + s - E) <= tol /\ Qabs (fadd u s - E) <= tol.
Proof.
  intros HE Hu s. unfold s, fsub, fadd, tol.
  pose proof (fl_error_bounds E _ HE) as (Ha1 & Ha2).
  apply Qabs_Qle_condition in HE. apply Qabs_Qle_condition in Hu.
  destruct HE as (HE1 & HE2). destruct Hu as (Hu1 & Hu2).
  assert (Hm1 : Qabs (fl E - u) <= 2000000001).
  { apply Qabs_Qle_condition. split; lra. }
  pose proof (fl_error_bounds (fl E - u) _ Hm1) as (Hb1 & Hb2).
  assert (Hm2 : Qabs (u + fl (fl E - u)) <= 1000000001).
  { apply Qabs_Qle_condition. split; lra. }
  pose proof (fl_error_bounds (u + fl (fl E - u)) _ Hm2) as (Hc1 & Hc2).
  split; apply Qabs_Qle_condition; split; lra.
Qed.

Lemma fl_bound (q m : Q) :
  Qabs q <= m -> m <= 1000000000 -> Qabs (fl q) <= m + 1.
Proof.
  intros Hq Hm. pose proof (fl_error_bounds q _ Hq) as (H1 & H2).
  apply Qabs_Qle_condition in Hq. destruct Hq as (Hq1 & Hq2).
  apply Qabs_Qle_condition. split; lra.
Qed.

Lemma Qabs_inject_Z_le (z b : Z) :
  (Z.abs z <= b)%Z -> Qabs (inject_Z z) <= inject_Z b.
Proof.
  intros H. change (Qabs (inject_Z z)) with (inject_Z (Z.abs z)).
  rewrite <- Zle_Qle. exact H.
Qed.

Lemma Qabs_scale_le (c x b : Q) :
  0 <= c -> Qabs x <= b -> Qabs (c * x) <= c * b.
Proof.
  intros Hc Hx. rewrite Qabs_Qmult, (Qabs_pos c) by exact Hc.
  rewrite (Qmult_comm c (Qabs x)), (Qmult_comm c b).
  apply Qmult_le_compat_r; assumption.
Qed.

(** The products and sums of the [used] dict stay small when the variable
    values do. *)
Lemma used_entry_bound (c1 c2 : Z) (xa xh : Q) :
  (0 <= c1 <= 16)%Z -> (0 <= c2 <= 16)%Z ->
  float_of_int c1 == inject_Z c1 -> float_of_int c2 == inject_Z c2 ->
  Qabs xa <= 10000000 -> Qabs xh <= 10000000 ->
  Qabs (fadd (fmul (float_of_int c1) xa) (fmul (float_of_int c2) xh))
    <= 1000000000.
Proof.
  intros Hc1 Hc2 E1 E2 Ha Hh. unfold fadd, fmul.
  assert (G1 : 0 <= inject_Z c1 <= 16).
  { change 0 with (inject_Z 0). change 16 with (inject_Z 16).
    rewrite <- !Zle_Qle. exact Hc1. }
  assert (G2 : 0 <= inject_Z c2 <= 16).
  { change 0 with (inject_Z 0). change 16 with (inject_Z 16).
    rewrite <- !Zle_Qle. exact Hc2. }
  assert (Ha' : Qabs (float_of_int c1 * xa) <= 160000000).
  { rewrite E1. eapply Qle_trans; [apply Qabs_scale_le; [apply G1 | exact Ha] |].
    destruct G1 as (_ & G1).
    generalize dependent (inject_Z c1). intros. lra. }
  assert (Hh' : Qabs (float_of_int c2 * xh) <= 160000000).
  { rewrite E2. eapply Qle_trans; [apply Qabs_scale_le; [apply G2 | exact Hh] |].
    destruct G2 as (_ & G2).
    generalize dependent (inject_Z c2). intros. lra. }
  pose proof (fl_bound _ _ Ha' ltac:(lra)) as Ba.
  pose proof (fl_bound _ _ Hh' ltac:(lra)) as Bh.
  assert (Hs : Qabs (fl (float_of_int c1 * xa) + fl (float_of_int c2 * xh))
               <= 320000002).
  { apply Qabs_Qle_condition in Ba. apply Qabs_Qle_condition in Bh.
    apply Qabs_Qle_condition. split; lra. }
  pose proof (fl_bound _ _ Hs ltac:(lra)) as B. lra.
Qed.

Lemma float_of_small_int :
  float_of_int 9 == 9 /\ float_of_int 6 == 6 /\
  float_of_int 12 == 12 /\ float_of_int 16 == 16.
Proof. repeat split; vm_compute; reflexivity. Qed.

(** C5, as stated, fails: for the envelope with 2^53 - 1 pumps and a solver
    that returns the feasible plan of half an Aqua-Spa, the float
    subtraction [res.pumps - used["pumps"]] rounds 9007199254740990.5 to
    9007199254740990, so [used + slack] misses the envelope amount by 0.5,
    and by 1 when the sum is itself taken in floats. *)
Lemma slack_identity_fails_at_large_envelope :
  feasible (build_model (mkResources 9007199254740991 1566 2880)) (1 # 2) 0 /\
  exists sol u s,
    solve_hot_tubs_binary64 half_pump_solver
      (mkResources 9007199254740991 1566 2880) = Ok sol /\
    dict_get (used sol) (resource_key Pumps) = Ok u /\
    dict_get (slack sol) (resource_key Pumps) = Ok s /\
    u == 1 # 2 /\ s == 9007199254740990 /\
    Qabs (u + s - 9007199254740991) == 1 # 2 /\
    Qabs (fadd u s - 9007199254740991) == 1 /\
    tol < Qabs (u + s - 9007199254740991) /\
    tol < Qabs (fadd u s - 9007199254740991).
Proof.
  split.
  - unfold feasible, build_model. cbn [low1 low2 constraints].
    split; [discriminate |]. split; [discriminate |].
    repeat constructor; unfold satisfies; cbn [coef1 coef2 rhs];
      vm_compute; discriminate.
  - eexists. eexists. eexists.
    split; [vm_compute; reflexivity |].
    split; [reflexivity |]. split; [reflexivity |].
    repeat split; vm_compute; reflexivity.
Qed.

(** C5, amended: for every envelope whose amounts are at most 1e9 in
    absolute value and every solver result whose variable values are at most
    1e7 in absolute value, the Solution of [solve_hot_tubs], with the
    rounding of its float operations, has for each of the three resources
    [used + slack] equal to the envelope amount within [1e-6], whether the
    sum is taken exactly or in floats. *)
Theorem used_plus_slack_is_envelope_binary64
    (solver : Solver) (res : Resources) (sol : Solution) :
  bounded_envelope res 1000000000 ->
  bounded_values (solver (build_model res)) 10000000 ->
  solve_hot_tubs_binary64 solver res = Ok sol ->
  forall r : Resource, exists u s,
    dict_get (used sol) (resource_key r) = Ok u /\
    dict_get (slack sol) (resource_key r) = Ok s /\
    Qabs (u + s - inject_Z (envelope_amount r res)) <= tol /\
    Qabs (fadd u s - inject_Z (envelope_amount r res)) <= tol.
Proof.
  intros (Ep & El & Et) Hv. unfold solve_hot_tubs_binary64.
  destruct (solver (build_model res)) as [| st v1 v2 vobj]; [discriminate |].
  cbn [bounded_values] in Hv. destruct Hv as (Ha & Hh).
  intros H r. cbn [bind dict_get String.eqb Ascii.eqb Bool.eqb] in H.
  inversion H; subst; clear H.
  destruct float_of_small_int as (E9 & E6 & E12 & E16).
  destruct r; do 2 eexists;
    (split; [reflexivity | split; [reflexivity |]]);
    cbn [envelope_amount];
    [ change (float_of_int (pumps res)) with (fl (inject_Z (pumps res)))
    | change (float_of_int (labor_hours res))
        with (fl (inject_Z (labor_hours res)))
    | change (float_of_int (tubing_feet res))
        with (fl (inject_Z (tubing_feet res))) ];
    apply slack_identity_binary64.
  - apply (Qabs_inject_Z_le _ 1000000000). exact Ep.
  - unfold fadd.
    assert (Hs : Qabs (or_zero v1 + or_zero v2) <= 20000000).
    { apply Qabs_Qle_condition in Ha. apply Qabs_Qle_condition in Hh.
      apply Qabs_Qle_condition. split; lra. }
    pose proof (fl_bound _ _ Hs ltac:(lra)) as B. lra.
  - apply (Qabs_inject_Z_le _ 1000000000). exact El.
  - apply used_entry_bound; try lia; assumption.
  - apply (Qabs_inject_Z_le _ 1000000000). exact Et.
  - apply used_entry_bound; try lia; assumption.
Qed.

Lemma used_plus_slack_is_envelope_binary64_witness :
  bounded_envelope default_resources 1000000000 /\
  bounded_values (vertex_solver (build_model default_resources)) 10000000 /\
  exists sol,
    solve_hot_tubs_binary64 vertex_solver default_resources = Ok sol /\
    exists u s,
      dict_get (used sol) (resource_key Tubing) = Ok u /\
      dict_get (slack sol) (resource_key Tubing) = Ok s /\
      Qabs (u + s - inject_Z (envelope_amount Tubing default_resources)) <= tol /\
      Qabs (fadd u s - inject_Z (envelope_amount Tubing default_resources)) <= tol.
Proof.
  assert (He : bounded_envelope default_resources 1000000000).
  { unfold bounded_envelope. repeat split; vm_compute; discriminate. }
  assert (Hv : bounded_values (vertex_solver (build_model default_resources))
                              10000000).
  { vm_compute. split; discriminate. }
  assert (Hs : exists sol,
             solve_hot_tubs_binary64 vertex_solver default_resources = Ok sol).
  { eexists. vm_compute. reflexivity. }
  destruct Hs as (sol & Hs).
  split; [exact He |]. split; [exact Hv |].
  exists sol. split; [exact Hs |].
  exact (used_plus_slack_is_envelope_binary64
           vertex_solver default_resources sol He Hv Hs Tubing).
Defined.

(** The rounding of [delta_profit] on the difference of [-2^-60] and
    [0.125]: the float subtraction gives 0.125, which [round] takes to the
    double of 0.12; without the rounding of the subtraction it would be
    0.13. *)
Example delta_profit_binary64_tie :
  delta_profit_binary64 (- (1 # 1152921504606846976)) (1 # 8) == fl (12 # 100) /\
  delta_profit (- (1 # 1152921504606846976)) (1 # 8) == 13 # 100.
Proof. split; vm_compute; reflexivity. Qed.

(** X13: for profits of at most 1e9 in absolute value, [delta_profit], with
    the rounding of its float operations, returns the double nearest to a
    whole number of cents, within half a cent (and 1e-6) of the float
    difference [new_profit - base_profit] and of the exact difference. *)
Theorem delta_profit_binary64_rounds_to_cents (base_profit new_profit : Q) :
  Qabs base_profit <= 1000000000 -> Qabs new_profit <= 1000000000 ->
  (exists k : Z,
     delta_profit_binary64 base_profit new_profit = fl (inject_Z k / 100)) /\
  Qabs (delta_profit_binary64 base_profit new_profit -
        fsub new_profit base_profit) <= (1 # 200) + (1 # 1000000) /\
  Qabs (delta_profit_binary64 base_profit new_profit -
        (new_profit - base_profit)) <= (1 # 200) + (1 # 1000000).
Proof.
  intros Hb Hn. unfold delta_profit_binary64, fsub.
  split; [eexists; reflexivity |].
  assert (Hx : Qabs (new_profit - base_profit) <= 2000000000).
  { apply Qabs_Qle_condition in Hb. apply Qabs_Qle_condition in Hn.
    apply Qabs_Qle_condition. split; lra. }
  pose proof (fl_error_bounds _ _ Hx) as (Hx1 & Hx2).
  apply Qabs_Qle_condition in Hx. destruct Hx as (Hx3 & Hx4).
  set (y := fl (new_profit - base_profit)) in *.
  pose proof (py_round2_error y) as Hp.
  apply Qabs_Qle_condition in Hp. destruct Hp as (Hp1 & Hp2).
  assert (Hm : Qabs (py_round2 y) <= 2000000002).
  { apply Qabs_Qle_condition. split; lra. }
  pose proof (fl_error_bounds _ _ Hm) as (Hf1 & Hf2).
  generalize dependent (fl (py_round2 y)). intros d Hf1 Hf2.
  generalize dependent (py_round2 y). intros p Hp1 Hp2 _ Hf1 Hf2.
  split; apply Qabs_Qle_condition; split; lra.
Qed.

Lemma delta_profit_binary64_rounds_to_cents_witness :
  Qabs 66100 <= 1000000000 /\ Qabs 66300 <= 1000000000 /\
  Qabs (delta_profit_binary64 66100 66300 - (66300 - 66100))
    <= (1 # 200) + (1 # 1000000).
Proof.
  assert (Hb : Qabs 66100 <= 1000000000) by (vm_compute; discriminate).
  assert (Hn : Qabs 66300 <= 1000000000) by (vm_compute; discriminate).
  split; [exact Hb |]. split; [exact Hn |].
  exact (proj2 (proj2 (delta_profit_binary64_rounds_to_cents 66100 66300 Hb Hn))).
Defined.

(* ------------------------------------------------------------------ *)
(** ** Outcomes of the three questions *)

Lemma marginal_loop_inv (solver : Solver) (mk : Z -> Resources)
    (vals : list Z) :
  forall last fd bp,
    match marginal_loop solver mk vals last fd bp with
    | Ok _ => forall p, In p vals -> answers solver (mk p)
    | Raise e => e = SolverError /\
                 exists p, In p vals /\ ~ answers solver (mk p)
    end.
Proof.
  induction vals as [| p rest IH]; intros last fd bp; cbn [marginal_loop].
  - intros p Hp. inversion Hp.
  - destruct (answers_dec solver (mk p)) as [Ha | Hn].
    + destruct (solve_hot_tubs_answers solver (mk p) Ha) as (sol & Hs & _).
      rewrite Hs. cbn [bind].
      assert (Hstep : forall last' fd' bp',
                match marginal_loop solver mk rest last' fd' bp' with
                | Ok _ => forall q, In q (p :: rest) -> answers solver (mk q)
                | Raise e => e = SolverError /\
                             exists q, In q (p :: rest) /\
                                       ~ answers solver (mk q)
                end).
      { intros last' fd' bp'. specialize (IH last' fd' bp').
        destruct (marginal_loop solver mk rest last' fd' bp').
        - intros q [<- | Hq]; [exact Ha | apply IH; exact Hq].
        - destruct IH as (He & q & Hq & Hnq). split; [exact He |].
          exists q. split; [right; exact Hq | exact Hnq]. }
      destruct fd as [d |]; [| apply Hstep].
      destruct (exceeds_tol _ && _); apply Hstep.
    + rewrite (solve_hot_tubs_raises solver (mk p) Hn). cbn [bind].
      split; [reflexivity |]. exists p. split; [left; reflexivity | exact Hn].
Qed.

(** The outcomes of the body shared by [q1_more_pumps] and
    [q2_more_labor]. *)
Lemma marginal_report_cases (solver : Solver) (mk : Z -> Resources)
    (base max_test : Z) :
  mk base = default_resources -> (0 <= base)%Z ->
  ((base < max_test)%Z /\
   (forall p, (base <= p <= max_test)%Z -> answers solver (mk p)) /\
   exists r, marginal_report solver mk base max_test = Ok r) \/
  ((max_test <= base)%Z /\ answers solver (mk base) /\
   marginal_report solver mk base max_test = Raise TypeError) \/
  ((exists p, (base <= p <= Z.max base max_test)%Z /\ ~ answers solver (mk p)) /\
   marginal_report solver mk base max_test = Raise SolverError).
Proof.
  intros Hmk Hbase.
  destruct (answers_dec solver (mk base)) as [Ha | Hn].
  2:{ right. right. split; [exists base; split; [lia | exact Hn] |].
      unfold marginal_report. rewrite <- Hmk.
      rewrite (solve_hot_tubs_raises solver (mk base) Hn). reflexivity. }
  destruct (solve_hot_tubs_answers solver (mk base) Ha) as (sol & Hs & _).
  destruct (Z_lt_le_dec base max_test) as [Hlt | Hle].
  - pose proof (marginal_loop_inv solver mk (py_range (base + 1) (max_test + 1))
                  (profit sol) None None) as Hinv.
    destruct (marginal_loop solver mk (py_range (base + 1) (max_test + 1))
                (profit sol) None None) as [st | e] eqn:El.
    + left. split; [exact Hlt |].
      assert (Hans : forall p, (base <= p <= max_test)%Z -> answers solver (mk p)).
      { intros p Hp. destruct (Z.eq_dec p base) as [-> | Hne]; [exact Ha |].
        apply Hinv. apply py_range_in. lia. }
      split; [exact Hans |].
      eexists. apply (marginal_report_ok solver mk base Hmk Hbase max_test Hlt Hans).
    + right. right. destruct Hinv as (-> & p & Hp & Hnp).
      apply py_range_in in Hp.
      split; [exists p; split; [lia | exact Hnp] |].
      unfold marginal_report. rewrite <- Hmk, Hs. cbn [bind].
      rewrite El. reflexivity.
  - right. left. split; [exact Hle |]. split; [exact Ha |].
    unfold marginal_report. rewrite <- Hmk, Hs. cbn [bind].
    rewrite py_range_empty by lia. reflexivity.
Qed.

Lemma marginal_report_outcome (solver : Solver) (mk : Z -> Resources)
    (base max_test : Z) :
  mk base = default_resources -> (0 <= base)%Z ->
  ((exists r, marginal_report solver mk base max_test = Ok r) <->
   (base < max_test)%Z /\
   forall p, (base <= p <= max_test)%Z -> answers solver (mk p)) /\
  (marginal_report solver mk base max_test = Raise TypeError <->
   (max_test <= base)%Z /\ answers solver (mk base)) /\
  (marginal_report solver mk base max_test = Raise SolverError <->
   exists p, (base <= p <= Z.max base max_test)%Z /\ ~ answers solver (mk p)).
Proof.
  intros Hmk Hbase.
  destruct (marginal_report_cases solver mk base max_test Hmk Hbase)
    as [(Hlt & Hans & r & Hr) | [(Hle & Ha & Hr) | ((p & Hp & Hn) & Hr)]];
    rewrite Hr; (split; [split; intros H | split; split; intros H]).
  - split; assumption.
  - exists r. reflexivity.
  - discriminate.
  - lia.
  - discriminate.
  - destruct H as (q & Hq & Hnq). exfalso. apply Hnq, Hans. lia.
  - destruct H as (r & H). discriminate.
  - lia.
  - split; assumption.
  - reflexivity.
  - discriminate.
  - destruct H as (q & Hq & Hnq). exfalso. apply Hnq.
    replace q with base by lia. exact Ha.
  - destruct H as (r & H). discriminate.
  - destruct H as (Hlt & Hans). exfalso. apply Hn, Hans. lia.
  - discriminate.
  - destruct H as (Hle & Ha). exfalso. apply Hn.
    replace p with base by lia. exact Ha.
  - exists p. split; assumption.
  - reflexivity.
Qed.

(** X15: what [q1_more_pumps] and [q2_more_labor] do, in full.  They return
    exactly when [max_test] is above the baseline amount (200 pumps, 1566
    hours) and the solver answers the baseline and every tested envelope.
    With [max_test] at or below the baseline nothing is tested and printing
    the first delta raises [TypeError].  Otherwise the solver's exception
    ends the function. *)
Theorem marginal_questions_outcomes (solver : Solver) (max_test : Z) :
  (((exists r, q1_more_pumps solver max_test = Ok r) <->
    (200 < max_test)%Z /\
    forall p, (200 <= p <= max_test)%Z ->
              answers solver (pumps_envelope 1566 2880 p)) /\
   (q1_more_pumps solver max_test = Raise TypeError <->
    (max_test <= 200)%Z /\ answers solver default_resources) /\
   (q1_more_pumps solver max_test = Raise SolverError <->
    exists p, (200 <= p <= Z.max 200 max_test)%Z /\
              ~ answers solver (pumps_envelope 1566 2880 p))) /\
  (((exists r, q2_more_labor solver max_test = Ok r) <->
    (1566 < max_test)%Z /\
    forall h, (1566 <= h <= max_test)%Z ->
              answers solver (labor_envelope 200 2880 h)) /\
   (q2_more_labor solver max_test = Raise TypeError <->
    (max_test <= 1566)%Z /\ answers solver default_resources) /\
   (q2_more_labor solver max_test = Raise SolverError <->
    exists h, (1566 <= h <= Z.max 1566 max_test)%Z /\
              ~ answers solver (labor_envelope 200 2880 h))).
Proof.
  split.
  - rewrite q1_more_pumps_body.
    apply (marginal_report_outcome solver (pumps_envelope 1566 2880) 200
             max_test eq_refl). lia.
  - rewrite q2_more_labor_body.
    apply (marginal_report_outcome solver (labor_envelope 200 2880) 1566
             max_test eq_refl). lia.
Qed.

Lemma marginal_questions_outcomes_witness :
  ((200 <= 200)%Z /\ answers vertex_solver default_resources) /\
  q1_more_pumps vertex_solver 200 = Raise TypeError.
Proof.
  assert (H : (200 <= 200)%Z /\ answers vertex_solver default_resources).
  { split; [lia | apply vertex_solver_answers]. }
  split; [exact H |].
  exact (proj2 (proj1 (proj2 (proj1 (marginal_questions_outcomes
                                       vertex_solver 200)))) H).
Defined.

Lemma marginal_report_first (solver : Solver) (mk : Z -> Resources)
    (base max_test : Z) :
  mk base = default_resources -> (0 <= base)%Z ->
  (base < max_test)%Z ->
  (forall p, (base <= p <= max_test)%Z -> answers solver (mk p)) ->
  exists r,
    marginal_report solver mk base max_test = Ok r /\
    baseline_profit r = profit_of solver default_resources /\
    marginal_profit r = rounded_delta solver mk (base + 1) /\
    ((verdict r = NoBreakpoint /\
      forall p, (base + 1 < p <= max_test)%Z ->
        Qabs (rounded_delta solver mk p - rounded_delta solver mk (base + 1))
          <= tol) \/
     (exists b,
        verdict r = BreakpointNear (b - 1) b /\
        (base + 1 < b <= max_test)%Z /\
        tol < Qabs (rounded_delta solver mk b -
                    rounded_delta solver mk (base + 1)) /\
        forall p, (base + 1 < p < b)%Z ->
          Qabs (rounded_delta solver mk p - rounded_delta solver mk (base + 1))
            <= tol)).
Proof.
  intros Hmk Hbase Hlt Hans.
  rewrite (marginal_report_ok solver mk base Hmk Hbase max_test Hlt Hans).
  eexists. split; [reflexivity |].
  cbn [baseline_profit marginal_profit verdict].
  split; [reflexivity |]. split; [reflexivity |].
  destruct (find_first (rounded_deviates solver mk base) 1
              (Z.to_nat (max_test - base) - 1)) as [j |] eqn:Ef.
  - right. apply find_first_some in Ef. destruct Ef as (Hr & Ht & Hmin).
    exists (base + 1 + Z.of_nat j)%Z. split; [f_equal; lia |].
    split; [lia |]. split; [apply exceeds_tol_iff; exact Ht |].
    intros p Hp. apply exceeds_tol_false_iff.
    specialize (Hmin (Z.to_nat (p - (base + 1)))).
    unfold rounded_deviates in Hmin.
    replace (base + 1 + Z.of_nat (Z.to_nat (p - (base + 1))))%Z with p
      in Hmin by lia.
    apply Hmin. lia.
  - left. split; [reflexivity |].
    intros p Hp. apply exceeds_tol_false_iff.
    pose proof (find_first_none _ _ _ Ef (Z.to_nat (p - (base + 1)))) as Hf.
    unfold rounded_deviates in Hf.
    replace (base + 1 + Z.of_nat (Z.to_nat (p - (base + 1))))%Z with p
      in Hf by lia.
    apply Hf. lia.
Qed.

(** X16: what [q1_more_pumps] and [q2_more_labor] print.  The marginal
    profit is the rounded delta of the first step past the baseline.  The
    breakpoint named is the first tested value [b] whose rounded delta
    differs from that first one by more than [1e-6], printed as "constant
    until about [b - 1], breakpoint near [b]"; when no tested value does,
    no breakpoint is reported. *)
Theorem marginal_questions_name_first_deviation (solver : Solver)
    (max_test : Z) :
  ((200 < max_test)%Z ->
   (forall p, (200 <= p <= max_test)%Z ->
              answers solver (pumps_envelope 1566 2880 p)) ->
   exists r,
     q1_more_pumps solver max_test = Ok r /\
     baseline_profit r = profit_of solver default_resources /\
     marginal_profit r = rounded_delta solver (pumps_envelope 1566 2880) 201 /\
     ((verdict r = NoBreakpoint /\
       forall p, (201 < p <= max_test)%Z ->
         Qabs (rounded_delta solver (pumps_envelope 1566 2880) p -
               rounded_delta solver (pumps_envelope 1566 2880) 201) <= tol) \/
      (exists b,
         verdict r = BreakpointNear (b - 1) b /\
         (201 < b <= max_test)%Z /\
         tol < Qabs (rounded_delta solver (pumps_envelope 1566 2880) b -
                     rounded_delta solver (pumps_envelope 1566 2880) 201) /\
         forall p, (201 < p < b)%Z ->
           Qabs (rounded_delta solver (pumps_envelope 1566 2880) p -
                 rounded_delta solver (pumps_envelope 1566 2880) 201) <= tol))) /\
  ((1566 < max_test)%Z ->
   (forall h, (1566 <= h <= max_test)%Z ->
              answers solver (labor_envelope 200 2880 h)) ->
   exists r,
     q2_more_labor solver max_test = Ok r /\
     baseline_profit r = profit_of solver default_resources /\
     marginal_profit r = rounded_delta solver (labor_envelope 200 2880) 1567 /\
     ((verdict r = NoBreakpoint /\
       forall h, (1567 < h <= max_test)%Z ->
         Qabs (rounded_delta solver (labor_envelope 200 2880) h -
               rounded_delta solver (labor_envelope 200 2880) 1567) <= tol) \/
      (exists b,
         verdict r = BreakpointNear (b - 1) b /\
         (1567 < b <= max_test)%Z /\
         tol < Qabs (rounded_delta solver (labor_envelope 200 2880) b -
                     rounded_delta solver (labor_envelope 200 2880) 1567) /\
         forall h, (1567 < h < b)%Z ->
           Qabs (rounded_delta solver (labor_envelope 200 2880) h -
                 rounded_delta solver (labor_envelope 200 2880) 1567) <= tol))).
Proof.
  split; intros Hlt Hans.
  - rewrite q1_more_pumps_body.
    apply (marginal_report_first solver (pumps_envelope 1566 2880) 200
             max_test eq_refl ltac:(lia) Hlt Hans).
  - rewrite q2_more_labor_body.
    apply (marginal_report_first solver (labor_envelope 200 2880) 1566
             max_test eq_refl ltac:(lia) Hlt Hans).
Qed.

Lemma marginal_questions_name_first_deviation_witness :
  (200 < 220)%Z /\
  exists r,
    q1_more_pumps vertex_solver 220 = Ok r /\
    baseline_profit r = profit_of vertex_solver default_resources /\
    marginal_profit r =
      rounded_delta vertex_solver (pumps_envelope 1566 2880) 201 /\
    ((verdict r = NoBreakpoint /\
      forall p, (201 < p <= 220)%Z ->
        Qabs (rounded_delta vertex_solver (pumps_envelope 1566 2880) p -
              rounded_delta vertex_solver (pumps_envelope 1566 2880) 201)
          <= tol) \/
     (exists b,
        verdict r = BreakpointNear (b - 1) b /\
        (201 < b <= 220)%Z /\
        tol < Qabs (rounded_delta vertex_solver (pumps_envelope 1566 2880) b -
                    rounded_delta vertex_solver (pumps_envelope 1566 2880) 201) /\
        forall p, (201 < p < b)%Z ->
          Qabs (rounded_delta vertex_solver (pumps_envelope 1566 2880) p -
                rounded_delta vertex_solver (pumps_envelope 1566 2880) 201)
            <= tol)).
Proof.
  split; [lia |].
  apply (proj1 (marginal_questions_name_first_deviation vertex_solver 220));
    [lia |].
  intros p _. apply vertex_solver_answers.
Defined.

Lemma tubing_loop_raise (solver : Solver) (mk : Z -> Resources)
    (vals : list Z) (last : Q) (e : exn) :
  tubing_loop solver mk vals last = Raise e -> e = SolverError.
Proof.
  revert last. induction vals as [| t rest IH]; intros last;
    cbn [tubing_loop]; [discriminate |].
  destruct (answers_dec solver (mk t)) as [Ha | Hn].
  - destruct (solve_hot_tubs_answers solver (mk t) Ha) as (sol & Hs & _).
    rewrite Hs. cbn [bind].
    destruct (exceeds_tol _); [discriminate | apply IH].
  - rewrite (solve_hot_tubs_raises solver (mk t) Hn). cbn [bind].
    intros H. inversion H. reflexivity.
Qed.

Lemma q3_more_tubing_raise (solver : Solver) (increment : Z) (e : exn) :
  q3_more_tubing solver increment = Raise e -> e = SolverError.
Proof.
  unfold q3_more_tubing. cbv zeta.
  destruct (answers_dec solver default_resources) as [Ha | Hn].
  - destruct (solve_hot_tubs_answers solver default_resources Ha)
      as (sol & Hs & _).
    rewrite Hs. cbn [bind].
    destruct (tubing_loop solver _ _ _) eqn:El; cbn [bind]; [discriminate |].
    intros H. inversion H; subst. exact (tubing_loop_raise _ _ _ _ _ El).
  - rewrite (solve_hot_tubs_raises solver default_resources Hn). cbn [bind].
    intros H. inversion H. reflexivity.
Qed.

(** X17: the edges of [q3_more_tubing].  When the solver raises on the
    baseline the function raises that exception; with [increment <= 0]
    (and an answered baseline) it tests no value and reports tubing as
    non-binding; and whatever the arguments, it raises nothing but the
    solver's exception. *)
Theorem tubing_question_edges (solver : Solver) (increment : Z) :
  (~ answers solver default_resources ->
   q3_more_tubing solver increment = Raise SolverError) /\
  (answers solver default_resources -> (increment <= 0)%Z ->
   q3_more_tubing solver increment =
   Ok (mkTubingReport (profit_of solver default_resources) TubingNonBinding)) /\
  (forall e, q3_more_tubing solver increment = Raise e -> e = SolverError).
Proof.
  split; [| split].
  - intros Hn. unfold q3_more_tubing. cbv zeta.
    rewrite (solve_hot_tubs_raises solver default_resources Hn). reflexivity.
  - intros Ha Hle. rewrite (q3_more_tubing_body solver increment Ha).
    replace (Z.to_nat increment) with 0%nat by lia. reflexivity.
  - intros e. apply q3_more_tubing_raise.
Qed.

Lemma tubing_question_edges_witness :
  (~ answers raising_solver default_resources /\
   q3_more_tubing raising_solver 50 = Raise SolverError) /\
  (answers vertex_solver default_resources /\ (0 <= 0)%Z /\
   q3_more_tubing vertex_solver 0 =
   Ok (mkTubingReport (profit_of vertex_solver default_resources)
                      TubingNonBinding)).
Proof.
  assert (Hn : ~ answers raising_solver default_resources).
  { intros H. apply H. reflexivity. }
  split.
  - split; [exact Hn |].
    exact (proj1 (tubing_question_edges raising_solver 50) Hn).
  - split; [apply vertex_solver_answers |]. split; [lia |].
    apply (proj1 (proj2 (tubing_question_edges vertex_solver 0)));
      [apply vertex_solver_answers | lia].
Defined.

(* ------------------------------------------------------------------ *)
(** ** The two main functions *)

Lemma marginal_report_raise (solver : Solver) (mk : Z -> Resources)
    (base max_test : Z) (e : exn) :
  mk base = default_resources -> (0 <= base)%Z -> (base < max_test)%Z ->
  marginal_report solver mk base max_test = Raise e -> e = SolverError.
Proof.
  intros Hmk Hbase Hlt.
  destruct (marginal_report_cases solver mk base max_test Hmk Hbase)
    as [(_ & _ & r & Hr) | [(Hle & _ & _) | (_ & Hr)]].
  - rewrite Hr. discriminate.
  - lia.
  - rewrite Hr. intros H. inversion H. reflexivity.
Qed.

(** X18: [main] of sensitivity.py, which asks the three questions with
    their default arguments (220 pumps, 1800 hours, 50 feet), fails only
    when the solver raises, and returns when the solver answers every
    envelope: the defaults never reach the [TypeError] of an empty test
    range. *)
Theorem sensitivity_main_fails_only_by_solver (solver : Solver) :
  (forall e, sensitivity_main solver = Raise e -> e = SolverError) /\
  ((forall res, answers solver res) ->
   exists out, sensitivity_main solver = Ok out).
Proof.
  split.
  - intros e. unfold sensitivity_main.
    destruct (answers_dec solver default_resources) as [Ha | Hn].
    2:{ rewrite (solve_hot_tubs_raises solver default_resources Hn).
        cbn [bind]. intros H. inversion H. reflexivity. }
    destruct (solve_hot_tubs_answers solver default_resources Ha)
      as (sol & Hs & _).
    rewrite Hs. cbn [bind].
    destruct (q1_more_pumps solver 220) as [r1 | e1] eqn:E1; cbn [bind].
    2:{ intros H. inversion H; subst. rewrite q1_more_pumps_body in E1.
        apply (marginal_report_raise solver (pumps_envelope 1566 2880)
                 200 220 e eq_refl); [lia | lia | exact E1]. }
    destruct (q2_more_labor solver 1800) as [r2 | e2] eqn:E2; cbn [bind].
    2:{ intros H. inversion H; subst. rewrite q2_more_labor_body in E2.
        apply (marginal_report_raise solver (labor_envelope 200 2880)
                 1566 1800 e eq_refl); [lia | lia | exact E2]. }
    destruct (q3_more_tubing solver 50) as [r3 | e3] eqn:E3; cbn [bind].
    2:{ intros H. inversion H; subst. exact (q3_more_tubing_raise _ _ _ E3). }
    discriminate.
  - intros Hans. unfold sensitivity_main.
    destruct (solve_hot_tubs_answers solver default_resources (Hans _))
      as (sol & Hs & _).
    rewrite Hs. cbn [bind].
    rewrite q1_more_pumps_body, q2_more_labor_body.
    destruct (proj2 (proj1 (marginal_report_outcome solver
                              (pumps_envelope 1566 2880) 200 220
                              eq_refl ltac:(lia))))
      as (r1 & E1); [split; [lia | intros; apply Hans] |].
    rewrite E1. cbn [bind].
    destruct (proj2 (proj1 (marginal_report_outcome solver
                              (labor_envelope 200 2880) 1566 1800
                              eq_refl ltac:(lia))))
      as (r2 & E2); [split; [lia | intros; apply Hans] |].
    rewrite E2. cbn [bind].
    destruct (q3_more_tubing_detects solver 50 (Hans _)) as (r3 & E3 & _);
      [intros; apply Hans |].
    rewrite E3. cbn [bind]. eexists. reflexivity.
Qed.

Lemma sensitivity_main_fails_only_by_solver_witness :
  (forall res, answers vertex_solver res) /\
  exists out, sensitivity_main vertex_solver = Ok out.
Proof.
  split; [exact vertex_solver_answers |].
  exact (proj2 (sensitivity_main_fails_only_by_solver vertex_solver)
           vertex_solver_answers).
Defined.

(** X19: [main] of run_analysis.py fails only when the solver raises, and
    returns when the solver answers every envelope.  When it returns, both
    figures were drawn with the breakpoint line of their curve and saved,
    to profit_vs_pumps.png and profit_vs_labor.png. *)
Theorem run_analysis_main_draws_both_breakpoints (solver : Solver) :
  (forall e, run_analysis_main solver = Raise e -> e = SolverError) /\
  (forall out, run_analysis_main solver = Ok out ->
     sensitivity_curve_pumps solver 200 220 1566 2880 = Ok (run_pumps out) /\
     sensitivity_curve_labor solver 1566 1820 200 2880 = Ok (run_labor out) /\
     In (PltAxvline (curve_breakpoint_at (run_pumps out))) (run_pumps_plot out) /\
     In (PltSavefig "profit_vs_pumps.png") (run_pumps_plot out) /\
     In (PltAxvline (curve_breakpoint_at (run_labor out))) (run_labor_plot out) /\
     In (PltSavefig "profit_vs_labor.png") (run_labor_plot out)) /\
  ((forall res, answers solver res) ->
   exists out, run_analysis_main solver = Ok out).
Proof.
  assert (Hsteps :
    match solve_hot_tubs solver (mkResources 200 1566 2880) with
    | Raise _ => run_analysis_main solver = Raise SolverError
    | Ok base =>
        match sensitivity_curve_pumps solver 200 220 1566 2880 with
        | Raise _ => run_analysis_main solver = Raise SolverError
        | Ok pc =>
            match sensitivity_curve_labor solver 1566 1820 200 2880 with
            | Raise _ => run_analysis_main solver = Raise SolverError
            | Ok lc =>
                run_analysis_main solver =
                Ok (mkAnalysisRun base pc
                      (fst (plot_curve (curve_xs pc) (curve_profits pc)
                              (curve_breakpoint_at pc)
                              "Number of Pumps Available"
                              "Profit vs Pumps (Breakpoint marked)"
                              "profit_vs_pumps.png"))
                      lc
                      (fst (plot_curve (curve_xs lc) (curve_profits lc)
                              (curve_breakpoint_at lc)
                              "Labor Hours Available"
                              "Profit vs Labor (Breakpoint marked)"
                              "profit_vs_labor.png")))
            end
        end
    end).
  { unfold run_analysis_main.
    destruct (answers_dec solver (mkResources 200 1566 2880)) as [Ha | Hn].
    2:{ rewrite (solve_hot_tubs_raises solver _ Hn). reflexivity. }
    destruct (solve_hot_tubs_answers solver _ Ha) as (sol & Hs & _).
    rewrite Hs. cbn [bind].
    destruct (sensitivity_curve_pumps solver 200 220 1566 2880)
      as [pc | e1] eqn:E1; cbn [bind].
    2:{ rewrite sensitivity_curve_pumps_body in E1.
        rewrite (sensitivity_curve_raise solver (pumps_envelope 1566 2880)
                   200 220 e1 ltac:(lia) E1). reflexivity. }
    cbv zeta. pose proof E1 as E1'.
    rewrite sensitivity_curve_pumps_body in E1'.
    rewrite (plot_curve_on_sweep _ _ _ _ _ _ _ _ E1').
    cbn [snd fst bind].
    destruct (sensitivity_curve_labor solver 1566 1820 200 2880)
      as [lc | e2] eqn:E2; cbn [bind].
    2:{ rewrite sensitivity_curve_labor_body in E2.
        rewrite (sensitivity_curve_raise solver (labor_envelope 200 2880)
                   1566 1820 e2 ltac:(lia) E2). reflexivity. }
    pose proof E2 as E2'. rewrite sensitivity_curve_labor_body in E2'.
    rewrite (plot_curve_on_sweep _ _ _ _ _ _ _ _ E2').
    cbn [snd fst bind]. reflexivity. }
  split; [| split].
  - intros e He.
    destruct (solve_hot_tubs solver (mkResources 200 1566 2880));
      [| congruence].
    destruct (sensitivity_curve_pumps solver 200 220 1566 2880);
      [| congruence].
    destruct (sensitivity_curve_labor solver 1566 1820 200 2880); congruence.
  - intros out Hout.
    destruct (solve_hot_tubs solver (mkResources 200 1566 2880));
      [| congruence].
    destruct (sensitivity_curve_pumps solver 200 220 1566 2880)
      as [pc | e1] eqn:E1; [| congruence].
    destruct (sensitivity_curve_labor solver 1566 1820 200 2880)
      as [lc | e2] eqn:E2; [| congruence].
    rewrite Hsteps in Hout. inversion Hout; subst out; clear Hout.
    cbn [run_pumps run_labor run_pumps_plot run_labor_plot].
    pose proof E1 as E1'. rewrite sensitivity_curve_pumps_body in E1'.
    pose proof E2 as E2'. rewrite sensitivity_curve_labor_body in E2'.
    rewrite (plot_curve_on_sweep _ _ _ _ _ _ _ _ E1').
    rewrite (plot_curve_on_sweep _ _ _ _ _ _ _ _ E2').
    cbn [fst In].
    repeat split; auto 12.
  - intros Hans.
    destruct (solve_hot_tubs_answers solver (mkResources 200 1566 2880) (Hans _))
      as (sol & Hs & _).
    rewrite Hs in Hsteps.
    rewrite sensitivity_curve_pumps_body, sensitivity_curve_labor_body in Hsteps.
    destruct (proj2 (proj1 (sensitivity_curve_outcome solver
                              (pumps_envelope 1566 2880) 200 220)))
      as (pc & E1); [split; [lia | intros; apply Hans] |].
    rewrite E1 in Hsteps.
    destruct (proj2 (proj1 (sensitivity_curve_outcome solver
                              (labor_envelope 200 2880) 1566 1820)))
      as (lc & E2); [split; [lia | intros; apply Hans] |].
    rewrite E2 in Hsteps.
    eexists. exact Hsteps.
Qed.

Lemma run_analysis_main_draws_both_breakpoints_witness :
  (forall res, answers vertex_solver res) /\
  exists out, run_analysis_main vertex_solver = Ok out.
Proof.
  split; [exact vertex_solver_answers |].
  exact (proj2 (proj2 (run_analysis_main_draws_both_breakpoints vertex_solver))
           vertex_solver_answers).
Defined.
